(** * Workspace and project route handlers of the jira-clone backend

    A shallow embedding of [src/features/workspaces/server/route.ts],
    [src/features/projects/server/route.ts] and [getMember]
    ([features/members/utils]) over an explicit model of the record store
    and the image bucket they talk to.

    - Rows are records with the columns of [config/supabase.ts]; tables are
      lists of rows in insertion order.
    - A handler is a computation in a small state monad.  The state holds
      the store, the trace of backend calls issued so far and the number of
      random identifiers drawn.  The environment is read-only: it tells
      which backend call of the run fails (and with which message), which
      random strings are produced, and what the clock shows.
    - The store enforces the constraints of the schema in
      [SUPABASE_SETUP.md]: primary keys, UNIQUE(invite_code),
      UNIQUE(user_id, workspace_id), the foreign keys with ON DELETE CASCADE
      and the updated_at trigger.  Row-level policies are not part of the
      model; a call they would reject is one of the failing calls of the
      environment. *)

From Stdlib Require Import ZArith List Ascii String DecimalString Bool Arith Lia.
From Stdlib Require Import Sorted.
Import ListNotations.

Local Open Scope string_scope.
Local Open Scope list_scope.
Local Open Scope Z_scope.

(** ** Enumerations *)

(** Modelled from the spec: [MemberRole] of [features/members/types] is not
    among the sources; a member's role is "member | admin" (the schema's
    [member_role] enum). *)
Module MemberRole.
Inductive t := MEMBER | ADMIN.

Definition eqb (a b : t) : bool :=
  match a, b with
  | MEMBER, MEMBER | ADMIN, ADMIN => true
  | _, _ => false
  end.
End MemberRole.

(** Modelled from the spec: [TaskStatus] of [features/tasks/types] is not
    among the sources; a task's status is one of the closed enumeration
    backlog, todo, in-progress, in-review, done (the schema's [task_status]
    enum). *)
Module TaskStatus.
Inductive t := BACKLOG | TODO | IN_PROGRESS | IN_REVIEW | DONE.

Definition eqb (a b : t) : bool :=
  match a, b with
  | BACKLOG, BACKLOG | TODO, TODO | IN_PROGRESS, IN_PROGRESS
  | IN_REVIEW, IN_REVIEW | DONE, DONE => true
  | _, _ => false
  end.
End TaskStatus.

(** [TABLES] of [config/supabase.ts]. *)
Module TABLES.
Inductive t := MEMBERS | PROJECTS | TASKS | WORKSPACES.
End TABLES.

(** ** Rows ([Database] of [config/supabase.ts])

    Identifiers are strings; timestamps are instants in milliseconds. *)

Module Workspace.
Record t := {
  id : string;
  name : string;
  user_id : string;
  image_id : option string;
  invite_code : string;
  created_at : Z;
  updated_at : Z
}.
End Workspace.

Module Project.
Record t := {
  id : string;
  name : string;
  description : option string;
  workspace_id : string;
  image_id : option string;
  created_at : Z;
  updated_at : Z
}.
End Project.

Module Task.
Record t := {
  id : string;
  name : string;
  description : option string;
  status : TaskStatus.t;
  workspace_id : string;
  project_id : string;
  assignee_id : string;
  due_date : option Z;
  position : Z;
  created_at : Z;
  updated_at : Z
}.
End Task.

Module Member.
Record t := {
  id : string;
  user_id : string;
  workspace_id : string;
  role : MemberRole.t;
  created_at : Z;
  updated_at : Z
}.
End Member.

(** The [Update] payloads the handlers send.  A key that is [undefined] in
    the object literal is not sent, so the column keeps its value. *)
Record WorkspaceUpdate := {
  set_workspace_name : option string;
  set_workspace_image_id : option string;
  set_workspace_invite_code : option string
}.

Record ProjectUpdate := {
  set_project_name : option string;
  set_project_image_id : option string
}.

(** ** Store, environment, state *)

Record Store := {
  workspaces : list Workspace.t;
  projects : list Project.t;
  tasks : list Task.t;
  members : list Member.t;
  images : list string            (* paths held by the images bucket *)
}.

(** The functions of date-fns the analytics handlers call.  They belong to
    an external library and are taken as given. *)
Record DateFns := {
  startOfMonth : Z -> Z;
  endOfMonth : Z -> Z;
  subMonths : Z -> Z -> Z
}.

Record Env := {
  faults : nat -> option string;  (* the k-th backend call fails with this message *)
  random : nat -> string;         (* the k-th random identifier produced *)
  clock : Z;                      (* new Date() and the store's NOW() *)
  dates : DateFns;
  publicUrl : string -> string    (* storage getPublicUrl *)
}.

Inductive Call :=
| Select (table : TABLES.t)
| Insert (table : TABLES.t)
| Update (table : TABLES.t)
| Delete (table : TABLES.t)
| Upload (path : string)
| Remove (paths : list string).

Record State := {
  store : Store;
  trace : list Call;              (* backend calls issued, oldest first *)
  drawn : nat                     (* random identifiers consumed *)
}.

(** What a supabase call resolves to: [{ data, error }]. *)
Inductive PostgrestResponse (A : Type) :=
| PgError (message : string)
| PgData (data : A).
Arguments PgError {A} message.
Arguments PgData {A} data.

(** ** The handler monad *)

Definition M (A : Type) : Type := Env -> State -> A * State.

Definition ret {A} (a : A) : M A := fun _ s => (a, s).

Definition bind {A B} (c : M A) (k : A -> M B) : M B :=
  fun e s => let (a, s') := c e s in k a e s'.

Notation "x <- c ;; k" := (bind c (fun x => k))
  (at level 61, c at next level, right associativity).

Definition ask : M Env := fun e s => (e, s).

(** One random identifier: crypto.randomUUID, generateInviteCode and the
    store's uuid_generate_v4 all draw from the same source. *)
Definition draw : M string :=
  fun e s =>
    (random e (drawn s),
     {| store := store s; trace := trace s; drawn := S (drawn s) |}).

(** One awaited backend call.  The call is recorded; it fails when the
    environment says so, or when the store rejects it, and then leaves the
    store as it was. *)
Definition await {A} (c : Call) (act : Store -> PostgrestResponse (A * Store))
  : M (PostgrestResponse A) :=
  fun e s =>
    let tr := trace s ++ [c] in
    match faults e (List.length (trace s)) with
    | Some message =>
        (PgError message, {| store := store s; trace := tr; drawn := drawn s |})
    | None =>
        match act (store s) with
        | PgError message =>
            (PgError message, {| store := store s; trace := tr; drawn := drawn s |})
        | PgData (a, st) =>
            (PgData a, {| store := st; trace := tr; drawn := drawn s |})
        end
    end.

(** A call that only reads. *)
Definition query {A} (c : Call) (q : Store -> PostgrestResponse A)
  : M (PostgrestResponse A) :=
  await c (fun st => match q st with
                     | PgError m => PgError m
                     | PgData a => PgData (a, st)
                     end).

(** ** Query building blocks *)

(** [.single()]: exactly one row, otherwise an error. *)
Definition single_error : string :=
  "JSON object requested, multiple (or no) rows returned".

Definition single {A} (rows : list A) : PostgrestResponse A :=
  match rows with
  | [r] => PgData r
  | _ => PgError single_error
  end.

(** The rows a chain of filters keeps. *)
Definition matching {A} (filters : list (A -> bool)) (rows : list A) : list A :=
  filter (fun r => forallb (fun f => f r) filters) rows.

(** [.select('*', { count: 'exact', head: true })]: the number of rows. *)
Definition count_rows {A} (filters : list (A -> bool)) (rows : list A) : Z :=
  Z.of_nat (List.length (matching filters rows)).

(** JavaScript's [count || 0] on [number | null]. *)
Definition or_zero (count : option Z) : Z :=
  match count with
  | Some n => n
  | None => 0
  end.

(** JavaScript truthiness of [string | null | undefined]. *)
Definition truthy (s : option string) : bool :=
  match s with
  | Some EmptyString => false
  | Some _ => true
  | None => false
  end.

(** [name.split('.').at(-1)]: the text after the last dot, the whole name
    when it has none.  [split] never returns an empty array, so the
    [?? 'png'] of the source is never taken. *)
Fixpoint last_segment_from (acc : string) (s : string) : string :=
  match s with
  | EmptyString => acc
  | String c rest =>
      if Ascii.eqb c "."%char
      then last_segment_from rest rest
      else last_segment_from acc rest
  end.

Definition last_segment (s : string) : string := last_segment_from s s.

(** [.order('created_at', { ascending: false })], a stable insertion sort. *)
Fixpoint insert_desc {A} (key : A -> Z) (x : A) (l : list A) : list A :=
  match l with
  | [] => [x]
  | y :: l' => if key y <=? key x then x :: l else y :: insert_desc key x l'
  end.

Definition order_desc {A} (key : A -> Z) (l : list A) : list A :=
  fold_right (insert_desc key) [] l.

(** Column filters on tasks, one per [.eq], [.neq], [.lt], [.gte], [.lte]
    of the analytics queries.  A comparison with a null due date is not
    true, as in SQL. *)
Module TaskFilter.
Definition eq_workspace_id (v : string) (t : Task.t) : bool :=
  String.eqb (Task.workspace_id t) v.

Definition eq_project_id (v : string) (t : Task.t) : bool :=
  String.eqb (Task.project_id t) v.

Definition eq_assignee_id (v : string) (t : Task.t) : bool :=
  String.eqb (Task.assignee_id t) v.

Definition eq_status (v : TaskStatus.t) (t : Task.t) : bool :=
  TaskStatus.eqb (Task.status t) v.

Definition neq_status (v : TaskStatus.t) (t : Task.t) : bool :=
  negb (TaskStatus.eqb (Task.status t) v).

Definition lt_due_date (v : Z) (t : Task.t) : bool :=
  match Task.due_date t with
  | Some d => d <? v
  | None => false
  end.

Definition gte_created_at (v : Z) (t : Task.t) : bool :=
  v <=? Task.created_at t.

Definition lte_created_at (v : Z) (t : Task.t) : bool :=
  Task.created_at t <=? v.
End TaskFilter.

(** ** The record store *)

Definition duplicate_key : string :=
  "duplicate key value violates unique constraint".

Definition foreign_key_violation : string :=
  "insert or update on table violates foreign key constraint".

Definition resource_exists : string := "The resource already exists".

Definition with_workspaces (st : Store) (l : list Workspace.t) : Store :=
  {| workspaces := l; projects := projects st; tasks := tasks st;
     members := members st; images := images st |}.

Definition with_projects (st : Store) (l : list Project.t) : Store :=
  {| workspaces := workspaces st; projects := l; tasks := tasks st;
     members := members st; images := images st |}.

Definition with_tasks (st : Store) (l : list Task.t) : Store :=
  {| workspaces := workspaces st; projects := projects st; tasks := l;
     members := members st; images := images st |}.

Definition with_members (st : Store) (l : list Member.t) : Store :=
  {| workspaces := workspaces st; projects := projects st; tasks := tasks st;
     members := l; images := images st |}.

Definition with_images (st : Store) (l : list string) : Store :=
  {| workspaces := workspaces st; projects := projects st; tasks := tasks st;
     members := members st; images := l |}.

Definition workspace_by_id (id : string) (st : Store) : list Workspace.t :=
  filter (fun w => String.eqb (Workspace.id w) id) (workspaces st).

Definition project_by_id (id : string) (st : Store) : list Project.t :=
  filter (fun p => String.eqb (Project.id p) id) (projects st).

Definition member_rows (workspaceId userId : string) (st : Store)
  : list Member.t :=
  filter (fun m => String.eqb (Member.workspace_id m) workspaceId
                   && String.eqb (Member.user_id m) userId) (members st).

(** INSERT INTO workspaces: primary key and UNIQUE(invite_code). *)
Definition insert_workspace (row : Workspace.t) (st : Store)
  : PostgrestResponse (Workspace.t * Store) :=
  if existsb (fun w => String.eqb (Workspace.id w) (Workspace.id row)
                       || String.eqb (Workspace.invite_code w)
                                     (Workspace.invite_code row))
             (workspaces st)
  then PgError duplicate_key
  else PgData (row, with_workspaces st (workspaces st ++ [row])).

(** INSERT INTO members: primary key, UNIQUE(user_id, workspace_id) and the
    foreign key to workspaces. *)
Definition insert_member (row : Member.t) (st : Store)
  : PostgrestResponse (unit * Store) :=
  if existsb (fun m => String.eqb (Member.id m) (Member.id row)
                       || (String.eqb (Member.user_id m) (Member.user_id row)
                           && String.eqb (Member.workspace_id m)
                                         (Member.workspace_id row)))
             (members st)
  then PgError duplicate_key
  else if existsb (fun w => String.eqb (Workspace.id w) (Member.workspace_id row))
                  (workspaces st)
  then PgData (tt, with_members st (members st ++ [row]))
  else PgError foreign_key_violation.

(** INSERT INTO projects: primary key and the foreign key to workspaces. *)
Definition insert_project (row : Project.t) (st : Store)
  : PostgrestResponse (Project.t * Store) :=
  if existsb (fun p => String.eqb (Project.id p) (Project.id row)) (projects st)
  then PgError duplicate_key
  else if existsb (fun w => String.eqb (Workspace.id w) (Project.workspace_id row))
                  (workspaces st)
  then PgData (row, with_projects st (projects st ++ [row]))
  else PgError foreign_key_violation.

Definition or_keep {A} (new : option A) (old : A) : A :=
  match new with
  | Some v => v
  | None => old
  end.

(** The row after an UPDATE with payload [u]; the trigger refreshes
    updated_at. *)
Definition apply_workspace_update (u : WorkspaceUpdate) (now : Z)
  (w : Workspace.t) : Workspace.t :=
  {| Workspace.id := Workspace.id w;
     Workspace.name := or_keep (set_workspace_name u) (Workspace.name w);
     Workspace.user_id := Workspace.user_id w;
     Workspace.image_id :=
       match set_workspace_image_id u with
       | Some v => Some v
       | None => Workspace.image_id w
       end;
     Workspace.invite_code :=
       or_keep (set_workspace_invite_code u) (Workspace.invite_code w);
     Workspace.created_at := Workspace.created_at w;
     Workspace.updated_at := now |}.

(** [.update(u).eq('id', id).select().single()]: the request asks for one
    object, so it fails, changing nothing, unless exactly one row matches;
    UNIQUE(invite_code) is checked against the other rows. *)
Definition update_workspace (id : string) (u : WorkspaceUpdate) (now : Z)
  (st : Store) : PostgrestResponse (Workspace.t * Store) :=
  match workspace_by_id id st with
  | [w] =>
      if match set_workspace_invite_code u with
         | Some code =>
             existsb (fun x => negb (String.eqb (Workspace.id x) id)
                               && String.eqb (Workspace.invite_code x) code)
                     (workspaces st)
         | None => false
         end
      then PgError duplicate_key
      else PgData (apply_workspace_update u now w,
                   with_workspaces st
                     (map (fun x => if String.eqb (Workspace.id x) id
                                    then apply_workspace_update u now x
                                    else x)
                          (workspaces st)))
  | _ => PgError single_error
  end.

Definition apply_project_update (u : ProjectUpdate) (now : Z)
  (p : Project.t) : Project.t :=
  {| Project.id := Project.id p;
     Project.name := or_keep (set_project_name u) (Project.name p);
     Project.description := Project.description p;
     Project.workspace_id := Project.workspace_id p;
     Project.image_id :=
       match set_project_image_id u with
       | Some v => Some v
       | None => Project.image_id p
       end;
     Project.created_at := Project.created_at p;
     Project.updated_at := now |}.

Definition update_project (id : string) (u : ProjectUpdate) (now : Z)
  (st : Store) : PostgrestResponse (Project.t * Store) :=
  match project_by_id id st with
  | [p] =>
      PgData (apply_project_update u now p,
              with_projects st
                (map (fun x => if String.eqb (Project.id x) id
                               then apply_project_update u now x
                               else x)
                     (projects st)))
  | _ => PgError single_error
  end.

(** DELETE FROM workspaces WHERE id = ..., with the cascade to projects,
    tasks and members. *)
Definition delete_workspace_row (id : string) (st : Store)
  : PostgrestResponse (unit * Store) :=
  PgData (tt,
    {| workspaces :=
         filter (fun w => negb (String.eqb (Workspace.id w) id)) (workspaces st);
       projects :=
         filter (fun p => negb (String.eqb (Project.workspace_id p) id))
                (projects st);
       tasks :=
         filter (fun t =>
                   negb (String.eqb (Task.workspace_id t) id)
                   && negb (existsb
                              (fun p => String.eqb (Project.id p) (Task.project_id t)
                                        && String.eqb (Project.workspace_id p) id)
                              (projects st)))
                (tasks st);
       members :=
         filter (fun m => negb (String.eqb (Member.workspace_id m) id))
                (members st);
       images := images st |}).

(** DELETE FROM projects WHERE id = ..., with the cascade to tasks. *)
Definition delete_project_row (id : string) (st : Store)
  : PostgrestResponse (unit * Store) :=
  PgData (tt,
    {| workspaces := workspaces st;
       projects :=
         filter (fun p => negb (String.eqb (Project.id p) id)) (projects st);
       tasks :=
         filter (fun t => negb (String.eqb (Task.project_id t) id)) (tasks st);
       members := members st;
       images := images st |}).

(** ** The images bucket *)

Definition storage_upload (path : string) (st : Store)
  : PostgrestResponse (string * Store) :=
  if existsb (String.eqb path) (images st)
  then PgError resource_exists
  else PgData (path, with_images st (images st ++ [path])).

Definition storage_remove (paths : list string) (st : Store)
  : PostgrestResponse (unit * Store) :=
  PgData (tt,
    with_images st
      (filter (fun k => negb (existsb (String.eqb k) paths)) (images st))).

(** ** Requests and responses *)

(** The [image] form field after validation: a [File], a string, or
    absent. *)
Record File := { file_name : string; file_type : string }.

Inductive FormImage :=
| ImageFile (file : File)
| ImageText (text : string).

Record Analytics := {
  taskCount : Z;
  taskDifference : Z;
  assignedTaskCount : Z;
  assignedTaskDifference : Z;
  completedTaskCount : Z;
  completedTaskDifference : Z;
  incompleteTaskCount : Z;
  incompleteTaskDifference : Z;
  overdueTaskCount : Z;
  overdueTaskDifference : Z
}.

(** The payloads under [data]. *)
Inductive Data :=
| OfWorkspace (workspace : Workspace.t)
| OfWorkspaceWithUrl (workspace : Workspace.t) (imageUrl : option string)
| OfWorkspaceInfo (id name : string)
| OfWorkspaces (documents : list (Workspace.t * option string)) (total : Z)
| OfId (id : string)
| OfProject (project : Project.t)
| OfProjectWithUrl (project : Project.t) (imageUrl : option string)
| OfProjects (documents : list (Project.t * option string)) (total : Z)
| OfProjectRef (id workspace_id : string)
| OfAnalytics (analytics : Analytics).

Inductive Json :=
| JsonError (error : string)
| JsonData (data : Data).

Record Response := { status : Z; body : Json }.

(** [ctx.json(body)] and [ctx.json(body, status)]. *)
Definition json (b : Json) : Response := {| status := 200; body := b |}.

Definition json_status (b : Json) (code : Z) : Response :=
  {| status := code; body := b |}.

Definition unauthorized : Response :=
  json_status (JsonError "Unauthorized.") 401.

(** The [imageUrl] the read handlers attach: the public URL when the row
    has a non-empty image id. *)
Definition image_url (e : Env) (image_id : option string) : option string :=
  if truthy image_id then option_map (publicUrl e) image_id else None.

(** Modelled from the spec: [generateInviteCode] of [lib/utils] is not
    among the sources; it produces "a short random invite code", here the
    next random string of the environment. *)
Definition generateInviteCode (length : nat) : M string := draw.

(** ** getMember ([features/members/utils]) *)

Definition getMember (workspaceId userId : string) : M (option Member.t) :=
  r <- query (Select TABLES.MEMBERS)
             (fun st => single (member_rows workspaceId userId st)) ;;
  match r with
  | PgError _ => ret None
  | PgData member => ret (Some member)
  end.

(** [!member || member.role !== MemberRole.ADMIN] *)
Definition not_admin (member : option Member.t) : bool :=
  match member with
  | None => true
  | Some m => negb (MemberRole.eqb (Member.role m) MemberRole.ADMIN)
  end.

(** The ten count queries share one shape. *)
Definition count_tasks (filters : list (Task.t -> bool)) : M (option Z) :=
  r <- query (Select TABLES.TASKS)
             (fun st => PgData (count_rows filters (tasks st))) ;;
  match r with
  | PgError _ => ret None
  | PgData n => ret (Some n)
  end.

(** ** [features/workspaces/server/route.ts]

    Every handler runs behind [sessionMiddleware], which has resolved the
    session cookie to [user]; the payload has passed its validator. *)

(** The [image] block the two POST / handlers share: a [File] is stored
    under a fresh name and its path becomes [uploadedImageId]; a string or
    an absent field is passed on as it is. *)
Definition upload_form_image (image : option FormImage)
  : M (PostgrestResponse (option string)) :=
  match image with
  | Some (ImageFile file) =>
      uuid <- draw ;;
      let fileExt := last_segment (file_name file) in
      let fileName := String.append uuid (String.append "." fileExt) in
      upload <- await (Upload fileName) (storage_upload fileName) ;;
      match upload with
      | PgError message => ret (PgError message)
      | PgData path => ret (PgData (Some path))
      end
  | Some (ImageText text) => ret (PgData (Some text))
  | None => ret (PgData None)
  end.

(** GET / *)
Definition get_workspaces (user : string) : M Response :=
  e <- ask ;;
  members <- query (Select TABLES.MEMBERS)
               (fun st => PgData (filter (fun m => String.eqb (Member.user_id m) user)
                                         (members st))) ;;
  match members with
  | PgError _ => ret (json (JsonData (OfWorkspaces [] 0)))
  | PgData [] => ret (json (JsonData (OfWorkspaces [] 0)))
  | PgData members =>
      let workspaceIds := map Member.workspace_id members in
      workspaces <- query (Select TABLES.WORKSPACES)
                      (fun st => PgData
                         (order_desc Workspace.created_at
                            (filter (fun w => existsb (String.eqb (Workspace.id w))
                                                      workspaceIds)
                                    (workspaces st)))) ;;
      match workspaces with
      | PgError message => ret (json_status (JsonError message) 500)
      | PgData workspaces =>
          let count : option Z := None in   (* the select asks for no count *)
          let workspacesWithImages :=
            map (fun w => (w, image_url e (Workspace.image_id w))) workspaces in
          ret (json (JsonData (OfWorkspaces workspacesWithImages (or_zero count))))
      end
  end.

(** POST / *)
Definition post_workspaces (user : string) (name : string)
  (image : option FormImage) : M Response :=
  e <- ask ;;
  let create (uploadedImageId : option string) : M Response :=
    invite_code <- generateInviteCode 6 ;;
    id <- draw ;;
    workspace <- await (Insert TABLES.WORKSPACES)
                   (insert_workspace
                      {| Workspace.id := id;
                         Workspace.name := name;
                         Workspace.user_id := user;
                         Workspace.image_id := uploadedImageId;
                         Workspace.invite_code := invite_code;
                         Workspace.created_at := clock e;
                         Workspace.updated_at := clock e |}) ;;
    match workspace with
    | PgError message => ret (json_status (JsonError message) 500)
    | PgData workspace =>
        (* Add creator as admin member *)
        member_id <- draw ;;
        member <- await (Insert TABLES.MEMBERS)
                    (insert_member
                       {| Member.id := member_id;
                          Member.user_id := user;
                          Member.workspace_id := Workspace.id workspace;
                          Member.role := MemberRole.ADMIN;
                          Member.created_at := clock e;
                          Member.updated_at := clock e |}) ;;
        match member with
        | PgError message => ret (json_status (JsonError message) 500)
        | PgData _ => ret (json (JsonData (OfWorkspace workspace)))
        end
    end in
  uploaded <- upload_form_image image ;;
  match uploaded with
  | PgError message => ret (json_status (JsonError message) 500)
  | PgData uploadedImageId => create uploadedImageId
  end.

(** GET /:workspaceId *)
Definition get_workspace (user : string) (workspaceId : string) : M Response :=
  e <- ask ;;
  member <- getMember workspaceId user ;;
  match member with
  | None => ret unauthorized
  | Some _ =>
      workspace <- query (Select TABLES.WORKSPACES)
                     (fun st => single (workspace_by_id workspaceId st)) ;;
      match workspace with
      | PgError message => ret (json_status (JsonError message) 500)
      | PgData workspace =>
          let imageUrl := image_url e (Workspace.image_id workspace) in
          ret (json (JsonData (OfWorkspaceWithUrl workspace imageUrl)))
      end
  end.

(** GET /:workspaceId/info *)
Definition get_workspace_info (workspaceId : string) : M Response :=
  workspace <- query (Select TABLES.WORKSPACES)
                 (fun st => single (workspace_by_id workspaceId st)) ;;
  match workspace with
  | PgError message => ret (json_status (JsonError message) 500)
  | PgData workspace =>
      (* select('id, name') *)
      ret (json (JsonData (OfWorkspaceInfo (Workspace.id workspace)
                                           (Workspace.name workspace))))
  end.

(** PATCH /:workspaceId *)
Definition patch_workspace (user : string) (workspaceId : string)
  (name : option string) (image : option FormImage) : M Response :=
  e <- ask ;;
  member <- getMember workspaceId user ;;
  if not_admin member then ret unauthorized
  else
    let update (uploadedImageId : option string) : M Response :=
      workspace <- await (Update TABLES.WORKSPACES)
                     (update_workspace workspaceId
                        {| set_workspace_name := name;
                           set_workspace_image_id := uploadedImageId;
                           set_workspace_invite_code := None |}
                        (clock e)) ;;
      match workspace with
      | PgError message => ret (json_status (JsonError message) 500)
      | PgData workspace => ret (json (JsonData (OfWorkspace workspace)))
      end in
    match image with
    | Some (ImageFile file) =>
        uuid <- draw ;;
        let fileExt := last_segment (file_name file) in
        let fileName := String.append uuid (String.append "." fileExt) in
        upload <- await (Upload fileName) (storage_upload fileName) ;;
        match upload with
        | PgError message => ret (json_status (JsonError message) 500)
        | PgData path =>
            (* Get existing workspace to delete old image *)
            existingWorkspace <- query (Select TABLES.WORKSPACES)
                                   (fun st => single (workspace_by_id workspaceId st)) ;;
            _ <- match existingWorkspace with
                 | PgData existing =>
                     if truthy (Workspace.image_id existing)
                     then
                       let old := match Workspace.image_id existing with
                                  | Some k => [k]
                                  | None => []
                                  end in
                       _ <- await (Remove old) (storage_remove old) ;; ret tt
                     else ret tt
                 | PgError _ => ret tt
                 end ;;
            update (Some path)
        end
    | _ => update None
    end.

(** DELETE /:workspaceId *)
Definition delete_workspace (user : string) (workspaceId : string)
  : M Response :=
  member <- getMember workspaceId user ;;
  if not_admin member then ret unauthorized
  else
    (* Get all projects and their images for cleanup *)
    projects <- query (Select TABLES.PROJECTS)
                  (fun st => PgData
                     (filter (fun p => String.eqb (Project.workspace_id p) workspaceId)
                             (projects st))) ;;
    (* Get workspace image *)
    workspace <- query (Select TABLES.WORKSPACES)
                   (fun st => single (workspace_by_id workspaceId st)) ;;
    let projectImages :=
      match projects with
      | PgData projects =>
          flat_map (fun p => if truthy (Project.image_id p)
                             then match Project.image_id p with
                                  | Some k => [k]
                                  | None => []
                                  end
                             else [])
                   projects
      | PgError _ => []
      end in
    let workspaceImage :=
      match workspace with
      | PgData w => if truthy (Workspace.image_id w)
                    then match Workspace.image_id w with
                         | Some k => [k]
                         | None => []
                         end
                    else []
      | PgError _ => []
      end in
    let imagesToDelete := projectImages ++ workspaceImage in
    _ <- match imagesToDelete with
         | [] => ret tt
         | _ => _ <- await (Remove imagesToDelete) (storage_remove imagesToDelete) ;;
                ret tt
         end ;;
    deleted <- await (Delete TABLES.WORKSPACES) (delete_workspace_row workspaceId) ;;
    match deleted with
    | PgError message => ret (json_status (JsonError message) 500)
    | PgData _ => ret (json (JsonData (OfId workspaceId)))
    end.

(** POST /:workspaceId/resetInviteCode *)
Definition post_reset_invite_code (user : string) (workspaceId : string)
  : M Response :=
  e <- ask ;;
  member <- getMember workspaceId user ;;
  if not_admin member then ret unauthorized
  else
    invite_code <- generateInviteCode 6 ;;
    workspace <- await (Update TABLES.WORKSPACES)
                   (update_workspace workspaceId
                      {| set_workspace_name := None;
                         set_workspace_image_id := None;
                         set_workspace_invite_code := Some invite_code |}
                      (clock e)) ;;
    match workspace with
    | PgError message => ret (json_status (JsonError message) 500)
    | PgData workspace => ret (json (JsonData (OfWorkspace workspace)))
    end.

(** POST /:workspaceId/join *)
Definition post_join (user : string) (workspaceId : string) (code : string)
  : M Response :=
  e <- ask ;;
  member <- getMember workspaceId user ;;
  match member with
  | Some _ => ret (json_status (JsonError "Already a member.") 400)
  | None =>
      workspace <- query (Select TABLES.WORKSPACES)
                     (fun st => single (workspace_by_id workspaceId st)) ;;
      match workspace with
      | PgError message => ret (json_status (JsonError message) 500)
      | PgData workspace =>
          if negb (String.eqb (Workspace.invite_code workspace) code)
          then ret (json_status (JsonError "Invalid invite code.") 400)
          else
            member_id <- draw ;;
            inserted <- await (Insert TABLES.MEMBERS)
                          (insert_member
                             {| Member.id := member_id;
                                Member.user_id := user;
                                Member.workspace_id := workspaceId;
                                Member.role := MemberRole.MEMBER;
                                Member.created_at := clock e;
                                Member.updated_at := clock e |}) ;;
            match inserted with
            | PgError message => ret (json_status (JsonError message) 500)
            | PgData _ => ret (json (JsonData (OfWorkspace workspace)))
            end
      end
  end.

(** GET /:workspaceId/analytics *)
Definition get_workspace_analytics (user : string) (workspaceId : string)
  : M Response :=
  e <- ask ;;
  member <- getMember workspaceId user ;;
  match member with
  | None => ret unauthorized
  | Some member =>
      let now := clock e in
      let thisMonthStart := startOfMonth (dates e) now in
      let thisMonthEnd := endOfMonth (dates e) now in
      let lastMonthStart := startOfMonth (dates e) (subMonths (dates e) now 1) in
      let lastMonthEnd := endOfMonth (dates e) (subMonths (dates e) now 1) in
      (* task counts *)
      thisMonthTaskCount <-
        count_tasks [TaskFilter.eq_workspace_id workspaceId;
                     TaskFilter.gte_created_at thisMonthStart;
                     TaskFilter.lte_created_at thisMonthEnd] ;;
      lastMonthTaskCount <-
        count_tasks [TaskFilter.eq_workspace_id workspaceId;
                     TaskFilter.gte_created_at lastMonthStart;
                     TaskFilter.lte_created_at lastMonthEnd] ;;
      let taskCount := or_zero thisMonthTaskCount in
      let taskDifference := taskCount - or_zero lastMonthTaskCount in
      (* assigned task counts *)
      thisMonthAssignedTaskCount <-
        count_tasks [TaskFilter.eq_workspace_id workspaceId;
                     TaskFilter.eq_assignee_id (Member.id member);
                     TaskFilter.gte_created_at thisMonthStart;
                     TaskFilter.lte_created_at thisMonthEnd] ;;
      lastMonthAssignedTaskCount <-
        count_tasks [TaskFilter.eq_workspace_id workspaceId;
                     TaskFilter.eq_assignee_id (Member.id member);
                     TaskFilter.gte_created_at lastMonthStart;
                     TaskFilter.lte_created_at lastMonthEnd] ;;
      let assignedTaskCount := or_zero thisMonthAssignedTaskCount in
      let assignedTaskDifference :=
        assignedTaskCount - or_zero lastMonthAssignedTaskCount in
      (* incomplete task counts *)
      thisMonthIncompleteTaskCount <-
        count_tasks [TaskFilter.eq_workspace_id workspaceId;
                     TaskFilter.neq_status TaskStatus.DONE;
                     TaskFilter.gte_created_at thisMonthStart;
                     TaskFilter.lte_created_at thisMonthEnd] ;;
      lastMonthIncompleteTaskCount <-
        count_tasks [TaskFilter.eq_workspace_id workspaceId;
                     TaskFilter.neq_status TaskStatus.DONE;
                     TaskFilter.gte_created_at lastMonthStart;
                     TaskFilter.lte_created_at lastMonthEnd] ;;
      let incompleteTaskCount := or_zero thisMonthIncompleteTaskCount in
      let incompleteTaskDifference :=
        incompleteTaskCount - or_zero lastMonthIncompleteTaskCount in
      (* completed task counts *)
      thisMonthCompletedTaskCount <-
        count_tasks [TaskFilter.eq_workspace_id workspaceId;
                     TaskFilter.eq_status TaskStatus.DONE;
                     TaskFilter.gte_created_at thisMonthStart;
                     TaskFilter.lte_created_at thisMonthEnd] ;;
      lastMonthCompletedTaskCount <-
        count_tasks [TaskFilter.eq_workspace_id workspaceId;
                     TaskFilter.eq_status TaskStatus.DONE;
                     TaskFilter.gte_created_at lastMonthStart;
                     TaskFilter.lte_created_at lastMonthEnd] ;;
      let completedTaskCount := or_zero thisMonthCompletedTaskCount in
      let completedTaskDifference :=
        completedTaskCount - or_zero lastMonthCompletedTaskCount in
      (* overdue task counts *)
      thisMonthOverdueTaskCount <-
        count_tasks [TaskFilter.eq_workspace_id workspaceId;
                     TaskFilter.neq_status TaskStatus.DONE;
                     TaskFilter.lt_due_date now;
                     TaskFilter.gte_created_at thisMonthStart;
                     TaskFilter.lte_created_at thisMonthEnd] ;;
      lastMonthOverdueTaskCount <-
        count_tasks [TaskFilter.eq_workspace_id workspaceId;
                     TaskFilter.neq_status TaskStatus.DONE;
                     TaskFilter.lt_due_date now;
                     TaskFilter.gte_created_at lastMonthStart;
                     TaskFilter.lte_created_at lastMonthEnd] ;;
      let overdueTaskCount := or_zero thisMonthOverdueTaskCount in
      let overdueTaskDifference :=
        overdueTaskCount - or_zero lastMonthOverdueTaskCount in
      ret (json (JsonData (OfAnalytics
        {| taskCount := taskCount;
           taskDifference := taskDifference;
           assignedTaskCount := assignedTaskCount;
           assignedTaskDifference := assignedTaskDifference;
           completedTaskCount := completedTaskCount;
           completedTaskDifference := completedTaskDifference;
           incompleteTaskCount := incompleteTaskCount;
           incompleteTaskDifference := incompleteTaskDifference;
           overdueTaskCount := overdueTaskCount;
           overdueTaskDifference := overdueTaskDifference |})))
  end.

(** ** [features/projects/server/route.ts] *)

(** POST / *)
Definition post_projects (user : string) (name : string)
  (image : option FormImage) (workspaceId : string) : M Response :=
  e <- ask ;;
  member <- getMember workspaceId user ;;
  match member with
  | None => ret unauthorized
  | Some _ =>
      let create (uploadedImageId : option string) : M Response :=
        id <- draw ;;
        project <- await (Insert TABLES.PROJECTS)
                     (insert_project
                        {| Project.id := id;
                           Project.name := name;
                           Project.description := None;
                           Project.workspace_id := workspaceId;
                           Project.image_id := uploadedImageId;
                           Project.created_at := clock e;
                           Project.updated_at := clock e |}) ;;
        match project with
        | PgError message => ret (json_status (JsonError message) 500)
        | PgData project => ret (json (JsonData (OfProject project)))
        end in
      uploaded <- upload_form_image image ;;
      match uploaded with
      | PgError message => ret (json_status (JsonError message) 500)
      | PgData uploadedImageId => create uploadedImageId
      end
  end.

(** GET /?workspaceId= *)
Definition get_projects (user : string) (workspaceId : string) : M Response :=
  e <- ask ;;
  member <- getMember workspaceId user ;;
  match member with
  | None => ret unauthorized
  | Some _ =>
      projects <- query (Select TABLES.PROJECTS)
                    (fun st => PgData
                       (order_desc Project.created_at
                          (filter (fun p => String.eqb (Project.workspace_id p)
                                                       workspaceId)
                                  (projects st)))) ;;
      match projects with
      | PgError message => ret (json_status (JsonError message) 500)
      | PgData projects =>
          let count : option Z := None in   (* the select asks for no count *)
          let projectsWithImages :=
            map (fun p => (p, image_url e (Project.image_id p))) projects in
          ret (json (JsonData (OfProjects projectsWithImages (or_zero count))))
      end
  end.

(** GET /:projectId *)
Definition get_project (user : string) (projectId : string) : M Response :=
  e <- ask ;;
  project <- query (Select TABLES.PROJECTS)
               (fun st => single (project_by_id projectId st)) ;;
  match project with
  | PgError message => ret (json_status (JsonError message) 500)
  | PgData project =>
      member <- getMember (Project.workspace_id project) user ;;
      match member with
      | None => ret unauthorized
      | Some _ =>
          let imageUrl := image_url e (Project.image_id project) in
          ret (json (JsonData (OfProjectWithUrl project imageUrl)))
      end
  end.

(** PATCH /:projectId *)
Definition patch_project (user : string) (projectId : string)
  (name : option string) (image : option FormImage) : M Response :=
  e <- ask ;;
  (* Get existing project first *)
  existingProject <- query (Select TABLES.PROJECTS)
                       (fun st => single (project_by_id projectId st)) ;;
  match existingProject with
  | PgError message => ret (json_status (JsonError message) 500)
  | PgData existingProject =>
      member <- getMember (Project.workspace_id existingProject) user ;;
      match member with
      | None => ret unauthorized
      | Some _ =>
          let update (uploadedImageId : option string) : M Response :=
            project <- await (Update TABLES.PROJECTS)
                         (update_project projectId
                            {| set_project_name := name;
                               set_project_image_id := uploadedImageId |}
                            (clock e)) ;;
            match project with
            | PgError message => ret (json_status (JsonError message) 500)
            | PgData project => ret (json (JsonData (OfProject project)))
            end in
          match image with
          | Some (ImageFile file) =>
              uuid <- draw ;;
              let fileExt := last_segment (file_name file) in
              let fileName := String.append uuid (String.append "." fileExt) in
              upload <- await (Upload fileName) (storage_upload fileName) ;;
              match upload with
              | PgError message => ret (json_status (JsonError message) 500)
              | PgData path =>
                  (* Delete old project image *)
                  _ <- (if truthy (Project.image_id existingProject)
                        then
                          let old := match Project.image_id existingProject with
                                     | Some k => [k]
                                     | None => []
                                     end in
                          _ <- await (Remove old) (storage_remove old) ;; ret tt
                        else ret tt) ;;
                  update (Some path)
              end
          | _ => update None
          end
      end
  end.

(** DELETE /:projectId *)
Definition delete_project (user : string) (projectId : string) : M Response :=
  existingProject <- query (Select TABLES.PROJECTS)
                       (fun st => single (project_by_id projectId st)) ;;
  match existingProject with
  | PgError message => ret (json_status (JsonError message) 500)
  | PgData existingProject =>
      member <- getMember (Project.workspace_id existingProject) user ;;
      match member with
      | None => ret unauthorized
      | Some _ =>
          (* Delete project image if it exists *)
          _ <- (if truthy (Project.image_id existingProject)
                then
                  let old := match Project.image_id existingProject with
                             | Some k => [k]
                             | None => []
                             end in
                  _ <- await (Remove old) (storage_remove old) ;; ret tt
                else ret tt) ;;
          deleted <- await (Delete TABLES.PROJECTS) (delete_project_row projectId) ;;
          match deleted with
          | PgError message => ret (json_status (JsonError message) 500)
          | PgData _ =>
              ret (json (JsonData (OfProjectRef
                                     (Project.id existingProject)
                                     (Project.workspace_id existingProject))))
          end
      end
  end.

(** GET /:projectId/analytics *)
Definition get_project_analytics (user : string) (projectId : string)
  : M Response :=
  e <- ask ;;
  project <- query (Select TABLES.PROJECTS)
               (fun st => single (project_by_id projectId st)) ;;
  match project with
  | PgError message => ret (json_status (JsonError message) 500)
  | PgData project =>
  member <- getMember (Project.workspace_id project) user ;;
  match member with
  | None => ret unauthorized
  | Some member =>
      let now := clock e in
      let thisMonthStart := startOfMonth (dates e) now in
      let thisMonthEnd := endOfMonth (dates e) now in
      let lastMonthStart := startOfMonth (dates e) (subMonths (dates e) now 1) in
      let lastMonthEnd := endOfMonth (dates e) (subMonths (dates e) now 1) in
      (* task counts *)
      thisMonthTaskCount <-
        count_tasks [TaskFilter.eq_project_id projectId;
                     TaskFilter.gte_created_at thisMonthStart;
                     TaskFilter.lte_created_at thisMonthEnd] ;;
      lastMonthTaskCount <-
        count_tasks [TaskFilter.eq_project_id projectId;
                     TaskFilter.gte_created_at lastMonthStart;
                     TaskFilter.lte_created_at lastMonthEnd] ;;
      let taskCount := or_zero thisMonthTaskCount in
      let taskDifference := taskCount - or_zero lastMonthTaskCount in
      (* assigned task counts *)
      thisMonthAssignedTaskCount <-
        count_tasks [TaskFilter.eq_project_id projectId;
                     TaskFilter.eq_assignee_id (Member.id member);
                     TaskFilter.gte_created_at thisMonthStart;
                     TaskFilter.lte_created_at thisMonthEnd] ;;
      lastMonthAssignedTaskCount <-
        count_tasks [TaskFilter.eq_project_id projectId;
                     TaskFilter.eq_assignee_id (Member.id member);
                     TaskFilter.gte_created_at lastMonthStart;
                     TaskFilter.lte_created_at lastMonthEnd] ;;
      let assignedTaskCount := or_zero thisMonthAssignedTaskCount in
      let assignedTaskDifference :=
        assignedTaskCount - or_zero lastMonthAssignedTaskCount in
      (* incomplete task counts *)
      thisMonthIncompleteTaskCount <-
        count_tasks [TaskFilter.eq_project_id projectId;
                     TaskFilter.neq_status TaskStatus.DONE;
                     TaskFilter.gte_created_at thisMonthStart;
                     TaskFilter.lte_created_at thisMonthEnd] ;;
      lastMonthIncompleteTaskCount <-
        count_tasks [TaskFilter.eq_project_id projectId;
                     TaskFilter.neq_status TaskStatus.DONE;
                     TaskFilter.gte_created_at lastMonthStart;
                     TaskFilter.lte_created_at lastMonthEnd] ;;
      let incompleteTaskCount := or_zero thisMonthIncompleteTaskCount in
      let incompleteTaskDifference :=
        incompleteTaskCount - or_zero lastMonthIncompleteTaskCount in
      (* completed task counts *)
      thisMonthCompletedTaskCount <-
        count_tasks [TaskFilter.eq_project_id projectId;
                     TaskFilter.eq_status TaskStatus.DONE;
                     TaskFilter.gte_created_at thisMonthStart;
                     TaskFilter.lte_created_at thisMonthEnd] ;;
      lastMonthCompletedTaskCount <-
        count_tasks [TaskFilter.eq_project_id projectId;
                     TaskFilter.eq_status TaskStatus.DONE;
                     TaskFilter.gte_created_at lastMonthStart;
                     TaskFilter.lte_created_at lastMonthEnd] ;;
      let completedTaskCount := or_zero thisMonthCompletedTaskCount in
      let completedTaskDifference :=
        completedTaskCount - or_zero lastMonthCompletedTaskCount in
      (* overdue task counts *)
      thisMonthOverdueTaskCount <-
        count_tasks [TaskFilter.eq_project_id projectId;
                     TaskFilter.neq_status TaskStatus.DONE;
                     TaskFilter.lt_due_date now;
                     TaskFilter.gte_created_at thisMonthStart;
                     TaskFilter.lte_created_at thisMonthEnd] ;;
      lastMonthOverdueTaskCount <-
        count_tasks [TaskFilter.eq_project_id projectId;
                     TaskFilter.neq_status TaskStatus.DONE;
                     TaskFilter.lt_due_date now;
                     TaskFilter.gte_created_at lastMonthStart;
                     TaskFilter.lte_created_at lastMonthEnd] ;;
      let overdueTaskCount := or_zero thisMonthOverdueTaskCount in
      let overdueTaskDifference :=
        overdueTaskCount - or_zero lastMonthOverdueTaskCount in
      ret (json (JsonData (OfAnalytics
        {| taskCount := taskCount;
           taskDifference := taskDifference;
           assignedTaskCount := assignedTaskCount;
           assignedTaskDifference := assignedTaskDifference;
           completedTaskCount := completedTaskCount;
           completedTaskDifference := completedTaskDifference;
           incompleteTaskCount := incompleteTaskCount;
           incompleteTaskDifference := incompleteTaskDifference;
           overdueTaskCount := overdueTaskCount;
           overdueTaskDifference := overdueTaskDifference |})))
  end
  end.

(** ** The endpoints as one request type *)

Inductive Request :=
| GetWorkspaces
| PostWorkspaces (name : string) (image : option FormImage)
| GetWorkspace (workspaceId : string)
| GetWorkspaceInfo (workspaceId : string)
| PatchWorkspace (workspaceId : string) (name : option string)
                 (image : option FormImage)
| DeleteWorkspace (workspaceId : string)
| PostResetInviteCode (workspaceId : string)
| PostJoin (workspaceId : string) (code : string)
| GetWorkspaceAnalytics (workspaceId : string)
| PostProjects (name : string) (image : option FormImage) (workspaceId : string)
| GetProjects (workspaceId : string)
| GetProject (projectId : string)
| PatchProject (projectId : string) (name : option string)
               (image : option FormImage)
| DeleteProject (projectId : string)
| GetProjectAnalytics (projectId : string).

Definition handle (user : string) (r : Request) : M Response :=
  match r with
  | GetWorkspaces => get_workspaces user
  | PostWorkspaces name image => post_workspaces user name image
  | GetWorkspace w => get_workspace user w
  | GetWorkspaceInfo w => get_workspace_info w
  | PatchWorkspace w name image => patch_workspace user w name image
  | DeleteWorkspace w => delete_workspace user w
  | PostResetInviteCode w => post_reset_invite_code user w
  | PostJoin w code => post_join user w code
  | GetWorkspaceAnalytics w => get_workspace_analytics user w
  | PostProjects name image w => post_projects user name image w
  | GetProjects w => get_projects user w
  | GetProject p => get_project user p
  | PatchProject p name image => patch_project user p name image
  | DeleteProject p => delete_project user p
  | GetProjectAnalytics p => get_project_analytics user p
  end.

(** The workspace a request names, for the endpoints that take a workspace
    id (in the path, the query or the form). *)
Definition workspace_of (r : Request) : option string :=
  match r with
  | GetWorkspace w | GetWorkspaceInfo w | PatchWorkspace w _ _
  | DeleteWorkspace w | PostResetInviteCode w | PostJoin w _
  | GetWorkspaceAnalytics w | PostProjects _ _ w | GetProjects w => Some w
  | _ => None
  end.

(** The project a request names, for the endpoints that take a project id. *)
Definition project_of (r : Request) : option string :=
  match r with
  | GetProject p | PatchProject p _ _ | DeleteProject p
  | GetProjectAnalytics p => Some p
  | _ => None
  end.

(** ** A reference calendar

    The date-fns functions over the proleptic Gregorian calendar in UTC,
    for concrete runs.  The handlers do not depend on it: they take the
    three functions from the environment. *)
Module UtcDates.
Definition day_ms : Z := 86400000.

(** Days since 1970-01-01 of the civil date y-m-d. *)
Definition days_from_civil (y m d : Z) : Z :=
  let y' := if m <=? 2 then y - 1 else y in
  let era := y' / 400 in
  let yoe := y' - era * 400 in
  let mp := (m + 9) mod 12 in
  let doy := (153 * mp + 2) / 5 + d - 1 in
  let doe := yoe * 365 + yoe / 4 - yoe / 100 + doy in
  era * 146097 + doe - 719468.

Definition civil_from_days (z : Z) : Z * Z * Z :=
  let z := z + 719468 in
  let era := z / 146097 in
  let doe := z - era * 146097 in
  let yoe := (doe - doe / 1460 + doe / 36524 - doe / 146096) / 365 in
  let doy := doe - (365 * yoe + yoe / 4 - yoe / 100) in
  let mp := (5 * doy + 2) / 153 in
  let d := doy - (153 * mp + 2) / 5 + 1 in
  let m := if mp <? 10 then mp + 3 else mp - 9 in
  let y := yoe + era * 400 in
  (if m <=? 2 then y + 1 else y, m, d).

(** First instant of the month that is [k] months after January of year 0. *)
Definition month_start (k : Z) : Z :=
  days_from_civil (k / 12) (k mod 12 + 1) 1 * day_ms.

Definition month_index (t : Z) : Z :=
  let '(y, m, _) := civil_from_days (t / day_ms) in y * 12 + (m - 1).

Definition startOfMonth (t : Z) : Z := month_start (month_index t).

Definition endOfMonth (t : Z) : Z := month_start (month_index t + 1) - 1.

(** Same time of day, [n] months earlier, the day clamped to the length of
    the target month. *)
Definition subMonths (t n : Z) : Z :=
  let '(_, _, d) := civil_from_days (t / day_ms) in
  let k := month_index t - n in
  let days_in_month := (month_start (k + 1) - month_start k) / day_ms in
  month_start k + (Z.min d days_in_month - 1) * day_ms + t mod day_ms.

Definition fns : DateFns := Build_DateFns startOfMonth endOfMonth subMonths.
End UtcDates.

(** ** A sample world for concrete runs *)
Module Sample.
(** 2024-03-15T12:00:00Z *)
Definition now : Z := 1710504000000.

Definition day (y m d : Z) : Z := UtcDates.days_from_civil y m d * UtcDates.day_ms.

Definition ids (k : nat) : string :=
  String.append "id-" (NilEmpty.string_of_uint (Nat.to_uint k)).

Definition no_faults : nat -> option string := fun _ => None.

(** Only the [k]-th backend call fails. *)
Definition fault_at (k : nat) (message : string) : nat -> option string :=
  fun i => if Nat.eqb i k then Some message else None.

Definition env (script : nat -> option string) : Env :=
  {| faults := script;
     random := ids;
     clock := now;
     dates := UtcDates.fns;
     publicUrl := String.append "https://cdn.example/images/" |}.

Definition acme : Workspace.t :=
  {| Workspace.id := "w1"; Workspace.name := "Acme";
     Workspace.user_id := "alice"; Workspace.image_id := None;
     Workspace.invite_code := "AB12CD";
     Workspace.created_at := day 2024 1 10;
     Workspace.updated_at := day 2024 1 10 |}.

Definition alice : Member.t :=
  {| Member.id := "m1"; Member.user_id := "alice";
     Member.workspace_id := "w1"; Member.role := MemberRole.ADMIN;
     Member.created_at := day 2024 1 10; Member.updated_at := day 2024 1 10 |}.

Definition carol : Member.t :=
  {| Member.id := "m2"; Member.user_id := "carol";
     Member.workspace_id := "w1"; Member.role := MemberRole.MEMBER;
     Member.created_at := day 2024 1 12; Member.updated_at := day 2024 1 12 |}.

Definition roadmap : Project.t :=
  {| Project.id := "p1"; Project.name := "Roadmap";
     Project.description := None; Project.workspace_id := "w1";
     Project.image_id := None;
     Project.created_at := day 2024 1 11; Project.updated_at := day 2024 1 11 |}.

Definition task (id : string) (status : TaskStatus.t) (due : option Z)
  (created : Z) : Task.t :=
  {| Task.id := id; Task.name := id; Task.description := None;
     Task.status := status; Task.workspace_id := "w1";
     Task.project_id := "p1"; Task.assignee_id := "m2";
     Task.due_date := due; Task.position := 1000;
     Task.created_at := created; Task.updated_at := created |}.

(** Done, due yesterday, created this month. *)
Definition shipped : Task.t :=
  task "t1" TaskStatus.DONE (Some (day 2024 3 14)) (day 2024 3 10).

(** Open, due yesterday, created this month. *)
Definition late : Task.t :=
  task "t2" TaskStatus.TODO (Some (day 2024 3 14)) (day 2024 3 5).

(** Open, no due date, created last month. *)
Definition someday : Task.t :=
  task "t3" TaskStatus.BACKLOG None (day 2024 2 10).

(** Open, due last month, created last month. *)
Definition stale : Task.t :=
  task "t4" TaskStatus.IN_PROGRESS (Some (day 2024 2 20)) (day 2024 2 12).

Definition store0 : Store :=
  {| workspaces := [acme];
     projects := [roadmap];
     tasks := [shipped; late; someday; stale];
     members := [alice; carol];
     images := [] |}.

Definition start (st : Store) : State :=
  {| store := st; trace := []; drawn := 0 |}.

(** What carol is shown for March 2024. *)
Definition march : Analytics :=
  {| taskCount := 2; taskDifference := 0;
     assignedTaskCount := 2; assignedTaskDifference := 0;
     completedTaskCount := 1; completedTaskDifference := 1;
     incompleteTaskCount := 1; incompleteTaskDifference := -1;
     overdueTaskCount := 1; overdueTaskDifference := 0 |}.

(** The same world before the task [shipped] was added, and what carol is
    shown there. *)
Definition store_before : Store :=
  with_tasks store0 [late; someday; stale].

Definition march_before : Analytics :=
  {| taskCount := 1; taskDifference := -1;
     assignedTaskCount := 1; assignedTaskDifference := -1;
     completedTaskCount := 0; completedTaskDifference := 0;
     incompleteTaskCount := 1; incompleteTaskDifference := -1;
     overdueTaskCount := 1; overdueTaskDifference := 0 |}.
End Sample.

(** ** Runs in closed form: vocabulary *)

(** The state after the further calls [calls], the store untouched. *)
Definition after (s : State) (calls : list Call) : State :=
  {| store := store s; trace := trace s ++ calls; drawn := drawn s |}.

(** What the [k]-th backend call of a run resolves to. *)
Definition outcome {A} (e : Env) (k : nat) (act : Store -> PostgrestResponse A)
  (st : Store) : PostgrestResponse A :=
  match faults e k with
  | Some message => PgError message
  | None => act st
  end.

(** What [getMember] returns when its query is the [k]-th call. *)
Definition lookup (e : Env) (k : nat) (workspaceId userId : string)
  (st : Store) : option Member.t :=
  match outcome e k (fun st => single (member_rows workspaceId userId st)) st with
  | PgData member => Some member
  | PgError _ => None
  end.

(** The [count] a count query yields when it is the [k]-th call. *)
Definition count_of (e : Env) (k : nat) (filters : list (Task.t -> bool))
  (st : Store) : option Z :=
  match faults e k with
  | Some _ => None
  | None => Some (count_rows filters (tasks st))
  end.

(** The same run state over another store. *)
Definition on_store (s : State) (st : Store) : State :=
  {| store := st; trace := trace s; drawn := drawn s |}.

(** No backend call fails. *)
Definition fault_free (e : Env) : Prop := forall k, faults e k = None.

(** The five statistics of an analytics response. *)
Inductive Metric := Total | Assigned | Incomplete | Completed | Overdue.

Definition count_field (m : Metric) (a : Analytics) : Z :=
  match m with
  | Total => taskCount a
  | Assigned => assignedTaskCount a
  | Incomplete => incompleteTaskCount a
  | Completed => completedTaskCount a
  | Overdue => overdueTaskCount a
  end.

Definition difference_field (m : Metric) (a : Analytics) : Z :=
  match m with
  | Total => taskDifference a
  | Assigned => assignedTaskDifference a
  | Incomplete => incompleteTaskDifference a
  | Completed => completedTaskDifference a
  | Overdue => overdueTaskDifference a
  end.

(** The five count predicates as section 4.1 of the specification lists
    them (all tasks; assigned to the caller; excluding done; done; excluding
    done and due strictly before now), to be compared with the queries of
    the handlers. *)
Definition metric_filters (m : Metric) (memberId : string) (now : Z)
  : list (Task.t -> bool) :=
  match m with
  | Total => []
  | Assigned => [TaskFilter.eq_assignee_id memberId]
  | Incomplete => [TaskFilter.neq_status TaskStatus.DONE]
  | Completed => [TaskFilter.eq_status TaskStatus.DONE]
  | Overdue => [TaskFilter.neq_status TaskStatus.DONE; TaskFilter.lt_due_date now]
  end.

(** Where the current-month query of a metric stands among the ten count
    queries; the previous-month query is the next one. *)
Definition metric_position (m : Metric) : nat :=
  match m with
  | Total => 0
  | Assigned => 2
  | Incomplete => 4
  | Completed => 6
  | Overdue => 8
  end.

(** The created_at window of the current and of the previous month. *)
Definition this_month (e : Env) : list (Task.t -> bool) :=
  [TaskFilter.gte_created_at (startOfMonth (dates e) (clock e));
   TaskFilter.lte_created_at (endOfMonth (dates e) (clock e))].

Definition last_month (e : Env) : list (Task.t -> bool) :=
  [TaskFilter.gte_created_at
     (startOfMonth (dates e) (subMonths (dates e) (clock e) 1));
   TaskFilter.lte_created_at
     (endOfMonth (dates e) (subMonths (dates e) (clock e) 1))].

(** The query of metric [m] over [month] within [scope]. *)
Definition metric_query (e : Env) (scope : Task.t -> bool) (memberId : string)
  (m : Metric) (month : list (Task.t -> bool)) : list (Task.t -> bool) :=
  scope :: metric_filters m memberId (clock e) ++ month.

(** The scope filter of an analytics request and the number of backend
    calls that precede its count queries. *)
Definition analytics_scope (r : Request) : option ((Task.t -> bool) * nat) :=
  match r with
  | GetWorkspaceAnalytics w => Some (TaskFilter.eq_workspace_id w, 1%nat)
  | GetProjectAnalytics p => Some (TaskFilter.eq_project_id p, 2%nat)
  | _ => None
  end.

(** The analytics payload when the first count query is call [k]. *)
Definition analytics_of (e : Env) (k : nat) (scope : Task.t -> bool)
  (memberId : string) (st : Store) : Analytics :=
  let this m :=
    or_zero (count_of e (k + metric_position m)
                      (metric_query e scope memberId m (this_month e)) st) in
  let last m :=
    or_zero (count_of e (k + S (metric_position m))
                      (metric_query e scope memberId m (last_month e)) st) in
  {| taskCount := this Total;
     taskDifference := this Total - last Total;
     assignedTaskCount := this Assigned;
     assignedTaskDifference := this Assigned - last Assigned;
     completedTaskCount := this Completed;
     completedTaskDifference := this Completed - last Completed;
     incompleteTaskCount := this Incomplete;
     incompleteTaskDifference := this Incomplete - last Incomplete;
     overdueTaskCount := this Overdue;
     overdueTaskDifference := this Overdue - last Overdue |}.

(** The endpoints that answer a caller who has no member row with 401:
    all but GET /:workspaceId/info, which looks up no membership, and
    POST /:workspaceId/join, which is for callers who are not members yet. *)
Definition rejects_non_members (r : Request) : bool :=
  match r with
  | GetWorkspaceInfo _ | PostJoin _ _ => false
  | _ => true
  end.

(** The endpoints reserved to admins, with their workspace. *)
Definition admin_only (r : Request) : option string :=
  match r with
  | PatchWorkspace w _ _ | DeleteWorkspace w | PostResetInviteCode w => Some w
  | _ => None
  end.

(** The membership lookup of a request: the workspace it is for and the
    calls the handler issues before it.  The handlers addressed by project
    id resolve the project first; GET /, POST / and GET /:workspaceId/info
    look up no membership. *)
Definition membership_lookup (e : Env) (s : State) (r : Request)
  : option (string * list Call) :=
  match r with
  | GetWorkspaces | PostWorkspaces _ _ | GetWorkspaceInfo _ => None
  | GetWorkspace w | PatchWorkspace w _ _ | DeleteWorkspace w
  | PostResetInviteCode w | PostJoin w _ | GetWorkspaceAnalytics w
  | PostProjects _ _ w | GetProjects w => Some (w, [])
  | GetProject p | PatchProject p _ _ | DeleteProject p
  | GetProjectAnalytics p =>
      match outcome e (List.length (trace s))
                    (fun st => single (project_by_id p st)) (store s) with
      | PgData project =>
          Some (Project.workspace_id project, [Select TABLES.PROJECTS])
      | PgError _ => None
      end
  end.

(** The member row POST /:workspaceId/join inserts in a run that starts in
    state [s]. *)
Definition join_row (e : Env) (s : State) (user workspaceId : string)
  : Member.t :=
  {| Member.id := random e (drawn s);
     Member.user_id := user;
     Member.workspace_id := workspaceId;
     Member.role := MemberRole.MEMBER;
     Member.created_at := clock e;
     Member.updated_at := clock e |}.

(** The rows POST / inserts once the upload block has left the run in state
    [s1] with [uploadedImageId]: the workspace, then its creator as admin. *)
Definition new_workspace_row (e : Env) (s1 : State) (user name : string)
  (uploadedImageId : option string) : Workspace.t :=
  {| Workspace.id := random e (S (drawn s1));
     Workspace.name := name;
     Workspace.user_id := user;
     Workspace.image_id := uploadedImageId;
     Workspace.invite_code := random e (drawn s1);
     Workspace.created_at := clock e;
     Workspace.updated_at := clock e |}.

Definition owner_row (e : Env) (s1 : State) (user : string)
  (workspace : Workspace.t) : Member.t :=
  {| Member.id := random e (S (S (drawn s1)));
     Member.user_id := user;
     Member.workspace_id := Workspace.id workspace;
     Member.role := MemberRole.ADMIN;
     Member.created_at := clock e;
     Member.updated_at := clock e |}.

(** Every member row points to a workspace of the store (the foreign key
    of the members table). *)
Definition members_reference_workspaces (st : Store) : Prop :=
  forall m, In m (members st) ->
            exists w, In w (workspaces st) /\ Workspace.id w = Member.workspace_id m.

(** ** What a handler may do to the store

    [effect user e r st st']: one store operation the handler of request
    [r] awaits on behalf of [user], with the arguments the handler gives
    it, takes the store from [st] to [st'].  One constructor per mutating
    call of the two route files. *)
Inductive effect (user : string) (e : Env) : Request -> Store -> Store -> Prop :=
(* POST /workspaces *)
| post_workspaces_upload name file uuid path st st' :
    storage_upload
      (String.append uuid (String.append "." (last_segment (file_name file))))
      st = PgData (path, st') ->
    effect user e (PostWorkspaces name (Some (ImageFile file))) st st'
| post_workspaces_insert name image row w st st' :
    Workspace.name row = name ->
    Workspace.user_id row = user ->
    Workspace.created_at row = clock e ->
    insert_workspace row st = PgData (w, st') ->
    effect user e (PostWorkspaces name image) st st'
| post_workspaces_member name image row st st' :
    Member.user_id row = user ->
    Member.role row = MemberRole.ADMIN ->
    insert_member row st = PgData (tt, st') ->
    effect user e (PostWorkspaces name image) st st'
(* PATCH /workspaces/:workspaceId *)
| patch_workspace_upload workspaceId name file uuid path st st' :
    storage_upload
      (String.append uuid (String.append "." (last_segment (file_name file))))
      st = PgData (path, st') ->
    effect user e (PatchWorkspace workspaceId name (Some (ImageFile file))) st st'
| patch_workspace_remove workspaceId name file old st st' :
    storage_remove [old] st = PgData (tt, st') ->
    effect user e (PatchWorkspace workspaceId name (Some (ImageFile file))) st st'
| patch_workspace_update workspaceId name image uploadedImageId w st st' :
    (uploadedImageId <> None -> exists file, image = Some (ImageFile file)) ->
    update_workspace workspaceId
      {| set_workspace_name := name;
         set_workspace_image_id := uploadedImageId;
         set_workspace_invite_code := None |}
      (clock e) st = PgData (w, st') ->
    effect user e (PatchWorkspace workspaceId name image) st st'
(* DELETE /workspaces/:workspaceId *)
| delete_workspace_remove workspaceId paths st st' :
    storage_remove paths st = PgData (tt, st') ->
    effect user e (DeleteWorkspace workspaceId) st st'
| delete_workspace_delete workspaceId st st' :
    delete_workspace_row workspaceId st = PgData (tt, st') ->
    effect user e (DeleteWorkspace workspaceId) st st'
(* POST /workspaces/:workspaceId/resetInviteCode *)
| reset_invite_code_update workspaceId code w st st' :
    update_workspace workspaceId
      {| set_workspace_name := None;
         set_workspace_image_id := None;
         set_workspace_invite_code := Some code |}
      (clock e) st = PgData (w, st') ->
    effect user e (PostResetInviteCode workspaceId) st st'
(* POST /workspaces/:workspaceId/join *)
| join_member workspaceId code row st st' :
    Member.user_id row = user ->
    Member.workspace_id row = workspaceId ->
    Member.role row = MemberRole.MEMBER ->
    insert_member row st = PgData (tt, st') ->
    effect user e (PostJoin workspaceId code) st st'
(* POST /projects *)
| post_projects_upload name file workspaceId uuid path st st' :
    storage_upload
      (String.append uuid (String.append "." (last_segment (file_name file))))
      st = PgData (path, st') ->
    effect user e (PostProjects name (Some (ImageFile file)) workspaceId) st st'
| post_projects_insert name image workspaceId row p st st' :
    Project.name row = name ->
    Project.workspace_id row = workspaceId ->
    Project.description row = None ->
    Project.created_at row = clock e ->
    insert_project row st = PgData (p, st') ->
    effect user e (PostProjects name image workspaceId) st st'
(* PATCH /projects/:projectId *)
| patch_project_upload projectId name file uuid path st st' :
    storage_upload
      (String.append uuid (String.append "." (last_segment (file_name file))))
      st = PgData (path, st') ->
    effect user e (PatchProject projectId name (Some (ImageFile file))) st st'
| patch_project_remove projectId name file old st st' :
    storage_remove [old] st = PgData (tt, st') ->
    effect user e (PatchProject projectId name (Some (ImageFile file))) st st'
| patch_project_update projectId name image uploadedImageId p st st' :
    (uploadedImageId <> None -> exists file, image = Some (ImageFile file)) ->
    update_project projectId
      {| set_project_name := name; set_project_image_id := uploadedImageId |}
      (clock e) st = PgData (p, st') ->
    effect user e (PatchProject projectId name image) st st'
(* DELETE /projects/:projectId *)
| delete_project_remove projectId old st st' :
    storage_remove [old] st = PgData (tt, st') ->
    effect user e (DeleteProject projectId) st st'
| delete_project_delete projectId st st' :
    delete_project_row projectId st = PgData (tt, st') ->
    effect user e (DeleteProject projectId) st st'.

(** [c], run in environment [e], relates the store before and after by [R]
    and returns a value in [Q]. *)
Definition satisfies {A} (R : Store -> Store -> Prop) (Q : A -> Prop)
  (e : Env) (c : M A) : Prop :=
  forall s a s', c e s = (a, s') -> R (store s) (store s') /\ Q a.

(** Zero or more effects of the handler of [r]. *)
Inductive effects (user : string) (e : Env) (r : Request)
  : Store -> Store -> Prop :=
| effects_none st : effects user e r st st
| effects_more st st1 st2 :
    effects user e r st st1 -> effect user e r st1 st2 ->
    effects user e r st st2.

(** The endpoints whose handlers await no mutation. *)
Definition read_only (r : Request) : bool :=
  match r with
  | GetWorkspaces | GetWorkspace _ | GetWorkspaceInfo _
  | GetWorkspaceAnalytics _ | GetProjects _ | GetProject _
  | GetProjectAnalytics _ => true
  | _ => false
  end.

(** The two endpoints that delete rows. *)
Definition deletes (r : Request) : bool :=
  match r with
  | DeleteWorkspace _ | DeleteProject _ => true
  | _ => false
  end.

(** The [File] a request carries, if any. *)
Definition file_of (r : Request) : option File :=
  match r with
  | PostWorkspaces _ (Some (ImageFile f))
  | PatchWorkspace _ _ (Some (ImageFile f))
  | PostProjects _ (Some (ImageFile f)) _
  | PatchProject _ _ (Some (ImageFile f)) => Some f
  | _ => None
  end.


(** Whether a string contains a dot. *)
Fixpoint has_dot (s : string) : bool :=
  match s with
  | EmptyString => false
  | String c rest => Ascii.eqb c "."%char || has_dot rest
  end.

(** The shape of an answer to request [r]: data with status 200, or an
    error with 401, 500 or (for a join only) 400. *)
Definition well_shaped (r : Request) (resp : Response) : Prop :=
  (status resp = 200 /\ exists d, body resp = JsonData d)
  \/ (status resp = 401 /\ body resp = JsonError "Unauthorized.")
  \/ (status resp = 500 /\ exists message, body resp = JsonError message)
  \/ (status resp = 400
      /\ (exists w c, r = PostJoin w c)
      /\ (body resp = JsonError "Already a member."
          \/ body resp = JsonError "Invalid invite code.")).

(** The blob a row refers to: its image id when that is a non-empty
    string. *)
Definition blob_of (image_id : option string) : list string :=
  if truthy image_id
  then match image_id with
       | Some k => [k]
       | None => []
       end
  else [].

(** The blobs DELETE /workspaces/:workspaceId collects: those of the
    projects of the workspace, then that of the workspace row when the
    lookup finds exactly one. *)
Definition workspace_blobs (workspaceId : string) (st : Store) : list string :=
  flat_map (fun p => blob_of (Project.image_id p))
           (filter (fun p => String.eqb (Project.workspace_id p) workspaceId)
                   (projects st))
  ++ match single (workspace_by_id workspaceId st) with
     | PgData w => blob_of (Workspace.image_id w)
     | PgError _ => []
     end.

(** The tables a run leaves as they were: projects, tasks and members, and
    workspaces too when [all] is set. *)
Definition same_rows (all : bool) (st st' : Store) : Prop :=
  (all = true -> workspaces st' = workspaces st)
  /\ projects st' = projects st
  /\ tasks st' = tasks st
  /\ members st' = members st.

(** A handler whose answers other than 200 come with stores related by [T]. *)
Definition fails_cleanly (T : Store -> Store -> Prop) (e : Env)
  (c : M Response) : Prop :=
  forall s a s', c e s = (a, s') -> status a <> 200 -> T (store s) (store s').

Definition succeeds (e : Env) (c : M Response) : Prop :=
  forall s a s', c e s = (a, s') -> status a = 200.

(** The name a [File] is stored under: the generated uuid, a dot, and the
    text after the last dot of the file's own name. *)
Definition stored_name (uuid : string) (file : File) : string :=
  String.append uuid (String.append "." (last_segment (file_name file))).

(** The foreign keys and the UNIQUE(user_id, workspace_id) of the setup
    script, as a property of a store: member rows and projects point to
    workspaces of the store, tasks to a workspace and a project of the
    store, and no user has two member rows in one workspace. *)
Definition consistent (st : Store) : Prop :=
  (forall m, In m (members st) ->
             exists w, In w (workspaces st)
                       /\ Workspace.id w = Member.workspace_id m)
  /\ (forall p, In p (projects st) ->
                exists w, In w (workspaces st)
                          /\ Workspace.id w = Project.workspace_id p)
  /\ (forall t, In t (tasks st) ->
                (exists w, In w (workspaces st)
                           /\ Workspace.id w = Task.workspace_id t)
                /\ exists p, In p (projects st)
                             /\ Project.id p = Task.project_id t)
  /\ forall ws user, (List.length (member_rows ws user st) <= 1)%nat.

(** * Properties *)

Lemma MemberRole_eqb_eq a b : MemberRole.eqb a b = true <-> a = b.
Proof. destruct a, b; simpl; split; congruence. Qed.

Lemma TaskStatus_eqb_eq a b : TaskStatus.eqb a b = true <-> a = b.
Proof. destruct a, b; simpl; split; congruence. Qed.

(** ** Stepping through a run *)

Lemma bind_run {A B} (c : M A) (k : A -> M B) e s a s' :
  c e s = (a, s') -> bind c k e s = k a e s'.
Proof. intros H. unfold bind. rewrite H. reflexivity. Qed.

Lemma ask_run e s : ask e s = (e, s).
Proof. reflexivity. Qed.

Lemma after_after s l1 l2 : after (after s l1) l2 = after s (l1 ++ l2).
Proof. unfold after. simpl. rewrite app_assoc. reflexivity. Qed.

Lemma trace_after s l :
  List.length (trace (after s l)) = (List.length (trace s) + List.length l)%nat.
Proof. unfold after. simpl. apply length_app. Qed.

Lemma store_after s l : store (after s l) = store s.
Proof. reflexivity. Qed.

Lemma await_run {A} c (act : Store -> PostgrestResponse (A * Store)) e s :
  await c act e s =
  match outcome e (List.length (trace s)) act (store s) with
  | PgError message => (PgError message, after s [c])
  | PgData (a, st) =>
      (PgData a, {| store := st; trace := trace s ++ [c]; drawn := drawn s |})
  end.
Proof.
  unfold await, outcome, after.
  destruct (faults e (List.length (trace s))); [reflexivity|].
  destruct (act (store s)) as [m|[a st]]; reflexivity.
Qed.

Lemma bind_await {A B} c (act : Store -> PostgrestResponse (A * Store))
  (k : PostgrestResponse A -> M B) e s :
  bind (await c act) k e s =
  match outcome e (List.length (trace s)) act (store s) with
  | PgError message => k (PgError message) e (after s [c])
  | PgData (a, st) =>
      k (PgData a) e
        {| store := st; trace := trace s ++ [c]; drawn := drawn s |}
  end.
Proof.
  unfold bind. rewrite await_run.
  destruct (outcome e (List.length (trace s)) act (store s)) as [m|[a st]];
    reflexivity.
Qed.

Lemma query_run {A} c (q : Store -> PostgrestResponse A) e s :
  query c q e s = (outcome e (List.length (trace s)) q (store s), after s [c]).
Proof.
  unfold query. rewrite await_run. unfold outcome.
  destruct (faults e (List.length (trace s))); [reflexivity|].
  destruct (q (store s)); reflexivity.
Qed.

Lemma getMember_run workspaceId userId e s :
  getMember workspaceId userId e s =
  (lookup e (List.length (trace s)) workspaceId userId (store s),
   after s [Select TABLES.MEMBERS]).
Proof.
  unfold getMember. erewrite bind_run by apply query_run.
  unfold lookup.
  destruct (outcome e (List.length (trace s))
              (fun st => single (member_rows workspaceId userId st)) (store s));
    reflexivity.
Qed.

Lemma count_tasks_run filters e s :
  count_tasks filters e s =
  (count_of e (List.length (trace s)) filters (store s),
   after s [Select TABLES.TASKS]).
Proof.
  unfold count_tasks. erewrite bind_run by apply query_run.
  unfold outcome, count_of.
  destruct (faults e (List.length (trace s))); reflexivity.
Qed.

(** A lookup that returns a row returns the one row of the pair. *)
Lemma lookup_some e k workspaceId userId st member :
  lookup e k workspaceId userId st = Some member ->
  faults e k = None /\ member_rows workspaceId userId st = [member].
Proof.
  unfold lookup, outcome, single.
  destruct (faults e k); [discriminate|].
  destruct (member_rows workspaceId userId st) as [|m [|m' l]];
    try discriminate.
  intros H. injection H as <-. split; reflexivity.
Qed.

Lemma lookup_no_row e k workspaceId userId st :
  member_rows workspaceId userId st = [] ->
  lookup e k workspaceId userId st = None.
Proof.
  intros H. unfold lookup, outcome. rewrite H.
  destruct (faults e k); reflexivity.
Qed.

Lemma lookup_one e k workspaceId userId st member :
  faults e k = None -> member_rows workspaceId userId st = [member] ->
  lookup e k workspaceId userId st = Some member.
Proof. intros Hf H. unfold lookup, outcome. rewrite Hf, H. reflexivity. Qed.

Lemma member_rows_in workspaceId userId st m :
  In m (member_rows workspaceId userId st) <->
  In m (members st) /\ Member.workspace_id m = workspaceId
  /\ Member.user_id m = userId.
Proof.
  unfold member_rows. rewrite filter_In, andb_true_iff, !String.eqb_eq.
  tauto.
Qed.

(** One more count query of an analytics handler. *)
Ltac count_step :=
  erewrite bind_run by apply count_tasks_run;
  rewrite after_after, trace_after, store_after;
  cbn [List.length app Nat.add].

Ltac close_analytics :=
  rewrite ?after_after;
  unfold ret, analytics_of, metric_query, this_month, last_month;
  cbn [metric_filters metric_position app];
  rewrite <- !Nat.add_assoc; cbn [Nat.add repeat];
  reflexivity.

Lemma get_workspace_analytics_run user workspaceId e s member :
  lookup e (List.length (trace s)) workspaceId user (store s) = Some member ->
  get_workspace_analytics user workspaceId e s =
  (json (JsonData (OfAnalytics
     (analytics_of e (List.length (trace s) + 1)
        (TaskFilter.eq_workspace_id workspaceId) (Member.id member) (store s)))),
   after s (Select TABLES.MEMBERS :: repeat (Select TABLES.TASKS) 10)).
Proof.
  intros Hm. unfold get_workspace_analytics.
  erewrite bind_run by apply ask_run.
  erewrite bind_run by apply getMember_run.
  rewrite Hm. cbv zeta.
  do 10 count_step.
  close_analytics.
Qed.

Lemma get_workspace_analytics_denied user workspaceId e s :
  lookup e (List.length (trace s)) workspaceId user (store s) = None ->
  get_workspace_analytics user workspaceId e s =
  (unauthorized, after s [Select TABLES.MEMBERS]).
Proof.
  intros Hm. unfold get_workspace_analytics.
  erewrite bind_run by apply ask_run.
  erewrite bind_run by apply getMember_run.
  rewrite Hm. reflexivity.
Qed.

Lemma get_project_analytics_run user projectId e s project member :
  outcome e (List.length (trace s))
          (fun st => single (project_by_id projectId st)) (store s)
  = PgData project ->
  lookup e (List.length (trace s) + 1) (Project.workspace_id project) user
         (store s) = Some member ->
  get_project_analytics user projectId e s =
  (json (JsonData (OfAnalytics
     (analytics_of e (List.length (trace s) + 2)
        (TaskFilter.eq_project_id projectId) (Member.id member) (store s)))),
   after s (Select TABLES.PROJECTS :: Select TABLES.MEMBERS
            :: repeat (Select TABLES.TASKS) 10)).
Proof.
  intros Hp Hm. unfold get_project_analytics.
  erewrite bind_run by apply ask_run.
  erewrite bind_run by apply query_run.
  rewrite Hp.
  erewrite bind_run by apply getMember_run.
  rewrite trace_after, store_after. cbn [List.length].
  rewrite Hm. cbv zeta.
  do 10 count_step.
  close_analytics.
Qed.

Lemma get_project_analytics_denied user projectId e s project :
  outcome e (List.length (trace s))
          (fun st => single (project_by_id projectId st)) (store s)
  = PgData project ->
  lookup e (List.length (trace s) + 1) (Project.workspace_id project) user
         (store s) = None ->
  get_project_analytics user projectId e s =
  (unauthorized, after s [Select TABLES.PROJECTS; Select TABLES.MEMBERS]).
Proof.
  intros Hp Hm. unfold get_project_analytics.
  erewrite bind_run by apply ask_run.
  erewrite bind_run by apply query_run.
  rewrite Hp.
  erewrite bind_run by apply getMember_run.
  rewrite trace_after, store_after. cbn [List.length].
  rewrite Hm, after_after. reflexivity.
Qed.

Lemma get_project_analytics_no_project user projectId e s message :
  outcome e (List.length (trace s))
          (fun st => single (project_by_id projectId st)) (store s)
  = PgError message ->
  get_project_analytics user projectId e s =
  (json_status (JsonError message) 500, after s [Select TABLES.PROJECTS]).
Proof.
  intros Hp. unfold get_project_analytics.
  erewrite bind_run by apply ask_run.
  erewrite bind_run by apply query_run.
  rewrite Hp. reflexivity.
Qed.

Lemma analytics_of_fields e k scope memberId st m :
  count_field m (analytics_of e k scope memberId st) =
    or_zero (count_of e (k + metric_position m)
                      (metric_query e scope memberId m (this_month e)) st)
  /\ difference_field m (analytics_of e k scope memberId st) =
       count_field m (analytics_of e k scope memberId st)
       - or_zero (count_of e (k + S (metric_position m))
                           (metric_query e scope memberId m (last_month e)) st).
Proof. destruct m; split; reflexivity. Qed.

Lemma lookup_members e k workspaceId userId st st' :
  members st' = members st ->
  lookup e k workspaceId userId st' = lookup e k workspaceId userId st.
Proof.
  intros H. unfold lookup, outcome, member_rows. rewrite H. reflexivity.
Qed.

Lemma project_lookup_projects e k projectId st st' :
  projects st' = projects st ->
  outcome e k (fun st => single (project_by_id projectId st)) st' =
  outcome e k (fun st => single (project_by_id projectId st)) st.
Proof.
  intros H. unfold outcome, project_by_id. rewrite H. reflexivity.
Qed.

(** An analytics response is [analytics_of] the store, for the member row
    of the caller; over another store with the same members and projects
    the request is answered in the same way. *)
Lemma analytics_inversion e s user r scope first resp s' a :
  analytics_scope r = Some (scope, first) ->
  handle user r e s = (resp, s') ->
  body resp = JsonData (OfAnalytics a) ->
  exists member,
    In member (members (store s)) /\ Member.user_id member = user /\
    a = analytics_of e (List.length (trace s) + first) scope
                     (Member.id member) (store s) /\
    forall st,
      members st = members (store s) -> projects st = projects (store s) ->
      fst (handle user r e (on_store s st)) =
      json (JsonData (OfAnalytics
        (analytics_of e (List.length (trace s) + first) scope
                      (Member.id member) st))).
Proof.
  intros Hscope Hrun Hbody.
  destruct r; try discriminate Hscope; injection Hscope as <- <-; simpl in Hrun.
  - destruct (lookup e (List.length (trace s)) workspaceId user (store s))
      as [member|] eqn:Hm.
    + rewrite (get_workspace_analytics_run _ _ _ _ _ Hm) in Hrun.
      injection Hrun as <- <-. simpl in Hbody. injection Hbody as <-.
      pose proof Hm as Hm'.
      apply lookup_some in Hm' as [_ Hrows].
      assert (Hin : In member (member_rows workspaceId user (store s)))
        by (rewrite Hrows; left; reflexivity).
      apply member_rows_in in Hin as (Hin & _ & Hu).
      exists member. repeat split; try assumption.
      intros st Hms _. simpl.
      rewrite (get_workspace_analytics_run user workspaceId e (on_store s st) member).
      * reflexivity.
      * simpl. rewrite (lookup_members _ _ _ _ _ _ Hms). exact Hm.
    + rewrite (get_workspace_analytics_denied _ _ _ _ Hm) in Hrun.
      injection Hrun as <- <-. discriminate Hbody.
  - destruct (outcome e (List.length (trace s))
                (fun st => single (project_by_id projectId st)) (store s))
      as [message|project] eqn:Hp.
    + rewrite (get_project_analytics_no_project _ _ _ _ _ Hp) in Hrun.
      injection Hrun as <- <-. discriminate Hbody.
    + destruct (lookup e (List.length (trace s) + 1)
                  (Project.workspace_id project) user (store s))
        as [member|] eqn:Hm.
      * rewrite (get_project_analytics_run _ _ _ _ _ _ Hp Hm) in Hrun.
        injection Hrun as <- <-. simpl in Hbody. injection Hbody as <-.
        pose proof Hm as Hm'.
        apply lookup_some in Hm' as [_ Hrows].
        assert (Hin : In member
                        (member_rows (Project.workspace_id project) user (store s)))
          by (rewrite Hrows; left; reflexivity).
        apply member_rows_in in Hin as (Hin & _ & Hu).
        exists member. repeat split; try assumption.
        intros st Hms Hps. simpl.
        rewrite (get_project_analytics_run user projectId e (on_store s st)
                   project member).
        -- reflexivity.
        -- simpl. rewrite (project_lookup_projects _ _ _ _ _ Hps). exact Hp.
        -- simpl. rewrite (lookup_members _ _ _ _ _ _ Hms). exact Hm.
      * rewrite (get_project_analytics_denied _ _ _ _ _ Hp Hm) in Hrun.
        injection Hrun as <- <-. discriminate Hbody.
Qed.

(** ** Analytics *)

(** C2.  Whenever one of the two analytics handlers answers with analytics,
    then for each of the five metrics the returned count is the
    current-month count of that metric's query (0 when that count is null)
    and the returned difference is that count minus the previous-month count
    of the same query, a null previous-month count being taken as 0.  The
    counts are those of the run: the current-month query of a metric is
    backend call [first + position] of the request, the previous-month query
    the call after it, both over the store of the request. *)
Theorem analytics_difference :
  forall e s user r scope first resp s' a,
    analytics_scope r = Some (scope, first) ->
    handle user r e s = (resp, s') ->
    body resp = JsonData (OfAnalytics a) ->
    exists member,
      In member (members (store s)) /\ Member.user_id member = user /\
      forall m,
        let k := (List.length (trace s) + first + metric_position m)%nat in
        let current :=
          count_of e k
            (metric_query e scope (Member.id member) m (this_month e)) (store s) in
        let previous :=
          count_of e (S k)
            (metric_query e scope (Member.id member) m (last_month e)) (store s) in
        count_field m a = or_zero current /\
        difference_field m a = or_zero current - or_zero previous.
Proof.
  intros e s user r scope first resp s' a Hscope Hrun Hbody.
  destruct (analytics_inversion _ _ _ _ _ _ _ _ _ Hscope Hrun Hbody)
    as (member & Hin & Hu & -> & _).
  exists member. split; [exact Hin|]. split; [exact Hu|].
  intros m. cbv zeta.
  destruct (analytics_of_fields e (List.length (trace s) + first) scope
              (Member.id member) (store s) m) as [Hc Hd].
  rewrite Hd, Hc. rewrite <- Nat.add_succ_r. split; reflexivity.
Qed.

Lemma sample_analytics_run :
  handle "carol" (GetWorkspaceAnalytics "w1") (Sample.env Sample.no_faults)
         (Sample.start Sample.store0)
  = (json (JsonData (OfAnalytics Sample.march)),
     after (Sample.start Sample.store0)
           (Select TABLES.MEMBERS :: repeat (Select TABLES.TASKS) 10)).
Proof. vm_compute. reflexivity. Qed.

Lemma analytics_difference_witness :
  analytics_scope (GetWorkspaceAnalytics "w1")
    = Some (TaskFilter.eq_workspace_id "w1", 1%nat)
  /\ handle "carol" (GetWorkspaceAnalytics "w1") (Sample.env Sample.no_faults)
            (Sample.start Sample.store0)
     = (json (JsonData (OfAnalytics Sample.march)),
        after (Sample.start Sample.store0)
              (Select TABLES.MEMBERS :: repeat (Select TABLES.TASKS) 10))
  /\ body (json (JsonData (OfAnalytics Sample.march)))
     = JsonData (OfAnalytics Sample.march)
  /\ exists member,
       In member (members Sample.store0) /\ Member.user_id member = "carol" /\
       forall m,
         count_field m Sample.march =
           or_zero (count_of (Sample.env Sample.no_faults)
                      (0 + 1 + metric_position m)
                      (metric_query (Sample.env Sample.no_faults)
                         (TaskFilter.eq_workspace_id "w1") (Member.id member) m
                         (this_month (Sample.env Sample.no_faults)))
                      Sample.store0) /\
         difference_field m Sample.march =
           or_zero (count_of (Sample.env Sample.no_faults)
                      (0 + 1 + metric_position m)
                      (metric_query (Sample.env Sample.no_faults)
                         (TaskFilter.eq_workspace_id "w1") (Member.id member) m
                         (this_month (Sample.env Sample.no_faults)))
                      Sample.store0)
           - or_zero (count_of (Sample.env Sample.no_faults)
                        (S (0 + 1 + metric_position m))
                        (metric_query (Sample.env Sample.no_faults)
                           (TaskFilter.eq_workspace_id "w1") (Member.id member) m
                           (last_month (Sample.env Sample.no_faults)))
                        Sample.store0).
Proof.
  split; [reflexivity|]. split; [exact sample_analytics_run|].
  split; [reflexivity|].
  exact (analytics_difference (Sample.env Sample.no_faults)
           (Sample.start Sample.store0) "carol" (GetWorkspaceAnalytics "w1")
           (TaskFilter.eq_workspace_id "w1") 1%nat _ _ Sample.march
           eq_refl sample_analytics_run eq_refl).
Defined.

(** The difference may be negative: one open task this month against two
    last month. *)
Example analytics_difference_negative :
  exists a,
    fst (handle "carol" (GetWorkspaceAnalytics "w1")
                (Sample.env Sample.no_faults) (Sample.start Sample.store0))
    = json (JsonData (OfAnalytics a))
    /\ incompleteTaskCount a = 1
    /\ incompleteTaskDifference a = -1.
Proof.
  exists Sample.march. rewrite sample_analytics_run. repeat split.
Qed.

(** ** Counting *)

Lemma matching_in {A} (filters : list (A -> bool)) rows r :
  In r (matching filters rows) <->
  In r rows /\ forallb (fun f => f r) filters = true.
Proof. unfold matching. apply filter_In. Qed.

Lemma count_rows_nonneg {A} (filters : list (A -> bool)) rows :
  0 <= count_rows filters rows.
Proof. unfold count_rows. lia. Qed.

Lemma count_rows_le {A} (fs1 fs2 : list (A -> bool)) rows :
  (forall r, forallb (fun f => f r) fs1 = true ->
             forallb (fun f => f r) fs2 = true) ->
  count_rows fs1 rows <= count_rows fs2 rows.
Proof.
  intros H. unfold count_rows, matching.
  apply Nat2Z.inj_le.
  induction rows as [|r rows IH]; simpl; [lia|].
  destruct (forallb (fun f => f r) fs1) eqn:E1.
  - rewrite (H r E1). simpl. lia.
  - destruct (forallb (fun f => f r) fs2); simpl; lia.
Qed.

Lemma count_rows_insert {A} (filters : list (A -> bool)) before r rest :
  count_rows filters (before ++ r :: rest) =
  count_rows filters (before ++ rest)
  + (if forallb (fun f => f r) filters then 1 else 0).
Proof.
  unfold count_rows, matching. rewrite !filter_app. simpl.
  destruct (forallb (fun f => f r) filters);
    rewrite !length_app; simpl; lia.
Qed.

Lemma count_of_fault_free e k filters st :
  fault_free e -> count_of e k filters st = Some (count_rows filters (tasks st)).
Proof. intros H. unfold count_of. rewrite H. reflexivity. Qed.

(** Every row the overdue query keeps is kept by the incomplete query. *)
Lemma overdue_implies_incomplete e scope memberId month t :
  forallb (fun f => f t) (metric_query e scope memberId Overdue month) = true ->
  forallb (fun f => f t) (metric_query e scope memberId Incomplete month) = true
  /\ Task.status t <> TaskStatus.DONE
  /\ exists d, Task.due_date t = Some d /\ d < clock e.
Proof.
  unfold metric_query. simpl.
  rewrite !andb_true_iff. intros (Hs & Hn & Hd & Hm).
  repeat split; try assumption.
  - unfold TaskFilter.neq_status in Hn. apply negb_true_iff in Hn.
    intros E. rewrite E in Hn. discriminate Hn.
  - unfold TaskFilter.lt_due_date in Hd.
    destruct (Task.due_date t) as [d|]; [|discriminate].
    exists d. split; [reflexivity|]. apply Z.ltb_lt. exact Hd.
Qed.

(** C6, as it holds.  For both analytics handlers, both months and every
    task set: each task the overdue query counts is counted by the
    incomplete query over the same tasks, is not done and has a due date
    strictly before now; so the overdue count of the queries never exceeds
    the incomplete count (the two may be equal), and neither does the
    overdueTaskCount of a response whose incomplete query returned a
    count. *)
Theorem overdue_within_incomplete :
  forall e s user r scope first resp s' a,
    analytics_scope r = Some (scope, first) ->
    handle user r e s = (resp, s') ->
    body resp = JsonData (OfAnalytics a) ->
    (forall memberId month t,
        In t (matching (metric_query e scope memberId Overdue month)
                       (tasks (store s))) ->
        In t (matching (metric_query e scope memberId Incomplete month)
                       (tasks (store s)))
        /\ Task.status t <> TaskStatus.DONE
        /\ exists d, Task.due_date t = Some d /\ d < clock e)
    /\ (forall memberId month,
          count_rows (metric_query e scope memberId Overdue month)
                     (tasks (store s))
          <= count_rows (metric_query e scope memberId Incomplete month)
                        (tasks (store s)))
    /\ (faults e (List.length (trace s) + first + metric_position Incomplete)
          = None ->
        overdueTaskCount a <= incompleteTaskCount a).
Proof.
  intros e s user r scope first resp s' a Hscope Hrun Hbody.
  split; [|split].
  - intros memberId month t Hin.
    apply matching_in in Hin as [Hin Hf].
    destruct (overdue_implies_incomplete _ _ _ _ _ Hf) as (Hi & Hn & Hd).
    split; [|split; assumption].
    apply matching_in. split; assumption.
  - intros memberId month. apply count_rows_le.
    intros t Hf. apply (overdue_implies_incomplete _ _ _ _ _ Hf).
  - intros Hok.
    destruct (analytics_inversion _ _ _ _ _ _ _ _ _ Hscope Hrun Hbody)
      as (member & _ & _ & -> & _).
    unfold analytics_of. cbn [overdueTaskCount incompleteTaskCount].
    unfold count_of at 2. rewrite Hok. cbn [or_zero].
    unfold count_of.
    destruct (faults e (List.length (trace s) + first + metric_position Overdue));
      cbn [or_zero].
    + apply count_rows_nonneg.
    + apply count_rows_le.
      intros t Hf. apply (overdue_implies_incomplete _ _ _ _ _ Hf).
Qed.

Lemma overdue_within_incomplete_witness :
  analytics_scope (GetWorkspaceAnalytics "w1")
    = Some (TaskFilter.eq_workspace_id "w1", 1%nat)
  /\ handle "carol" (GetWorkspaceAnalytics "w1") (Sample.env Sample.no_faults)
            (Sample.start Sample.store0)
     = (json (JsonData (OfAnalytics Sample.march)),
        after (Sample.start Sample.store0)
              (Select TABLES.MEMBERS :: repeat (Select TABLES.TASKS) 10))
  /\ faults (Sample.env Sample.no_faults) (0 + 1 + metric_position Incomplete)
     = None
  /\ overdueTaskCount Sample.march <= incompleteTaskCount Sample.march.
Proof.
  split; [reflexivity|]. split; [exact sample_analytics_run|].
  split; [reflexivity|].
  exact (proj2 (proj2
           (overdue_within_incomplete (Sample.env Sample.no_faults)
              (Sample.start Sample.store0) "carol" (GetWorkspaceAnalytics "w1")
              (TaskFilter.eq_workspace_id "w1") 1%nat _ _ Sample.march
              eq_refl sample_analytics_run eq_refl))
           eq_refl).
Defined.

(** C6, as stated, fails in two ways.  The inclusion need not be strict:
    in the sample world the one open task of March is overdue, so for March
    the overdue query and the incomplete query keep the same row and the
    response carries overdueTaskCount = incompleteTaskCount = 1.  And a
    response can carry an overdue count above its incomplete count: when
    the incomplete query of the current month (the sixth call of the
    request) fails, its null count is reported as 0 while the overdue query
    still reports 1. *)
Lemma overdue_can_match_or_exceed_incomplete :
  (matching [TaskFilter.eq_workspace_id "w1";
             TaskFilter.neq_status TaskStatus.DONE;
             TaskFilter.lt_due_date Sample.now;
             TaskFilter.gte_created_at (UtcDates.startOfMonth Sample.now);
             TaskFilter.lte_created_at (UtcDates.endOfMonth Sample.now)]
            (tasks Sample.store0) = [Sample.late]
   /\ matching [TaskFilter.eq_workspace_id "w1";
                TaskFilter.neq_status TaskStatus.DONE;
                TaskFilter.gte_created_at (UtcDates.startOfMonth Sample.now);
                TaskFilter.lte_created_at (UtcDates.endOfMonth Sample.now)]
               (tasks Sample.store0) = [Sample.late]
   /\ exists a,
        fst (handle "carol" (GetWorkspaceAnalytics "w1")
               (Sample.env Sample.no_faults) (Sample.start Sample.store0))
        = json (JsonData (OfAnalytics a))
        /\ overdueTaskCount a = 1 /\ incompleteTaskCount a = 1)
  /\ exists a,
       fst (handle "carol" (GetWorkspaceAnalytics "w1")
              (Sample.env (Sample.fault_at 5 "timeout"))
              (Sample.start Sample.store0))
       = json (JsonData (OfAnalytics a))
       /\ overdueTaskCount a = 1 /\ incompleteTaskCount a = 0.
Proof.
  split; [split; [|split]|].
  - vm_compute. reflexivity.
  - vm_compute. reflexivity.
  - exists Sample.march. rewrite sample_analytics_run. repeat split.
  - eexists. split; [vm_compute; reflexivity|]. split; reflexivity.
Qed.

(** C7.  Take an analytics request answered in a run without failing calls,
    and a task within its scope that was created in the current month, is
    done, and has a due date strictly before now.  With that task added to
    the store, the same request is answered with completedTaskCount one
    higher and with the same overdueTaskCount (and the same
    incompleteTaskCount): the task counts as completed and not as overdue,
    however far in the past it was due. *)
Theorem done_task_counts_as_completed :
  forall e s user r scope first resp s' a t before rest d,
    analytics_scope r = Some (scope, first) ->
    handle user r e s = (resp, s') ->
    body resp = JsonData (OfAnalytics a) ->
    fault_free e ->
    tasks (store s) = before ++ rest ->
    scope t = true ->
    Task.status t = TaskStatus.DONE ->
    startOfMonth (dates e) (clock e) <= Task.created_at t ->
    Task.created_at t <= endOfMonth (dates e) (clock e) ->
    Task.due_date t = Some d ->
    d < clock e ->
    exists a',
      fst (handle user r e
             (on_store s (with_tasks (store s) (before ++ t :: rest))))
      = json (JsonData (OfAnalytics a'))
      /\ completedTaskCount a' = completedTaskCount a + 1
      /\ overdueTaskCount a' = overdueTaskCount a
      /\ incompleteTaskCount a' = incompleteTaskCount a.
Proof.
  intros e s user r scope first resp s' a t before rest d
         Hscope Hrun Hbody Hff Htasks Hsc Hst Hlo Hhi Hdue Hlt.
  destruct (analytics_inversion _ _ _ _ _ _ _ _ _ Hscope Hrun Hbody)
    as (member & _ & _ & -> & Hother).
  eexists. split.
  - apply Hother; reflexivity.
  - unfold analytics_of.
    cbn [completedTaskCount overdueTaskCount incompleteTaskCount].
    rewrite !(count_of_fault_free _ _ _ _ Hff). cbn [or_zero with_tasks tasks].
    rewrite Htasks, !count_rows_insert.
    unfold metric_query, this_month. simpl forallb.
    unfold TaskFilter.eq_status, TaskFilter.neq_status,
      TaskFilter.gte_created_at, TaskFilter.lte_created_at.
    rewrite Hsc, Hst. simpl.
    apply Z.leb_le in Hlo, Hhi. rewrite Hlo, Hhi. simpl.
    repeat split; lia.
Qed.

Lemma done_task_counts_as_completed_witness :
  analytics_scope (GetWorkspaceAnalytics "w1")
    = Some (TaskFilter.eq_workspace_id "w1", 1%nat)
  /\ fst (handle "carol" (GetWorkspaceAnalytics "w1")
            (Sample.env Sample.no_faults) (Sample.start Sample.store_before))
     = json (JsonData (OfAnalytics Sample.march_before))
  /\ fault_free (Sample.env Sample.no_faults)
  /\ tasks Sample.store_before = [] ++ [Sample.late; Sample.someday; Sample.stale]
  /\ Task.status Sample.shipped = TaskStatus.DONE
  /\ Task.due_date Sample.shipped = Some (Sample.day 2024 3 14)
  /\ Sample.day 2024 3 14 < Sample.now
  /\ exists a',
       fst (handle "carol" (GetWorkspaceAnalytics "w1")
              (Sample.env Sample.no_faults)
              (on_store (Sample.start Sample.store_before)
                 (with_tasks Sample.store_before
                    ([] ++ Sample.shipped
                        :: [Sample.late; Sample.someday; Sample.stale]))))
       = json (JsonData (OfAnalytics a'))
       /\ completedTaskCount a' = completedTaskCount Sample.march_before + 1
       /\ overdueTaskCount a' = overdueTaskCount Sample.march_before
       /\ incompleteTaskCount a' = incompleteTaskCount Sample.march_before.
Proof.
  split; [reflexivity|]. split; [vm_compute; reflexivity|].
  split; [intros k; reflexivity|].
  split; [reflexivity|]. split; [reflexivity|]. split; [reflexivity|].
  split; [vm_compute; reflexivity|].
  refine (done_task_counts_as_completed (Sample.env Sample.no_faults)
            (Sample.start Sample.store_before)
            "carol" (GetWorkspaceAnalytics "w1")
            (TaskFilter.eq_workspace_id "w1") 1%nat _ _ Sample.march_before
            Sample.shipped [] [Sample.late; Sample.someday; Sample.stale]
            (Sample.day 2024 3 14)
            eq_refl (surjective_pairing _) _ (fun k => eq_refl) eq_refl
            eq_refl eq_refl _ _ eq_refl _).
  - vm_compute; reflexivity.
  - vm_compute; discriminate.
  - vm_compute; discriminate.
  - vm_compute; reflexivity.
Defined.

(** ** The membership gate *)

Ltac enter_handler :=
  repeat first
    [ erewrite bind_run by apply ask_run
    | erewrite bind_run by apply getMember_run
    | erewrite bind_run by apply query_run ].

(** The handlers gated on membership, when the lookup returns nothing. *)
Lemma workspace_gate e s user r ws :
  workspace_of r = Some ws ->
  rejects_non_members r = true ->
  lookup e (List.length (trace s)) ws user (store s) = None ->
  handle user r e s = (unauthorized, after s [Select TABLES.MEMBERS]).
Proof.
  intros Hw Hr Hm.
  destruct r; try discriminate Hw; try discriminate Hr;
    injection Hw as ->; simpl;
    [ unfold get_workspace | unfold patch_workspace | unfold delete_workspace
    | unfold post_reset_invite_code | unfold get_workspace_analytics
    | unfold post_projects | unfold get_projects ];
    enter_handler; rewrite Hm; reflexivity.
Qed.

Lemma project_gate e s user r pid project :
  project_of r = Some pid ->
  outcome e (List.length (trace s))
          (fun st => single (project_by_id pid st)) (store s) = PgData project ->
  lookup e (List.length (trace s) + 1) (Project.workspace_id project) user
         (store s) = None ->
  handle user r e s =
  (unauthorized, after s [Select TABLES.PROJECTS; Select TABLES.MEMBERS]).
Proof.
  intros Hp Ho Hm.
  destruct r; try discriminate Hp; injection Hp as ->; simpl;
    [ unfold get_project | unfold patch_project | unfold delete_project
    | unfold get_project_analytics ];
    enter_handler; rewrite Ho;
    erewrite bind_run by apply getMember_run;
    rewrite trace_after, store_after; cbn [List.length];
    rewrite Hm, after_after; reflexivity.
Qed.

(** Either kind of gated handler, through [membership_lookup]. *)
Lemma gate e s user r ws before :
  membership_lookup e s r = Some (ws, before) ->
  rejects_non_members r = true ->
  lookup e (List.length (trace s) + List.length before) ws user (store s)
    = None ->
  handle user r e s =
  (unauthorized, after s (before ++ [Select TABLES.MEMBERS])).
Proof.
  intros Hl Hr Hm.
  destruct r; try discriminate Hl; try discriminate Hr;
    cbn [membership_lookup] in Hl;
    try (injection Hl as <- <-; simpl in Hm; rewrite Nat.add_0_r in Hm;
         eapply workspace_gate; [reflexivity | reflexivity | exact Hm]).
  all: match type of Hl with
       | match ?o with _ => _ end = _ =>
           destruct o as [message|project] eqn:Ho; [discriminate Hl|]
       end;
       injection Hl as <- <-;
       eapply project_gate; [reflexivity | exact Ho | exact Hm].
Qed.

(** C1, as it holds.  Every endpoint that takes a workspace id, other than
    GET /:workspaceId/info and POST /:workspaceId/join, answers a caller who
    has no member row for that workspace with 401 "Unauthorized."; the
    membership lookup is the only backend call of the request, and the
    store is left as it was. *)
Theorem membership_gate :
  forall e s user r ws,
    workspace_of r = Some ws ->
    rejects_non_members r = true ->
    member_rows ws user (store s) = [] ->
    handle user r e s = (unauthorized, after s [Select TABLES.MEMBERS])
    /\ status unauthorized = 401
    /\ body unauthorized = JsonError "Unauthorized."
    /\ store (after s [Select TABLES.MEMBERS]) = store s.
Proof.
  intros e s user r ws Hw Hr Hrows.
  split; [|repeat split].
  apply (workspace_gate e s user r ws Hw Hr).
  apply lookup_no_row. exact Hrows.
Qed.

(** The endpoints addressed by project id gate in the same way on the
    workspace of the project, once they have resolved it. *)
Lemma project_membership_gate e s user r pid project :
  project_of r = Some pid ->
  outcome e (List.length (trace s))
          (fun st => single (project_by_id pid st)) (store s) = PgData project ->
  member_rows (Project.workspace_id project) user (store s) = [] ->
  handle user r e s =
  (unauthorized, after s [Select TABLES.PROJECTS; Select TABLES.MEMBERS]).
Proof.
  intros Hp Ho Hrows. apply (project_gate e s user r pid project Hp Ho).
  apply lookup_no_row. exact Hrows.
Qed.

Lemma membership_gate_witness :
  workspace_of (GetWorkspaceAnalytics "w1") = Some "w1"
  /\ rejects_non_members (GetWorkspaceAnalytics "w1") = true
  /\ member_rows "w1" "bob" (store (Sample.start Sample.store0)) = []
  /\ handle "bob" (GetWorkspaceAnalytics "w1") (Sample.env Sample.no_faults)
            (Sample.start Sample.store0)
     = (unauthorized,
        after (Sample.start Sample.store0) [Select TABLES.MEMBERS]).
Proof.
  split; [reflexivity|]. split; [reflexivity|]. split; [reflexivity|].
  exact (proj1 (membership_gate (Sample.env Sample.no_faults)
                  (Sample.start Sample.store0) "bob"
                  (GetWorkspaceAnalytics "w1") "w1" eq_refl eq_refl eq_refl)).
Defined.

(** C1, as stated, fails at GET /:workspaceId/info: bob has no member row
    for workspace w1, yet the handler answers 200 with the id and the name
    of the workspace, and its only backend call is the select on
    workspaces. *)
Lemma info_answers_non_member :
  workspace_of (GetWorkspaceInfo "w1") = Some "w1"
  /\ member_rows "w1" "bob" Sample.store0 = []
  /\ handle "bob" (GetWorkspaceInfo "w1") (Sample.env Sample.no_faults)
            (Sample.start Sample.store0)
     = ({| status := 200; body := JsonData (OfWorkspaceInfo "w1" "Acme") |},
        after (Sample.start Sample.store0) [Select TABLES.WORKSPACES]).
Proof. repeat split. Qed.

(** ** The admin gate *)

Lemma admin_denied e s user r ws :
  admin_only r = Some ws ->
  not_admin (lookup e (List.length (trace s)) ws user (store s)) = true ->
  handle user r e s = (unauthorized, after s [Select TABLES.MEMBERS]).
Proof.
  intros Ha Hn.
  destruct r; try discriminate Ha; injection Ha as ->; simpl;
    [ unfold patch_workspace | unfold delete_workspace
    | unfold post_reset_invite_code ];
    enter_handler; rewrite Hn; reflexivity.
Qed.

Lemma not_admin_false member :
  not_admin member = false ->
  exists m, member = Some m /\ Member.role m = MemberRole.ADMIN.
Proof.
  destruct member as [m|]; simpl; [|discriminate].
  intros H. exists m. split; [reflexivity|].
  apply negb_false_iff in H. apply MemberRole_eqb_eq. exact H.
Qed.

(** C5.  PATCH /:workspaceId, DELETE /:workspaceId and
    POST /:workspaceId/resetInviteCode: when no member row of the caller for
    the workspace has role ADMIN (there is none at all, or its role is
    MEMBER), the answer is 401 "Unauthorized." and the run consists of the
    membership lookup alone, so nothing is mutated.  Conversely a run that
    goes any further than the lookup was made by a caller whose one member
    row for the workspace has role ADMIN. *)
Theorem admin_gate :
  forall e s user r ws resp s',
    admin_only r = Some ws ->
    handle user r e s = (resp, s') ->
    ((forall m, In m (members (store s)) ->
                Member.workspace_id m = ws -> Member.user_id m = user ->
                Member.role m <> MemberRole.ADMIN) ->
     resp = unauthorized /\ s' = after s [Select TABLES.MEMBERS]
     /\ store s' = store s)
    /\ (s' <> after s [Select TABLES.MEMBERS] ->
        exists m, member_rows ws user (store s) = [m]
                  /\ Member.role m = MemberRole.ADMIN).
Proof.
  intros e s user r ws resp s' Ha Hrun.
  destruct (not_admin (lookup e (List.length (trace s)) ws user (store s)))
    eqn:Hn.
  - rewrite (admin_denied _ _ _ _ _ Ha Hn) in Hrun.
    injection Hrun as <- <-.
    split; [intros _; repeat split|].
    intros Hne. exfalso. apply Hne. reflexivity.
  - apply not_admin_false in Hn as (m & Hm & Hrole).
    apply lookup_some in Hm as [_ Hrows].
    split.
    + intros Hnone. exfalso.
      assert (Hin : In m (member_rows ws user (store s)))
        by (rewrite Hrows; left; reflexivity).
      apply member_rows_in in Hin as (Hin & Hw & Hu).
      exact (Hnone m Hin Hw Hu Hrole).
    + intros _. exists m. split; assumption.
Qed.

Lemma admin_gate_witness :
  admin_only (PostResetInviteCode "w1") = Some "w1"
  /\ (forall m, In m (members Sample.store0) ->
                Member.workspace_id m = "w1" -> Member.user_id m = "carol" ->
                Member.role m <> MemberRole.ADMIN)
  /\ fst (handle "carol" (PostResetInviteCode "w1")
            (Sample.env Sample.no_faults) (Sample.start Sample.store0))
     = unauthorized
  /\ snd (handle "carol" (PostResetInviteCode "w1")
            (Sample.env Sample.no_faults) (Sample.start Sample.store0))
     = after (Sample.start Sample.store0) [Select TABLES.MEMBERS]
  /\ store (snd (handle "carol" (PostResetInviteCode "w1")
                   (Sample.env Sample.no_faults) (Sample.start Sample.store0)))
     = Sample.store0.
Proof.
  assert (H : forall m, In m (members Sample.store0) ->
                Member.workspace_id m = "w1" -> Member.user_id m = "carol" ->
                Member.role m <> MemberRole.ADMIN).
  { simpl. intros m [<-|[<-|[]]] _ Hu; simpl in *; discriminate. }
  split; [reflexivity|]. split; [exact H|].
  exact (proj1 (admin_gate (Sample.env Sample.no_faults)
                  (Sample.start Sample.store0) "carol"
                  (PostResetInviteCode "w1") "w1" _ _ eq_refl
                  (surjective_pairing _)) H).
Defined.

(** ** Failed membership lookups *)

Lemma lookup_error e k ws user st message :
  outcome e k (fun st => single (member_rows ws user st)) st = PgError message ->
  lookup e k ws user st = None.
Proof. intros H. unfold lookup. rewrite H. reflexivity. Qed.

(** C9, as it holds.  [getMember] returns null for every failing outcome of
    its query: the call failed, or it matched no row, or more than one.
    Every handler that calls it, POST /:workspaceId/join apart, then
    answers 401 "Unauthorized." and issues no further call, so the failure
    is never surfaced as a 500. *)
Theorem failed_lookup_is_unauthorized :
  forall e s user r ws before message,
    membership_lookup e s r = Some (ws, before) ->
    rejects_non_members r = true ->
    outcome e (List.length (trace s) + List.length before)
            (fun st => single (member_rows ws user st)) (store s)
      = PgError message ->
    getMember ws user e (after s before)
      = (None, after s (before ++ [Select TABLES.MEMBERS]))
    /\ handle user r e s
       = (unauthorized, after s (before ++ [Select TABLES.MEMBERS]))
    /\ status unauthorized = 401.
Proof.
  intros e s user r ws before message Hl Hr Ho.
  apply lookup_error in Ho.
  split; [|split; [|reflexivity]].
  - rewrite getMember_run, trace_after, store_after, after_after, Ho.
    reflexivity.
  - apply (gate e s user r ws before); assumption.
Qed.

(** The failing outcomes: a failed call, no row, several rows. *)
Lemma lookup_failures e k ws user st :
  (faults e k <> None \/ forall m, member_rows ws user st <> [m]) ->
  exists message,
    outcome e k (fun st => single (member_rows ws user st)) st = PgError message.
Proof.
  unfold outcome, single. intros [H|H].
  - destruct (faults e k) as [message|]; [|contradiction].
    exists message. reflexivity.
  - destruct (faults e k) as [message|]; [exists message; reflexivity|].
    destruct (member_rows ws user st) as [|m [|m' l]].
    + eexists; reflexivity.
    + exfalso. apply (H m). reflexivity.
    + eexists; reflexivity.
Qed.

Lemma failed_lookup_is_unauthorized_witness :
  membership_lookup (Sample.env (Sample.fault_at 0 "connection reset"))
                    (Sample.start Sample.store0) (DeleteWorkspace "w1")
    = Some ("w1", [])
  /\ rejects_non_members (DeleteWorkspace "w1") = true
  /\ outcome (Sample.env (Sample.fault_at 0 "connection reset")) (0 + 0)
             (fun st => single (member_rows "w1" "alice" st)) Sample.store0
     = PgError "connection reset"
  /\ handle "alice" (DeleteWorkspace "w1")
            (Sample.env (Sample.fault_at 0 "connection reset"))
            (Sample.start Sample.store0)
     = (unauthorized,
        after (Sample.start Sample.store0) ([] ++ [Select TABLES.MEMBERS])).
Proof.
  split; [reflexivity|]. split; [reflexivity|]. split; [reflexivity|].
  exact (proj1 (proj2
           (failed_lookup_is_unauthorized
              (Sample.env (Sample.fault_at 0 "connection reset"))
              (Sample.start Sample.store0) "alice" (DeleteWorkspace "w1")
              "w1" [] "connection reset" eq_refl eq_refl eq_refl))).
Defined.

(** C9, as stated, fails at POST /:workspaceId/join, which also calls
    [getMember].  When the lookup fails for a backend reason the handler
    takes the null for "not a member yet" and goes on: bob, who is not a
    member, is answered 200 and joined; carol, who is one, is answered 500
    by the UNIQUE(user_id, workspace_id) constraint.  Neither answer is a
    401. *)
Lemma join_ignores_failed_lookup :
  getMember "w1" "bob" (Sample.env (Sample.fault_at 0 "connection reset"))
            (Sample.start Sample.store0)
    = (None, after (Sample.start Sample.store0) [Select TABLES.MEMBERS])
  /\ fst (handle "bob" (PostJoin "w1" "AB12CD")
            (Sample.env (Sample.fault_at 0 "connection reset"))
            (Sample.start Sample.store0))
     = {| status := 200; body := JsonData (OfWorkspace Sample.acme) |}
  /\ fst (handle "carol" (PostJoin "w1" "AB12CD")
            (Sample.env (Sample.fault_at 0 "connection reset"))
            (Sample.start Sample.store0))
     = {| status := 500; body := JsonError duplicate_key |}.
Proof. repeat split. Qed.

(** ** Joining a workspace *)

Lemma draw_run e s :
  draw e s = (random e (drawn s),
              {| store := store s; trace := trace s; drawn := S (drawn s) |}).
Proof. reflexivity. Qed.

Lemma post_join_run user ws code e s :
  post_join user ws code e s =
  match lookup e (List.length (trace s)) ws user (store s) with
  | Some _ =>
      (json_status (JsonError "Already a member.") 400,
       after s [Select TABLES.MEMBERS])
  | None =>
      match outcome e (List.length (trace s) + 1)
                    (fun st => single (workspace_by_id ws st)) (store s) with
      | PgError message =>
          (json_status (JsonError message) 500,
           after s [Select TABLES.MEMBERS; Select TABLES.WORKSPACES])
      | PgData w =>
          if String.eqb (Workspace.invite_code w) code
          then
            match outcome e (List.length (trace s) + 2)
                          (insert_member (join_row e s user ws)) (store s) with
            | PgError message =>
                (json_status (JsonError message) 500,
                 {| store := store s;
                    trace := trace s ++ [Select TABLES.MEMBERS;
                                         Select TABLES.WORKSPACES;
                                         Insert TABLES.MEMBERS];
                    drawn := S (drawn s) |})
            | PgData (_, st) =>
                (json (JsonData (OfWorkspace w)),
                 {| store := st;
                    trace := trace s ++ [Select TABLES.MEMBERS;
                                         Select TABLES.WORKSPACES;
                                         Insert TABLES.MEMBERS];
                    drawn := S (drawn s) |})
            end
          else
            (json_status (JsonError "Invalid invite code.") 400,
             after s [Select TABLES.MEMBERS; Select TABLES.WORKSPACES])
      end
  end.
Proof.
  unfold post_join.
  erewrite bind_run by apply ask_run.
  erewrite bind_run by apply getMember_run.
  destruct (lookup e (List.length (trace s)) ws user (store s)); [reflexivity|].
  erewrite bind_run by apply query_run.
  rewrite trace_after, store_after, after_after. cbn [List.length app].
  destruct (outcome e (List.length (trace s) + 1)
              (fun st => single (workspace_by_id ws st)) (store s))
    as [message|w]; [reflexivity|].
  destruct (String.eqb (Workspace.invite_code w) code); [|reflexivity].
  cbn [negb].
  erewrite bind_run by apply draw_run.
  rewrite bind_await.
  cbn [trace store drawn after].
  rewrite length_app. cbn [List.length].
  unfold join_row.
  destruct (outcome e (List.length (trace s) + 2) _ (store s))
    as [message|[[] st]]; unfold after; cbn [trace store drawn];
    rewrite <- app_assoc; reflexivity.
Qed.

Lemma workspace_by_id_in id st w :
  In w (workspace_by_id id st) <-> In w (workspaces st) /\ Workspace.id w = id.
Proof.
  unfold workspace_by_id. rewrite filter_In, String.eqb_eq. tauto.
Qed.

Lemma workspace_found e k ws st w :
  outcome e k (fun st => single (workspace_by_id ws st)) st = PgData w ->
  faults e k = None /\ workspace_by_id ws st = [w].
Proof.
  unfold outcome, single.
  destruct (faults e k); [discriminate|].
  destruct (workspace_by_id ws st) as [|x [|y l]]; try discriminate.
  intros H. injection H as <-. split; reflexivity.
Qed.

(** C4.  POST /:workspaceId/join with a code that differs from the invite
    code of the workspace answers with an error and stops after the
    membership lookup or after the workspace lookup: no member row is
    inserted, whatever the backend does.  Conversely a run that changes the
    members table submitted the invite code of the workspace. *)
Theorem join_wrong_code :
  forall e s user ws code resp s',
    handle user (PostJoin ws code) e s = (resp, s') ->
    ((forall w, In w (workspaces (store s)) -> Workspace.id w = ws ->
                Workspace.invite_code w <> code) ->
     (exists message, body resp = JsonError message)
     /\ status resp <> 200
     /\ (s' = after s [Select TABLES.MEMBERS]
         \/ s' = after s [Select TABLES.MEMBERS; Select TABLES.WORKSPACES])
     /\ members (store s') = members (store s))
    /\ (members (store s') <> members (store s) ->
        exists w, workspace_by_id ws (store s) = [w]
                  /\ Workspace.invite_code w = code).
Proof.
  intros e s user ws code resp s' Hrun.
  simpl in Hrun. rewrite post_join_run in Hrun.
  destruct (lookup e (List.length (trace s)) ws user (store s)).
  { injection Hrun as <- <-. split.
    - intros _. repeat split; [eexists; reflexivity | discriminate | now left].
    - intros H. exfalso. apply H. reflexivity. }
  destruct (outcome e (List.length (trace s) + 1)
              (fun st => single (workspace_by_id ws st)) (store s))
    as [message|w] eqn:Hw.
  { injection Hrun as <- <-. split.
    - intros _. repeat split; [eexists; reflexivity | discriminate | now right].
    - intros H. exfalso. apply H. reflexivity. }
  apply workspace_found in Hw as [_ Hw].
  destruct (String.eqb (Workspace.invite_code w) code) eqn:Hcode.
  - apply String.eqb_eq in Hcode. split.
    + intros Hne. exfalso.
      assert (Hin : In w (workspace_by_id ws (store s)))
        by (rewrite Hw; left; reflexivity).
      apply workspace_by_id_in in Hin as [Hin Hid].
      exact (Hne w Hin Hid Hcode).
    + intros _. exists w. split; assumption.
  - injection Hrun as <- <-. split.
    + intros _. repeat split; [eexists; reflexivity | discriminate | now right].
    + intros H. exfalso. apply H. reflexivity.
Qed.

Lemma join_wrong_code_witness :
  (forall w, In w (workspaces Sample.store0) -> Workspace.id w = "w1" ->
             Workspace.invite_code w <> "ZZ99ZZ")
  /\ (exists message,
        body (fst (handle "bob" (PostJoin "w1" "ZZ99ZZ")
                     (Sample.env Sample.no_faults) (Sample.start Sample.store0)))
        = JsonError message)
  /\ status (fst (handle "bob" (PostJoin "w1" "ZZ99ZZ")
                    (Sample.env Sample.no_faults) (Sample.start Sample.store0)))
     <> 200
  /\ members (store (snd (handle "bob" (PostJoin "w1" "ZZ99ZZ")
                            (Sample.env Sample.no_faults)
                            (Sample.start Sample.store0))))
     = members Sample.store0.
Proof.
  assert (H : forall w, In w (workspaces Sample.store0) ->
                Workspace.id w = "w1" -> Workspace.invite_code w <> "ZZ99ZZ").
  { simpl. intros w [<-|[]] _. simpl. discriminate. }
  split; [exact H|].
  destruct (proj1 (join_wrong_code (Sample.env Sample.no_faults)
                     (Sample.start Sample.store0) "bob" "w1" "ZZ99ZZ" _ _
                     (surjective_pairing _)) H)
    as (Hb & Hs & _ & Hm).
  split; [exact Hb|]. split; [exact Hs|exact Hm].
Defined.

Lemma existsb_false {A} (f : A -> bool) l :
  existsb f l = false <-> forall x, In x l -> f x = false.
Proof.
  induction l as [|a l IH]; simpl.
  - split; [intros _ x []|reflexivity].
  - rewrite orb_false_iff, IH. split.
    + intros [Ha Hl] x [<-|Hx]; [exact Ha|exact (Hl x Hx)].
    + intros H. split; [apply H; now left|intros x Hx; apply H; now right].
Qed.

(** The store accepts the row of a caller who has no row for the workspace,
    when the workspace exists and the generated id is not in use. *)
Lemma insert_member_accepts row st :
  (forall m, In m (members st) -> Member.id m <> Member.id row) ->
  member_rows (Member.workspace_id row) (Member.user_id row) st = [] ->
  workspace_by_id (Member.workspace_id row) st <> [] ->
  insert_member row st = PgData (tt, with_members st (members st ++ [row])).
Proof.
  intros Hid Hrows Hws. unfold insert_member.
  assert (Hdup : existsb
            (fun m => String.eqb (Member.id m) (Member.id row)
                      || (String.eqb (Member.user_id m) (Member.user_id row)
                          && String.eqb (Member.workspace_id m)
                                        (Member.workspace_id row)))
            (members st) = false).
  { apply existsb_false. intros m Hm. apply orb_false_iff. split.
    - apply String.eqb_neq. exact (Hid m Hm).
    - destruct (String.eqb (Member.user_id m) (Member.user_id row)) eqn:Eu;
        [|reflexivity].
      destruct (String.eqb (Member.workspace_id m) (Member.workspace_id row))
        eqn:Ew; [|reflexivity].
      exfalso. apply String.eqb_eq in Eu, Ew.
      assert (Hin : In m (member_rows (Member.workspace_id row)
                                      (Member.user_id row) st))
        by (apply member_rows_in; auto).
      rewrite Hrows in Hin. exact Hin. }
  rewrite Hdup.
  assert (Hfk : existsb
            (fun w => String.eqb (Workspace.id w) (Member.workspace_id row))
            (workspaces st) = true).
  { destruct (workspace_by_id (Member.workspace_id row) st) as [|w l] eqn:E;
      [contradiction|].
    assert (Hin : In w (workspace_by_id (Member.workspace_id row) st))
      by (rewrite E; left; reflexivity).
    apply workspace_by_id_in in Hin as [Hin Heq].
    apply existsb_exists. exists w. split; [exact Hin|].
    apply String.eqb_eq. exact Heq. }
  rewrite Hfk. reflexivity.
Qed.

Lemma member_rows_snoc ws user st row :
  Member.workspace_id row = ws -> Member.user_id row = user ->
  member_rows ws user (with_members st (members st ++ [row]))
  = member_rows ws user st ++ [row].
Proof.
  intros Hw Hu. unfold member_rows. cbn [members with_members].
  rewrite filter_app. simpl. rewrite Hw, Hu, !String.eqb_refl. reflexivity.
Qed.

(** C3.  Joining succeeds exactly once per (user, workspace).  In a run
    without failing calls, for a workspace that exists, a caller without a
    member row who submits the invite code of the workspace is answered
    [{ data: workspace }], and the members table gains exactly one row, for
    the caller and the workspace, with role MEMBER (the generated id is
    assumed unused); every other table is unchanged.  From then on, as
    long as that row is the caller's membership of the workspace, every
    further join of the same caller to the same workspace, with any code,
    is answered 400 "Already a member." after the membership lookup alone,
    so no row is created. *)
Theorem join_succeeds_once :
  forall e s user ws w,
    fault_free e ->
    workspace_by_id ws (store s) = [w] ->
    member_rows ws user (store s) = [] ->
    (forall m, In m (members (store s)) -> Member.id m <> random e (drawn s)) ->
    exists s1,
      handle user (PostJoin ws (Workspace.invite_code w)) e s
        = (json (JsonData (OfWorkspace w)), s1)
      /\ store s1 = with_members (store s)
                      (members (store s) ++ [join_row e s user ws])
      /\ Member.role (join_row e s user ws) = MemberRole.MEMBER
      /\ member_rows ws user (store s1) = [join_row e s user ws]
      /\ forall e' s2 code,
           fault_free e' ->
           member_rows ws user (store s2) = member_rows ws user (store s1) ->
           handle user (PostJoin ws code) e' s2
             = (json_status (JsonError "Already a member.") 400,
                after s2 [Select TABLES.MEMBERS]).
Proof.
  intros e s user ws w Hff Hw Hrows Hfresh.
  assert (Hone : member_rows ws user
                   (with_members (store s)
                      (members (store s) ++ [join_row e s user ws]))
                 = [join_row e s user ws]).
  { rewrite member_rows_snoc by reflexivity. rewrite Hrows. reflexivity. }
  eexists. split; [|split; [|split; [|split]]].
  - simpl. rewrite post_join_run.
    rewrite (lookup_no_row _ _ _ _ _ Hrows).
    unfold outcome at 1. rewrite Hff, Hw. cbn [single].
    rewrite String.eqb_refl.
    unfold outcome. rewrite Hff.
    rewrite insert_member_accepts.
    + reflexivity.
    + exact Hfresh.
    + exact Hrows.
    + cbn [join_row Member.workspace_id]. rewrite Hw. discriminate.
  - reflexivity.
  - reflexivity.
  - exact Hone.
  - intros e' s2 code Hff' Hsame. simpl. rewrite post_join_run.
    rewrite (lookup_one e' _ ws user (store s2) (join_row e s user ws)).
    + reflexivity.
    + apply Hff'.
    + rewrite Hsame. exact Hone.
Qed.

Lemma join_succeeds_once_witness :
  fault_free (Sample.env Sample.no_faults)
  /\ workspace_by_id "w1" Sample.store0 = [Sample.acme]
  /\ member_rows "w1" "bob" Sample.store0 = []
  /\ (forall m, In m (members Sample.store0) -> Member.id m <> "id-0")
  /\ exists s1,
       handle "bob" (PostJoin "w1" "AB12CD") (Sample.env Sample.no_faults)
              (Sample.start Sample.store0)
         = (json (JsonData (OfWorkspace Sample.acme)), s1)
       /\ store s1 = with_members Sample.store0
                       (members Sample.store0
                        ++ [join_row (Sample.env Sample.no_faults)
                                     (Sample.start Sample.store0) "bob" "w1"])
       /\ Member.role (join_row (Sample.env Sample.no_faults)
                                (Sample.start Sample.store0) "bob" "w1")
          = MemberRole.MEMBER
       /\ member_rows "w1" "bob" (store s1)
          = [join_row (Sample.env Sample.no_faults)
                      (Sample.start Sample.store0) "bob" "w1"]
       /\ forall e' s2 code,
            fault_free e' ->
            member_rows "w1" "bob" (store s2) = member_rows "w1" "bob" (store s1) ->
            handle "bob" (PostJoin "w1" code) e' s2
              = (json_status (JsonError "Already a member.") 400,
                 after s2 [Select TABLES.MEMBERS]).
Proof.
  assert (H : forall m, In m (members Sample.store0) -> Member.id m <> "id-0").
  { simpl. intros m [<-|[<-|[]]]; simpl; discriminate. }
  split; [intros k; reflexivity|]. split; [reflexivity|].
  split; [reflexivity|]. split; [exact H|].
  exact (join_succeeds_once (Sample.env Sample.no_faults)
           (Sample.start Sample.store0) "bob" "w1" Sample.acme
           (fun k => eq_refl) eq_refl eq_refl H).
Defined.

(** ** Creating a workspace *)

Lemma post_workspaces_run user name image e s uploadedImageId s1 :
  upload_form_image image e s = (PgData uploadedImageId, s1) ->
  post_workspaces user name image e s =
  match outcome e (List.length (trace s1))
                (insert_workspace
                   (new_workspace_row e s1 user name uploadedImageId))
                (store s1) with
  | PgError message =>
      (json_status (JsonError message) 500,
       {| store := store s1;
          trace := trace s1 ++ [Insert TABLES.WORKSPACES];
          drawn := S (S (drawn s1)) |})
  | PgData (w, st2) =>
      match outcome e (S (List.length (trace s1)))
                    (insert_member (owner_row e s1 user w)) st2 with
      | PgError message =>
          (json_status (JsonError message) 500,
           {| store := st2;
              trace := trace s1 ++ [Insert TABLES.WORKSPACES;
                                    Insert TABLES.MEMBERS];
              drawn := S (S (S (drawn s1))) |})
      | PgData (_, st3) =>
          (json (JsonData (OfWorkspace w)),
           {| store := st3;
              trace := trace s1 ++ [Insert TABLES.WORKSPACES;
                                    Insert TABLES.MEMBERS];
              drawn := S (S (S (drawn s1))) |})
      end
  end.
Proof.
  intros Hup. unfold post_workspaces.
  erewrite bind_run by apply ask_run.
  erewrite bind_run by exact Hup.
  unfold generateInviteCode.
  erewrite bind_run by apply draw_run.
  erewrite bind_run by apply draw_run.
  rewrite bind_await. cbn [trace store drawn].
  unfold new_workspace_row.
  destruct (outcome e (List.length (trace s1)) _ (store s1))
    as [message|[w st2]]; [reflexivity|].
  erewrite bind_run by apply draw_run.
  rewrite bind_await. cbn [trace store drawn].
  rewrite length_app, Nat.add_1_r. cbn [List.length].
  unfold owner_row.
  destruct (outcome e (S (List.length (trace s1))) _ st2)
    as [message|[[] st3]]; unfold after; cbn [trace store drawn];
    rewrite <- app_assoc; reflexivity.
Qed.

Lemma insert_workspace_data row st w st2 :
  insert_workspace row st = PgData (w, st2) ->
  w = row /\ st2 = with_workspaces st (workspaces st ++ [row])
  /\ forall x, In x (workspaces st) -> Workspace.id x <> Workspace.id row.
Proof.
  unfold insert_workspace.
  destruct (existsb _ (workspaces st)) eqn:E; [discriminate|].
  intros H. injection H as <- <-. repeat split.
  intros x Hx. rewrite existsb_false in E. specialize (E x Hx).
  apply orb_false_iff in E as [E _]. apply String.eqb_neq. exact E.
Qed.

Lemma outcome_data {A} e k (act : Store -> PostgrestResponse A) st a :
  outcome e k act st = PgData a -> faults e k = None /\ act st = PgData a.
Proof.
  unfold outcome. destruct (faults e k); [discriminate|].
  intros H. split; [reflexivity|exact H].
Qed.

(** C8.  POST /: when the insert of the workspace succeeds and the insert
    of its first member then fails, for whatever reason, the handler
    answers 500 with the message of that failure and does nothing else.
    The store is the one the workspace insert produced: the new workspace
    row is in it, the members table is as it was, and (the old member rows
    pointing to workspaces that exist) no member row points to the new
    workspace. *)
Theorem workspace_left_without_member :
  forall e s user name image uploadedImageId s1 w st2 message,
    upload_form_image image e s = (PgData uploadedImageId, s1) ->
    outcome e (List.length (trace s1))
            (insert_workspace (new_workspace_row e s1 user name uploadedImageId))
            (store s1) = PgData (w, st2) ->
    outcome e (S (List.length (trace s1)))
            (insert_member (owner_row e s1 user w)) st2 = PgError message ->
    handle user (PostWorkspaces name image) e s
      = (json_status (JsonError message) 500,
         {| store := st2;
            trace := trace s1 ++ [Insert TABLES.WORKSPACES; Insert TABLES.MEMBERS];
            drawn := S (S (S (drawn s1))) |})
    /\ workspaces st2 = workspaces (store s1) ++ [w]
    /\ Workspace.user_id w = user
    /\ members st2 = members (store s1)
    /\ (members_reference_workspaces (store s1) ->
        forall m, In m (members st2) ->
                  Member.workspace_id m <> Workspace.id w).
Proof.
  intros e s user name image uploadedImageId s1 w st2 message Hup Hw Hm.
  split.
  - simpl. rewrite (post_workspaces_run _ _ _ _ _ _ _ Hup), Hw, Hm.
    reflexivity.
  - apply outcome_data in Hw as [_ Hw].
    apply insert_workspace_data in Hw as (-> & -> & Hfresh).
    repeat split.
    intros Hfk m Hin Heq. cbn [members with_workspaces] in Hin.
    destruct (Hfk m Hin) as (x & Hx & Hid).
    apply (Hfresh x Hx). rewrite Hid. exact Heq.
Qed.

Lemma workspace_left_without_member_witness :
  upload_form_image None (Sample.env (Sample.fault_at 1 "timeout"))
                    (Sample.start Sample.store0)
    = (PgData None, Sample.start Sample.store0)
  /\ fst (handle "dave" (PostWorkspaces "Lab" None)
            (Sample.env (Sample.fault_at 1 "timeout"))
            (Sample.start Sample.store0))
     = json_status (JsonError "timeout") 500
  /\ map Workspace.id
         (workspaces
            (store (snd (handle "dave" (PostWorkspaces "Lab" None)
                           (Sample.env (Sample.fault_at 1 "timeout"))
                           (Sample.start Sample.store0)))))
     = ["w1"; "id-1"]
  /\ members
       (store (snd (handle "dave" (PostWorkspaces "Lab" None)
                      (Sample.env (Sample.fault_at 1 "timeout"))
                      (Sample.start Sample.store0))))
     = members Sample.store0.
Proof.
  split; [reflexivity|].
  pose proof
    (workspace_left_without_member
       (Sample.env (Sample.fault_at 1 "timeout")) (Sample.start Sample.store0)
       "dave" "Lab" None None (Sample.start Sample.store0)
       (new_workspace_row (Sample.env (Sample.fault_at 1 "timeout"))
          (Sample.start Sample.store0) "dave" "Lab" None)
       (with_workspaces Sample.store0
          (workspaces Sample.store0
           ++ [new_workspace_row (Sample.env (Sample.fault_at 1 "timeout"))
                 (Sample.start Sample.store0) "dave" "Lab" None]))
       "timeout" eq_refl eq_refl eq_refl) as (Hrun & _).
  rewrite Hrun. repeat split.
Defined.

(** ** Resetting the invite code *)

Lemma post_reset_invite_code_run user ws e s member :
  lookup e (List.length (trace s)) ws user (store s) = Some member ->
  Member.role member = MemberRole.ADMIN ->
  post_reset_invite_code user ws e s =
  match outcome e (List.length (trace s) + 1)
                (update_workspace ws
                   {| set_workspace_name := None;
                      set_workspace_image_id := None;
                      set_workspace_invite_code := Some (random e (drawn s)) |}
                   (clock e))
                (store s) with
  | PgError message =>
      (json_status (JsonError message) 500,
       {| store := store s;
          trace := trace s ++ [Select TABLES.MEMBERS; Update TABLES.WORKSPACES];
          drawn := S (drawn s) |})
  | PgData (w, st) =>
      (json (JsonData (OfWorkspace w)),
       {| store := st;
          trace := trace s ++ [Select TABLES.MEMBERS; Update TABLES.WORKSPACES];
          drawn := S (drawn s) |})
  end.
Proof.
  intros Hm Hrole. unfold post_reset_invite_code.
  erewrite bind_run by apply ask_run.
  erewrite bind_run by apply getMember_run.
  rewrite Hm. cbn [not_admin]. rewrite Hrole. cbn [MemberRole.eqb negb].
  unfold generateInviteCode.
  erewrite bind_run by apply draw_run.
  rewrite bind_await. cbn [trace store drawn after].
  rewrite length_app. cbn [List.length].
  destruct (outcome e (List.length (trace s) + 1) _ (store s))
    as [message|[w st]]; unfold after; cbn [trace store drawn];
    rewrite <- app_assoc; reflexivity.
Qed.

Lemma update_workspace_data id u now st w st' :
  update_workspace id u now st = PgData (w, st') ->
  exists old,
    workspace_by_id id st = [old]
    /\ w = apply_workspace_update u now old
    /\ st' = with_workspaces st
               (map (fun x => if String.eqb (Workspace.id x) id
                              then apply_workspace_update u now x
                              else x)
                    (workspaces st)).
Proof.
  unfold update_workspace.
  destruct (workspace_by_id id st) as [|old [|y l]]; try discriminate.
  destruct (match set_workspace_invite_code u with
            | Some code => _
            | None => false
            end); [discriminate|].
  intros H. injection H as <- <-. exists old. repeat split.
Qed.

(** C10.  A successful POST /:workspaceId/resetInviteCode sends an update
    that sets invite_code and nothing else.  Row by row, the workspaces
    table keeps the id, name, user_id, image_id and created_at of every
    workspace; a row with another id is not touched at all; the row of the
    workspace carries the generated code (its updated_at is refreshed by the
    trigger of the store) and is the one returned.  Projects, tasks,
    members and images are unchanged. *)
Theorem reset_invite_code_frame :
  forall e s user ws w' s',
    handle user (PostResetInviteCode ws) e s
      = (json (JsonData (OfWorkspace w')), s') ->
    projects (store s') = projects (store s)
    /\ tasks (store s') = tasks (store s)
    /\ members (store s') = members (store s)
    /\ images (store s') = images (store s)
    /\ List.length (workspaces (store s')) = List.length (workspaces (store s))
    /\ forall i x,
         nth_error (workspaces (store s)) i = Some x ->
         exists x',
           nth_error (workspaces (store s')) i = Some x'
           /\ Workspace.id x' = Workspace.id x
           /\ Workspace.name x' = Workspace.name x
           /\ Workspace.user_id x' = Workspace.user_id x
           /\ Workspace.image_id x' = Workspace.image_id x
           /\ Workspace.created_at x' = Workspace.created_at x
           /\ (Workspace.id x <> ws -> x' = x)
           /\ (Workspace.id x = ws ->
               x' = w'
               /\ x' = apply_workspace_update
                         {| set_workspace_name := None;
                            set_workspace_image_id := None;
                            set_workspace_invite_code :=
                              Some (random e (drawn s)) |}
                         (clock e) x
               /\ Workspace.invite_code x' = random e (drawn s)).
Proof.
  intros e s user ws w' s' Hrun.
  destruct (not_admin (lookup e (List.length (trace s)) ws user (store s)))
    eqn:Hn.
  { rewrite (admin_denied e s user (PostResetInviteCode ws) ws eq_refl Hn)
      in Hrun.
    discriminate Hrun. }
  apply not_admin_false in Hn as (member & Hm & Hrole).
  change (handle user (PostResetInviteCode ws) e s)
    with (post_reset_invite_code user ws e s) in Hrun.
  rewrite (post_reset_invite_code_run _ _ _ _ _ Hm Hrole) in Hrun.
  destruct (outcome e (List.length (trace s) + 1) _ (store s))
    as [message|[w st]] eqn:Hup; [discriminate Hrun|].
  injection Hrun as -> <-. cbn [store].
  apply outcome_data in Hup as [_ Hup].
  apply update_workspace_data in Hup as (old & Hold & -> & ->).
  cbn [with_workspaces projects tasks members images workspaces].
  repeat split.
  - apply length_map.
  - intros i x Hx.
    rewrite nth_error_map, Hx. cbn [option_map].
    destruct (String.eqb (Workspace.id x) ws) eqn:E.
    + apply String.eqb_eq in E.
      eexists. split; [reflexivity|].
      do 5 (split; [reflexivity|]).
      split; [intros Hne; contradiction|].
      intros _.
      assert (Hin : In x (workspace_by_id ws (store s))).
      { apply workspace_by_id_in. split; [|exact E].
        eapply nth_error_In. exact Hx. }
      rewrite Hold in Hin. destruct Hin as [<-|[]].
      split; [reflexivity|]. split; reflexivity.
    + apply String.eqb_neq in E.
      exists x. do 6 (split; [reflexivity|]).
      split; [reflexivity|]. intros Heq. contradiction.
Qed.

Lemma reset_invite_code_frame_witness :
  fst (handle "alice" (PostResetInviteCode "w1") (Sample.env Sample.no_faults)
              (Sample.start Sample.store0))
    = json (JsonData (OfWorkspace
        (apply_workspace_update
           {| set_workspace_name := None;
              set_workspace_image_id := None;
              set_workspace_invite_code := Some "id-0" |}
           Sample.now Sample.acme)))
  /\ members (store (snd (handle "alice" (PostResetInviteCode "w1")
                            (Sample.env Sample.no_faults)
                            (Sample.start Sample.store0))))
     = members Sample.store0
  /\ List.length
       (workspaces (store (snd (handle "alice" (PostResetInviteCode "w1")
                                  (Sample.env Sample.no_faults)
                                  (Sample.start Sample.store0)))))
     = 1%nat.
Proof.
  split; [reflexivity|].
  destruct (reset_invite_code_frame (Sample.env Sample.no_faults)
              (Sample.start Sample.store0) "alice" "w1" _ _
              (surjective_pairing
                 (handle "alice" (PostResetInviteCode "w1")
                    (Sample.env Sample.no_faults) (Sample.start Sample.store0))))
    as (_ & _ & Hm & _ & Hl & _).
  split; [exact Hm|exact Hl].
Defined.

(** * Beyond the claims: the rest of the two route files *)

(** ** A small logic for runs *)

Section Satisfies.
Variable R : Store -> Store -> Prop.
Hypothesis R_refl : forall st, R st st.
Hypothesis R_trans : forall a b c, R a b -> R b c -> R a c.
Variable e : Env.

Lemma sat_ret {A} (Q : A -> Prop) a : Q a -> satisfies R Q e (ret a).
Proof. intros H s a' s' E. injection E as <- <-. split; [apply R_refl|exact H]. Qed.

Lemma sat_bind {A B} (P : A -> Prop) (Q : B -> Prop) (c : M A) (k : A -> M B) :
  satisfies R P e c ->
  (forall a, P a -> satisfies R Q e (k a)) ->
  satisfies R Q e (bind c k).
Proof.
  intros Hc Hk s b s' E. unfold bind in E.
  destruct (c e s) as [a s1] eqn:E1.
  destruct (Hc _ _ _ E1) as [H1 Ha].
  destruct (Hk a Ha _ _ _ E) as [H2 Hb].
  split; [eapply R_trans; eassumption|exact Hb].
Qed.

Lemma sat_ask : satisfies R (fun e' => e' = e) e ask.
Proof. intros s a s' E. injection E as <- <-. split; [apply R_refl|reflexivity]. Qed.

Lemma sat_draw : satisfies R (fun _ => True) e draw.
Proof. intros s a s' E. injection E as <- <-. split; [apply R_refl|exact I]. Qed.

Lemma sat_await {A} c (act : Store -> PostgrestResponse (A * Store)) :
  (forall st a st', act st = PgData (a, st') -> R st st') ->
  satisfies R (fun _ => True) e (await c act).
Proof.
  intros H s a s' E. rewrite await_run in E. unfold outcome in E.
  destruct (faults e (List.length (trace s))).
  - injection E as <- <-. split; [apply R_refl|exact I].
  - destruct (act (store s)) as [m|[x st]] eqn:Ea.
    + injection E as <- <-. split; [apply R_refl|exact I].
    + injection E as <- <-. split; [apply (H _ _ _ Ea)|exact I].
Qed.

Lemma sat_query {A} c (q : Store -> PostgrestResponse A) :
  satisfies R (fun _ => True) e (query c q).
Proof.
  intros s a s' E. rewrite query_run in E. injection E as <- <-.
  split; [apply R_refl|exact I].
Qed.

Lemma sat_getMember ws user : satisfies R (fun _ => True) e (getMember ws user).
Proof.
  intros s a s' E. rewrite getMember_run in E. injection E as <- <-.
  split; [apply R_refl|exact I].
Qed.

Lemma sat_count_tasks filters : satisfies R (fun _ => True) e (count_tasks filters).
Proof.
  intros s a s' E. rewrite count_tasks_run in E. injection E as <- <-.
  split; [apply R_refl|exact I].
Qed.

Lemma sat_bind_any {A B} (Q : B -> Prop) (c : M A) (k : A -> M B) :
  satisfies R (fun _ => True) e c ->
  (forall a, satisfies R Q e (k a)) ->
  satisfies R Q e (bind c k).
Proof. intros Hc Hk. eapply sat_bind; [exact Hc|]. intros a _. apply Hk. Qed.

Lemma sat_bind_ask {B} (Q : B -> Prop) (k : Env -> M B) :
  satisfies R Q e (k e) -> satisfies R Q e (bind ask k).
Proof.
  intros Hk. eapply sat_bind; [apply sat_ask|].
  intros a ->. exact Hk.
Qed.

Lemma sat_weaken {A} (P Q : A -> Prop) c :
  satisfies R P e c -> (forall a, P a -> Q a) -> satisfies R Q e c.
Proof. intros H HPQ s a s' E. destruct (H _ _ _ E). split; auto. Qed.

End Satisfies.

(** ** Every store change of a handler is one of its effects *)

Lemma effects_trans user e r a b c :
  effects user e r a b -> effects user e r b c -> effects user e r a c.
Proof.
  intros Hab Hbc. induction Hbc.
  - exact Hab.
  - eapply effects_more; [apply IHHbc; exact Hab|eassumption].
Qed.

Lemma effects_one user e r a b : effect user e r a b -> effects user e r a b.
Proof. intros H. eapply effects_more; [apply effects_none|exact H]. Qed.

(** Walks a handler: [on_await] closes the obligation of each awaited
    mutation, [on_ret] that of each returned value. *)
Ltac sat_walk R_refl R_trans on_await on_ret :=
  repeat first
    [ progress cbv zeta
    | match goal with
      | |- satisfies _ _ _ (bind ask _) => apply (sat_bind_ask _ R_refl R_trans)
      | |- satisfies _ _ _ (bind _ _) =>
          eapply (sat_bind_any _ R_trans); [|intros ?]
      | |- satisfies _ _ _ (ret _) => apply (sat_ret _ R_refl); on_ret
      | |- satisfies _ _ _ draw => apply (sat_draw _ R_refl)
      | |- satisfies _ _ _ (query _ _) => apply (sat_query _ R_refl)
      | |- satisfies _ _ _ (getMember _ _) => apply (sat_getMember _ R_refl)
      | |- satisfies _ _ _ (count_tasks _) => apply (sat_count_tasks _ R_refl)
      | |- satisfies _ _ _ (await _ _) => apply (sat_await _ R_refl); on_await
      | |- satisfies _ _ _ (if ?x then _ else _) => destruct x eqn:?
      | |- satisfies _ _ _ (match ?x with _ => _ end) => destruct x
      end ].

Ltac unfold_handlers :=
  unfold handle, get_workspaces, post_workspaces, get_workspace,
    get_workspace_info, patch_workspace, delete_workspace,
    post_reset_invite_code, post_join, get_workspace_analytics,
    post_projects, get_projects, get_project, patch_project, delete_project,
    get_project_analytics, generateInviteCode, upload_form_image.

Ltac is_effect :=
  idtac;
  let st := fresh "st" in
  let a := fresh "a" in
  let st' := fresh "st'" in
  let H := fresh "H" in
  intros st a st' H;
  match type of a with
  | unit => destruct a
  | _ => idtac
  end;
  repeat match type of H with
         | context [match ?o with Some _ => _ | None => _ end] =>
             destruct o eqn:?
         end;
  try discriminate;
  apply effects_one;
  solve [ econstructor; try eassumption; try reflexivity;
          let Hn := fresh in
          intros Hn;
          first [ eexists; reflexivity | exfalso; apply Hn; reflexivity ] ].

Lemma handle_effects user r e :
  satisfies (effects user e r) (fun _ : Response => True) e (handle user r).
Proof.
  pose proof (effects_none user e r) as Hrefl.
  pose proof (effects_trans user e r) as Htrans.
  destruct r; unfold_handlers;
    sat_walk Hrefl Htrans ltac:(idtac; is_effect) ltac:(idtac; exact I).
Qed.

Lemma handle_changes user r e s resp s' :
  handle user r e s = (resp, s') -> effects user e r (store s) (store s').
Proof. intros H. exact (proj1 (handle_effects user r e s resp s' H)). Qed.

(** What each store operation does when it succeeds. *)
Lemma storage_upload_data path st p st' :
  storage_upload path st = PgData (p, st') ->
  p = path /\ st' = with_images st (images st ++ [path])
  /\ ~ In path (images st).
Proof.
  unfold storage_upload.
  destruct (existsb (String.eqb path) (images st)) eqn:E; [discriminate|].
  intros H. injection H as <- <-. repeat split.
  intros Hin. rewrite existsb_false in E. specialize (E path Hin).
  rewrite String.eqb_refl in E. discriminate.
Qed.

Lemma storage_remove_data paths st u st' :
  storage_remove paths st = PgData (u, st') ->
  st' = with_images st
          (filter (fun k => negb (existsb (String.eqb k) paths)) (images st)).
Proof. unfold storage_remove. intros H. injection H as _ <-. reflexivity. Qed.

Lemma insert_member_data row st u st' :
  insert_member row st = PgData (u, st') ->
  st' = with_members st (members st ++ [row])
  /\ member_rows (Member.workspace_id row) (Member.user_id row) st = []
  /\ exists w, In w (workspaces st) /\ Workspace.id w = Member.workspace_id row.
Proof.
  unfold insert_member.
  destruct (existsb _ (members st)) eqn:E; [discriminate|].
  destruct (existsb _ (workspaces st)) eqn:F; [|discriminate].
  intros H. injection H as _ <-. split; [reflexivity|]. split.
  - destruct (member_rows (Member.workspace_id row) (Member.user_id row) st)
      as [|m l] eqn:Hrows; [reflexivity|].
    exfalso.
    assert (Hin : In m (member_rows (Member.workspace_id row)
                                    (Member.user_id row) st))
      by (rewrite Hrows; left; reflexivity).
    apply member_rows_in in Hin as (Hin & Hw & Hu).
    rewrite existsb_false in E. specialize (E m Hin).
    rewrite Hw, Hu, !String.eqb_refl, orb_true_r in E. discriminate.
  - apply existsb_exists in F as (w & Hw & Heq).
    exists w. split; [exact Hw|]. apply String.eqb_eq. exact Heq.
Qed.

Lemma insert_project_data row st p st' :
  insert_project row st = PgData (p, st') ->
  p = row /\ st' = with_projects st (projects st ++ [row])
  /\ (forall x, In x (projects st) -> Project.id x <> Project.id row)
  /\ exists w, In w (workspaces st) /\ Workspace.id w = Project.workspace_id row.
Proof.
  unfold insert_project.
  destruct (existsb _ (projects st)) eqn:E; [discriminate|].
  destruct (existsb _ (workspaces st)) eqn:F; [|discriminate].
  intros H. injection H as <- <-. repeat split.
  - intros x Hx. rewrite existsb_false in E. specialize (E x Hx).
    apply String.eqb_neq. exact E.
  - apply existsb_exists in F as (w & Hw & Heq).
    exists w. split; [exact Hw|]. apply String.eqb_eq. exact Heq.
Qed.

Lemma update_project_data id u now st p st' :
  update_project id u now st = PgData (p, st') ->
  exists old,
    project_by_id id st = [old]
    /\ p = apply_project_update u now old
    /\ st' = with_projects st
               (map (fun x => if String.eqb (Project.id x) id
                              then apply_project_update u now x
                              else x)
                    (projects st)).
Proof.
  unfold update_project.
  destruct (project_by_id id st) as [|old [|y l]]; try discriminate.
  intros H. injection H as <- <-. exists old. repeat split.
Qed.

Lemma delete_workspace_row_data id st u st' :
  delete_workspace_row id st = PgData (u, st') ->
  workspaces st' =
    filter (fun w => negb (String.eqb (Workspace.id w) id)) (workspaces st)
  /\ projects st' =
       filter (fun p => negb (String.eqb (Project.workspace_id p) id))
              (projects st)
  /\ tasks st' =
       filter (fun t =>
                 negb (String.eqb (Task.workspace_id t) id)
                 && negb (existsb
                            (fun p => String.eqb (Project.id p) (Task.project_id t)
                                      && String.eqb (Project.workspace_id p) id)
                            (projects st)))
              (tasks st)
  /\ members st' =
       filter (fun m => negb (String.eqb (Member.workspace_id m) id))
              (members st)
  /\ images st' = images st.
Proof.
  unfold delete_workspace_row. intros H. injection H as _ <-. repeat split.
Qed.

Lemma delete_project_row_data id st u st' :
  delete_project_row id st = PgData (u, st') ->
  workspaces st' = workspaces st
  /\ projects st' =
       filter (fun p => negb (String.eqb (Project.id p) id)) (projects st)
  /\ tasks st' =
       filter (fun t => negb (String.eqb (Task.project_id t) id)) (tasks st)
  /\ members st' = members st
  /\ images st' = images st.
Proof.
  unfold delete_project_row. intros H. injection H as _ <-. repeat split.
Qed.

(** Brings the successful operation of an effect to its explicit form. *)
Ltac open_effect H :=
  inversion H; subst; clear H;
  repeat match goal with
    | E : storage_upload _ _ = PgData _ |- _ =>
        apply storage_upload_data in E; destruct E as (? & ? & ?)
    | E : storage_remove _ _ = PgData _ |- _ =>
        apply storage_remove_data in E
    | E : insert_workspace _ _ = PgData _ |- _ =>
        apply insert_workspace_data in E; destruct E as (? & ? & ?)
    | E : insert_member _ _ = PgData _ |- _ =>
        apply insert_member_data in E; destruct E as (? & ? & ? & ? & ?)
    | E : insert_project _ _ = PgData _ |- _ =>
        apply insert_project_data in E; destruct E as (? & ? & ? & ? & ? & ?)
    | E : update_workspace _ _ _ _ = PgData _ |- _ =>
        apply update_workspace_data in E; destruct E as (? & ? & ? & ?)
    | E : update_project _ _ _ _ = PgData _ |- _ =>
        apply update_project_data in E; destruct E as (? & ? & ? & ?)
    | E : delete_workspace_row _ _ = PgData _ |- _ =>
        apply delete_workspace_row_data in E;
        destruct E as (? & ? & ? & ? & ?)
    | E : delete_project_row _ _ = PgData _ |- _ =>
        apply delete_project_row_data in E;
        destruct E as (? & ? & ? & ? & ?)
    end;
  subst.

Lemma effects_elim user e r (R : Store -> Store -> Prop) :
  (forall st, R st st) ->
  (forall a b c, R a b -> effect user e r b c -> R a c) ->
  forall st st', effects user e r st st' -> R st st'.
Proof.
  intros Hrefl Hstep st st' H. induction H.
  - apply Hrefl.
  - eapply Hstep; eassumption.
Qed.

(** ** Frames *)

(** X1.  The seven GET handlers never change the store, whatever the
    backend does: rows and images after the request are those before. *)
Theorem read_only_requests_keep_store :
  forall user r e s resp s',
    read_only r = true ->
    handle user r e s = (resp, s') ->
    store s' = store s.
Proof.
  intros user r e s resp s' Hr Hrun.
  apply handle_changes in Hrun. revert Hrun.
  apply effects_elim with (R := fun st st' => st' = st).
  - reflexivity.
  - intros a b c _ Heff. destruct r; try discriminate Hr; inversion Heff.
Qed.

Lemma read_only_requests_keep_store_witness :
  read_only (GetProjects "w1") = true
  /\ store (snd (handle "carol" (GetProjects "w1")
                   (Sample.env (Sample.fault_at 1 "timeout"))
                   (Sample.start Sample.store0)))
     = Sample.store0.
Proof.
  split; [reflexivity|].
  exact (read_only_requests_keep_store "carol" (GetProjects "w1")
           (Sample.env (Sample.fault_at 1 "timeout"))
           (Sample.start Sample.store0) _ _ eq_refl (surjective_pairing _)).
Defined.

(** X2.  No endpoint creates or edits a task.  Every task in the store
    after a request was in it before, unchanged; and unless the request is
    one of the two DELETEs (whose cascade removes tasks) the tasks table is
    exactly what it was. *)
Theorem tasks_only_leave_by_cascade :
  forall user r e s resp s',
    handle user r e s = (resp, s') ->
    (forall t, In t (tasks (store s')) -> In t (tasks (store s)))
    /\ (deletes r = false -> tasks (store s') = tasks (store s)).
Proof.
  intros user r e s resp s' Hrun.
  apply handle_changes in Hrun. revert Hrun.
  apply effects_elim
    with (R := fun st st' =>
                 (forall t, In t (tasks st') -> In t (tasks st))
                 /\ (deletes r = false -> tasks st' = tasks st)).
  - intros st. split; [auto|reflexivity].
  - intros a b c [Hin Heq] Heff.
    assert (Hstep : (forall t, In t (tasks c) -> In t (tasks b))
                    /\ (deletes r = false -> tasks c = tasks b)).
    { open_effect Heff; cbn [tasks with_images with_workspaces with_members
                               with_projects];
        try (split; [auto|reflexivity]).
      - split; [|discriminate].
        intros t Ht.
        match goal with E : tasks c = _ |- _ => rewrite E in Ht end.
        apply filter_In in Ht. tauto.
      - split; [|discriminate].
        intros t Ht.
        match goal with E : tasks c = _ |- _ => rewrite E in Ht end.
        apply filter_In in Ht. tauto. }
    destruct Hstep as [Hin' Heq']. split.
    + intros t Ht. apply Hin, Hin', Ht.
    + intros Hd. rewrite (Heq' Hd). apply Heq, Hd.
Qed.

Lemma tasks_only_leave_by_cascade_witness :
  (forall t,
      In t (tasks (store (snd (handle "alice" (DeleteWorkspace "w1")
                                 (Sample.env Sample.no_faults)
                                 (Sample.start Sample.store0))))) ->
      In t (tasks Sample.store0))
  /\ (deletes (DeleteWorkspace "w1") = false ->
      tasks (store (snd (handle "alice" (DeleteWorkspace "w1")
                           (Sample.env Sample.no_faults)
                           (Sample.start Sample.store0))))
      = tasks Sample.store0).
Proof.
  exact (tasks_only_leave_by_cascade "alice" (DeleteWorkspace "w1")
           (Sample.env Sample.no_faults) (Sample.start Sample.store0) _ _
           (surjective_pairing _)).
Defined.

(** X3.  Member rows are only ever added for the caller, and never edited.
    Every member row in the store after a request either was there before,
    unchanged, or belongs to the caller and was inserted by
    POST /:workspaceId/join (for that workspace, with role MEMBER) or by
    POST / (with role ADMIN).  Every row that is gone was removed by
    DELETE /:workspaceId and belonged to that workspace.  So no endpoint
    changes a role, adds somebody else to a workspace, or makes an existing
    member an admin. *)
Theorem member_rows_only_for_the_caller :
  forall user r e s resp s',
    handle user r e s = (resp, s') ->
    (forall m, In m (members (store s')) ->
       In m (members (store s))
       \/ (Member.user_id m = user
           /\ match r with
              | PostJoin w _ =>
                  Member.workspace_id m = w
                  /\ Member.role m = MemberRole.MEMBER
              | PostWorkspaces _ _ => Member.role m = MemberRole.ADMIN
              | _ => False
              end))
    /\ (forall m, In m (members (store s)) ->
          In m (members (store s'))
          \/ r = DeleteWorkspace (Member.workspace_id m)).
Proof.
  intros user r e s resp s' Hrun.
  apply handle_changes in Hrun. revert Hrun.
  apply effects_elim
    with (R := fun st st' =>
      (forall m, In m (members st') ->
         In m (members st)
         \/ (Member.user_id m = user
             /\ match r with
                | PostJoin w _ =>
                    Member.workspace_id m = w
                    /\ Member.role m = MemberRole.MEMBER
                | PostWorkspaces _ _ => Member.role m = MemberRole.ADMIN
                | _ => False
                end))
      /\ (forall m, In m (members st) ->
            In m (members st') \/ r = DeleteWorkspace (Member.workspace_id m))).
  - intros st. split; intros m Hm; left; exact Hm.
  - intros a b c [Hnew Hold] Heff.
    assert (Hstep :
      (forall m, In m (members c) ->
         In m (members b)
         \/ (Member.user_id m = user
             /\ match r with
                | PostJoin w _ =>
                    Member.workspace_id m = w
                    /\ Member.role m = MemberRole.MEMBER
                | PostWorkspaces _ _ => Member.role m = MemberRole.ADMIN
                | _ => False
                end))
      /\ (forall m, In m (members b) ->
            In m (members c) \/ r = DeleteWorkspace (Member.workspace_id m))).
    { open_effect Heff;
        cbn [members with_images with_workspaces with_members with_projects];
        try (split; intros m Hm; left; exact Hm).
      - (* POST /: the creator *)
        split; intros m Hm.
        + apply in_app_or in Hm as [Hm|[<-|[]]]; [left; exact Hm|].
          right. split; [reflexivity|assumption].
        + left. apply in_or_app. left. exact Hm.
      - (* DELETE /:workspaceId *)
        split; intros m Hm.
        + left.
          match goal with E : members c = _ |- _ => rewrite E in Hm end.
          apply filter_In in Hm. tauto.
        + match goal with E : members c = _ |- _ => rewrite E end.
          destruct (String.eqb (Member.workspace_id m) workspaceId) eqn:E.
          * right. apply String.eqb_eq in E. rewrite E. reflexivity.
          * left. apply filter_In. rewrite E. split; [exact Hm|reflexivity].
      - (* POST /:workspaceId/join *)
        split; intros m Hm.
        + apply in_app_or in Hm as [Hm|[<-|[]]]; [left; exact Hm|].
          right. repeat split; auto.
        + left. apply in_or_app. left. exact Hm.
      - (* DELETE /projects/:projectId *)
        split; intros m Hm; left;
          match goal with E : members c = _ |- _ =>
            first [rewrite E in Hm | rewrite E] end; exact Hm. }
    destruct Hstep as [Hnew' Hold']. split.
    + intros m Hm. destruct (Hnew' m Hm) as [Hb|Hb]; [apply Hnew, Hb|].
      right. exact Hb.
    + intros m Hm. destruct (Hold m Hm) as [Hb|Hb]; [apply Hold', Hb|].
      right. exact Hb.
Qed.

Lemma member_rows_only_for_the_caller_witness :
  status (fst (handle "bob" (PostJoin "w1" "AB12CD") (Sample.env Sample.no_faults)
               (Sample.start Sample.store0))) = 200
  /\ (forall m,
         In m (members (store (snd (handle "bob" (PostJoin "w1" "AB12CD")
                                      (Sample.env Sample.no_faults)
                                      (Sample.start Sample.store0))))) ->
         In m (members Sample.store0)
         \/ (Member.user_id m = "bob"
             /\ Member.workspace_id m = "w1"
             /\ Member.role m = MemberRole.MEMBER)).
Proof.
  split; [reflexivity|].
  exact (proj1 (member_rows_only_for_the_caller "bob" (PostJoin "w1" "AB12CD")
                  (Sample.env Sample.no_faults) (Sample.start Sample.store0)
                  _ _ (surjective_pairing _))).
Defined.

Lemma in_map_update {A} (p : A -> bool) (f : A -> A) l x' :
  In x' (map (fun x => if p x then f x else x) l) ->
  In x' l \/ exists x, In x l /\ p x = true /\ x' = f x.
Proof.
  intros H. apply in_map_iff in H as (x & <- & Hx).
  destruct (p x) eqn:E; [right; exists x; auto|left; exact Hx].
Qed.

(** X4.  What can happen to a workspace row.  Every workspace row in the
    store after a request either was there before, unchanged; or is the
    row PATCH /:workspaceId or POST /:workspaceId/resetInviteCode was aimed
    at, with the same id, user_id and created_at as before (PATCH keeps the
    invite code, and without a [File] the image id too; a reset keeps name
    and image id); or was inserted by POST / with the caller as user_id and
    the submitted name.  Rows disappear only through DELETE /:workspaceId
    of their own id. *)
Theorem workspace_rows_keep_their_identity :
  forall user r e s resp s',
    handle user r e s = (resp, s') ->
    (forall x', In x' (workspaces (store s')) ->
       In x' (workspaces (store s))
       \/ (exists x, In x (workspaces (store s))
             /\ Workspace.id x' = Workspace.id x
             /\ Workspace.user_id x' = Workspace.user_id x
             /\ Workspace.created_at x' = Workspace.created_at x
             /\ match r with
                | PatchWorkspace w _ _ =>
                    Workspace.id x' = w
                    /\ Workspace.invite_code x' = Workspace.invite_code x
                    /\ (file_of r = None ->
                        Workspace.image_id x' = Workspace.image_id x)
                | PostResetInviteCode w =>
                    Workspace.id x' = w
                    /\ Workspace.name x' = Workspace.name x
                    /\ Workspace.image_id x' = Workspace.image_id x
                | _ => False
                end)
       \/ (exists name image, r = PostWorkspaces name image
             /\ Workspace.user_id x' = user /\ Workspace.name x' = name))
    /\ (forall x, In x (workspaces (store s)) ->
          (exists x', In x' (workspaces (store s'))
                      /\ Workspace.id x' = Workspace.id x)
          \/ r = DeleteWorkspace (Workspace.id x)).
Proof.
  intros user r e s resp s' Hrun.
  apply handle_changes in Hrun. revert Hrun.
  set (kept := fun (x x' : Workspace.t) =>
         Workspace.id x' = Workspace.id x
         /\ Workspace.user_id x' = Workspace.user_id x
         /\ Workspace.created_at x' = Workspace.created_at x
         /\ match r with
            | PatchWorkspace w _ _ =>
                Workspace.id x' = w
                /\ Workspace.invite_code x' = Workspace.invite_code x
                /\ (file_of r = None ->
                    Workspace.image_id x' = Workspace.image_id x)
            | PostResetInviteCode w =>
                Workspace.id x' = w
                /\ Workspace.name x' = Workspace.name x
                /\ Workspace.image_id x' = Workspace.image_id x
            | _ => False
            end).
  set (fresh := fun x' : Workspace.t =>
         exists name image, r = PostWorkspaces name image
           /\ Workspace.user_id x' = user /\ Workspace.name x' = name).
  set (R := fun st st' : Store =>
         (forall x', In x' (workspaces st') ->
            In x' (workspaces st)
            \/ (exists x, In x (workspaces st) /\ kept x x')
            \/ fresh x')
         /\ (forall x, In x (workspaces st) ->
               (exists x', In x' (workspaces st')
                           /\ Workspace.id x' = Workspace.id x)
               \/ r = DeleteWorkspace (Workspace.id x))).
  change (effects user e r (store s) (store s') -> R (store s) (store s')).
  apply effects_elim.
  - intros st. split.
    + intros x' Hx. left. exact Hx.
    + intros x Hx. left. exists x. split; [exact Hx|reflexivity].
  - intros a b c [Hnew Hold] Heff.
    assert (Hstep : R b c).
    { unfold R, kept, fresh.
      open_effect Heff;
        cbn [workspaces with_images with_workspaces with_members with_projects];
        try (split; [intros ? ?; left; assumption
                    |intros wrow Hwrow; left; exists wrow;
                     split; [exact Hwrow|reflexivity]]).
      - (* POST /: the new row *)
        split.
        + intros x' Hx. apply in_app_or in Hx as [Hx|[<-|[]]]; [left; exact Hx|].
          right. right. exists (Workspace.name row), image. repeat split.
        + intros y Hy. left. exists y.
          split; [apply in_or_app; left; exact Hy|reflexivity].
      - (* PATCH /:workspaceId *)
        split.
        + intros x' Hx. apply in_map_update in Hx as [Hx|(x0 & Hx0 & Hid & ->)];
            [left; exact Hx|].
          right. left. exists x0. split; [exact Hx0|].
          apply String.eqb_eq in Hid. cbn. repeat split; try assumption.
          intros Hfile.
          destruct uploadedImageId as [k|]; [|reflexivity].
          exfalso.
          match goal with
          | Himg : Some k <> None -> exists file, image = Some (ImageFile file)
            |- _ => destruct (Himg ltac:(discriminate)) as [file ->]
          end.
          discriminate Hfile.
        + intros y Hy. left.
          eexists. split; [apply in_map; exact Hy|].
          destruct (String.eqb (Workspace.id y) workspaceId); reflexivity.
      - (* DELETE /:workspaceId *)
        split.
        + intros x' Hx. left.
          match goal with E : workspaces c = _ |- _ => rewrite E in Hx end.
          apply filter_In in Hx. tauto.
        + intros y Hy.
          match goal with E : workspaces c = _ |- _ => rewrite E end.
          destruct (String.eqb (Workspace.id y) workspaceId) eqn:E.
          * right. apply String.eqb_eq in E. rewrite E. reflexivity.
          * left. exists y. split; [|reflexivity].
            apply filter_In. rewrite E. split; [exact Hy|reflexivity].
      - (* POST /:workspaceId/resetInviteCode *)
        split.
        + intros x' Hx. apply in_map_update in Hx as [Hx|(x0 & Hx0 & Hid & ->)];
            [left; exact Hx|].
          right. left. exists x0. split; [exact Hx0|].
          apply String.eqb_eq in Hid. cbn. repeat split; assumption.
        + intros y Hy. left.
          eexists. split; [apply in_map; exact Hy|].
          destruct (String.eqb (Workspace.id y) workspaceId); reflexivity.
      - (* DELETE /projects/:projectId *)
        split.
        + intros x' Hx. left.
          match goal with E : workspaces c = _ |- _ => rewrite E in Hx end.
          exact Hx.
        + intros y Hy. left. exists y.
          match goal with E : workspaces c = _ |- _ => rewrite E end.
          split; [exact Hy|reflexivity]. }
    destruct Hstep as [Hnew' Hold']. split.
    + intros x' Hx. destruct (Hnew' x' Hx) as [Hb|[(xb & Hb & Hk)|Hf]].
      * apply Hnew, Hb.
      * destruct (Hnew xb Hb) as [Ha|[(xa & Ha & Hk')|Hf]].
        -- right. left. exists xb. split; assumption.
        -- right. left. exists xa. split; [exact Ha|].
           unfold kept in *.
           destruct Hk as (H1 & H2 & H3 & H4), Hk' as (H1' & H2' & H3' & H4').
           repeat split; try congruence.
           destruct r; try contradiction.
           ++ destruct H4 as (I1 & I2 & I3), H4' as (J1 & J2 & J3).
              repeat split; try congruence.
              intros Hfile. rewrite (I3 Hfile). apply J3, Hfile.
           ++ destruct H4 as (I1 & I2 & I3), H4' as (J1 & J2 & J3).
              repeat split; congruence.
        -- exfalso. unfold kept, fresh in *.
           destruct Hf as (name & image & -> & _), Hk as (_ & _ & _ & []).
      * right. right. exact Hf.
    + intros x Hx. destruct (Hold x Hx) as [(xb & Hb & Hid)|Hd]; [|right; exact Hd].
      destruct (Hold' xb Hb) as [(xc & Hc & Hid')|Hd].
      * left. exists xc. split; [exact Hc|congruence].
      * right. rewrite <- Hid. exact Hd.
Qed.

Lemma workspace_rows_keep_their_identity_witness :
  status (fst (handle "alice" (PatchWorkspace "w1" (Some "Acme Ltd") None)
               (Sample.env Sample.no_faults) (Sample.start Sample.store0))) = 200
  /\ (forall x',
         In x' (workspaces (store (snd (handle "alice"
                                          (PatchWorkspace "w1" (Some "Acme Ltd") None)
                                          (Sample.env Sample.no_faults)
                                          (Sample.start Sample.store0))))) ->
         In x' (workspaces Sample.store0)
         \/ (exists x, In x (workspaces Sample.store0)
               /\ Workspace.id x' = Workspace.id x
               /\ Workspace.user_id x' = Workspace.user_id x
               /\ Workspace.created_at x' = Workspace.created_at x
               /\ Workspace.id x' = "w1"
               /\ Workspace.invite_code x' = Workspace.invite_code x
               /\ (file_of (PatchWorkspace "w1" (Some "Acme Ltd") None) = None ->
                   Workspace.image_id x' = Workspace.image_id x))
         \/ (exists name image,
               PatchWorkspace "w1" (Some "Acme Ltd") None = PostWorkspaces name image
               /\ Workspace.user_id x' = "alice" /\ Workspace.name x' = name)).
Proof.
  split; [reflexivity|].
  exact (proj1 (workspace_rows_keep_their_identity "alice"
                  (PatchWorkspace "w1" (Some "Acme Ltd") None)
                  (Sample.env Sample.no_faults) (Sample.start Sample.store0)
                  _ _ (surjective_pairing _))).
Defined.

(** X5.  What can happen to a project row.  Every project row in the store
    after a request either was there before, unchanged; or is the row
    PATCH /projects/:projectId was aimed at, with the same id, workspace,
    description and created_at as before (and without a [File] the same
    image id); or was inserted by POST /projects into the workspace named
    in the form, with the submitted name and no description.  So no
    endpoint moves a project to another workspace.  Rows disappear only
    through DELETE /projects/:projectId of their own id or
    DELETE /workspaces/:workspaceId of their workspace. *)
Theorem project_rows_keep_their_workspace :
  forall user r e s resp s',
    handle user r e s = (resp, s') ->
    (forall x', In x' (projects (store s')) ->
       In x' (projects (store s))
       \/ (exists x name image,
             In x (projects (store s))
             /\ r = PatchProject (Project.id x) name image
             /\ Project.id x' = Project.id x
             /\ Project.workspace_id x' = Project.workspace_id x
             /\ Project.description x' = Project.description x
             /\ Project.created_at x' = Project.created_at x
             /\ (file_of r = None -> Project.image_id x' = Project.image_id x))
       \/ (exists name image,
             r = PostProjects name image (Project.workspace_id x')
             /\ Project.name x' = name /\ Project.description x' = None))
    /\ (forall x, In x (projects (store s)) ->
          (exists x', In x' (projects (store s'))
                      /\ Project.id x' = Project.id x
                      /\ Project.workspace_id x' = Project.workspace_id x)
          \/ r = DeleteProject (Project.id x)
          \/ r = DeleteWorkspace (Project.workspace_id x)).
Proof.
  intros user r e s resp s' Hrun.
  apply handle_changes in Hrun. revert Hrun.
  set (kept := fun (x x' : Project.t) =>
         exists name image,
           r = PatchProject (Project.id x) name image
           /\ Project.id x' = Project.id x
           /\ Project.workspace_id x' = Project.workspace_id x
           /\ Project.description x' = Project.description x
           /\ Project.created_at x' = Project.created_at x
           /\ (file_of r = None -> Project.image_id x' = Project.image_id x)).
  set (fresh := fun x' : Project.t =>
         exists name image,
           r = PostProjects name image (Project.workspace_id x')
           /\ Project.name x' = name /\ Project.description x' = None).
  set (R := fun st st' : Store =>
         (forall x', In x' (projects st') ->
            In x' (projects st)
            \/ (exists x, In x (projects st) /\ kept x x')
            \/ fresh x')
         /\ (forall x, In x (projects st) ->
               (exists x', In x' (projects st')
                           /\ Project.id x' = Project.id x
                           /\ Project.workspace_id x' = Project.workspace_id x)
               \/ r = DeleteProject (Project.id x)
               \/ r = DeleteWorkspace (Project.workspace_id x))).
  assert (Hgoal : effects user e r (store s) (store s') -> R (store s) (store s')).
  { apply effects_elim.
    - intros st. split.
      + intros x' Hx. left. exact Hx.
      + intros x Hx. left. exists x. repeat split. exact Hx.
    - intros a b c [Hnew Hold] Heff.
      assert (Hstep : R b c).
      { unfold R, kept, fresh.
        open_effect Heff;
          cbn [projects with_images with_workspaces with_members with_projects];
          try (split; [intros ? ?; left; assumption
                      |intros prow Hprow; left; exists prow;
                       repeat split; exact Hprow]).
        - (* DELETE /workspaces/:workspaceId *)
          split.
          + intros y Hy. left.
            match goal with E : projects c = _ |- _ => rewrite E in Hy end.
            apply filter_In in Hy. tauto.
          + intros y Hy.
            match goal with E : projects c = _ |- _ => rewrite E end.
            destruct (String.eqb (Project.workspace_id y) workspaceId) eqn:E.
            * right. right. apply String.eqb_eq in E. rewrite E. reflexivity.
            * left. exists y. repeat split.
              apply filter_In. rewrite E. split; [exact Hy|reflexivity].
        - (* POST /projects *)
          split.
          + intros y Hy. apply in_app_or in Hy as [Hy|[<-|[]]]; [left; exact Hy|].
            right. right. exists (Project.name row), image. repeat split.
            assumption.
          + intros y Hy. left. exists y.
            repeat split. apply in_or_app. left. exact Hy.
        - (* PATCH /projects/:projectId *)
          split.
          + intros y Hy.
            apply in_map_update in Hy as [Hy|(x0 & Hx0 & Hid & ->)];
              [left; exact Hy|].
            right. left. exists x0. split; [exact Hx0|].
            apply String.eqb_eq in Hid. subst projectId.
            exists name, image. cbn. repeat split.
            intros Hfile.
            destruct uploadedImageId as [k|]; [|reflexivity].
            exfalso.
            match goal with
            | Himg : Some k <> None -> exists file, image = Some (ImageFile file)
              |- _ => destruct (Himg ltac:(discriminate)) as [file ->]
            end.
            discriminate Hfile.
          + intros y Hy. left.
            eexists. split; [apply in_map; exact Hy|].
            destruct (String.eqb (Project.id y) projectId); split; reflexivity.
        - (* DELETE /projects/:projectId *)
          split.
          + intros y Hy. left.
            match goal with E : projects c = _ |- _ => rewrite E in Hy end.
            apply filter_In in Hy. tauto.
          + intros y Hy.
            match goal with E : projects c = _ |- _ => rewrite E end.
            destruct (String.eqb (Project.id y) projectId) eqn:E.
            * right. left. apply String.eqb_eq in E. rewrite E. reflexivity.
            * left. exists y. repeat split.
              apply filter_In. rewrite E. split; [exact Hy|reflexivity]. }
      destruct Hstep as [Hnew' Hold']. split.
      + intros x' Hx. destruct (Hnew' x' Hx) as [Hb|[(xb & Hb & Hk)|Hf]].
        * apply Hnew, Hb.
        * destruct (Hnew xb Hb) as [Ha|[(xa & Ha & Hk')|Hf]].
          -- right. left. exists xb. split; assumption.
          -- right. left. exists xa. split; [exact Ha|].
             unfold kept in *.
             destruct Hk as (n & i & Hr & H1 & H2 & H3 & H4 & H5),
                      Hk' as (n' & i' & Hr' & H1' & H2' & H3' & H4' & H5').
             exists n', i'. repeat split; try congruence.
             intros Hfile. rewrite (H5 Hfile). apply H5', Hfile.
          -- exfalso. unfold kept, fresh in *.
             destruct Hf as (name & image & -> & _),
                      Hk as (n & i & Hr & _). discriminate Hr.
        * right. right. exact Hf.
      + intros x Hx.
        destruct (Hold x Hx) as [(xb & Hb & Hid & Hws)|Hd]; [|right; exact Hd].
        destruct (Hold' xb Hb) as [(xc & Hc & Hid' & Hws')|[Hd|Hd]].
        * left. exists xc. repeat split; [exact Hc|congruence|congruence].
        * right. left. rewrite <- Hid. exact Hd.
        * right. right. rewrite <- Hws. exact Hd. }
  intros Heffs. destruct (Hgoal Heffs) as [H1 H2]. split.
  - intros x' Hx. destruct (H1 x' Hx) as [H|[(x & Hx0 & n & i & H)|H]].
    + left. exact H.
    + right. left. exists x, n, i. split; [exact Hx0|exact H].
    + right. right. exact H.
  - exact H2.
Qed.

Lemma project_rows_keep_their_workspace_witness :
  status (fst (handle "carol" (PatchProject "p1" (Some "Plan") None)
               (Sample.env Sample.no_faults) (Sample.start Sample.store0))) = 200
  /\ (forall x,
         In x (projects Sample.store0) ->
         (exists x',
             In x' (projects (store (snd (handle "carol"
                                            (PatchProject "p1" (Some "Plan") None)
                                            (Sample.env Sample.no_faults)
                                            (Sample.start Sample.store0)))))
             /\ Project.id x' = Project.id x
             /\ Project.workspace_id x' = Project.workspace_id x)
         \/ PatchProject "p1" (Some "Plan") None = DeleteProject (Project.id x)
         \/ PatchProject "p1" (Some "Plan") None
            = DeleteWorkspace (Project.workspace_id x)).
Proof.
  split; [reflexivity|].
  exact (proj2 (project_rows_keep_their_workspace "carol"
                  (PatchProject "p1" (Some "Plan") None)
                  (Sample.env Sample.no_faults) (Sample.start Sample.store0)
                  _ _ (surjective_pairing _))).
Defined.



(** ** The extension of an uploaded file *)

Lemma last_segment_from_spec s :
  forall acc,
    (has_dot s = false -> last_segment_from acc s = acc)
    /\ (has_dot s = true ->
        exists before,
          s = String.append before
                (String.append "." (last_segment_from acc s))).
Proof.
  induction s as [|c rest IH]; intros acc; simpl.
  - split; [reflexivity|discriminate].
  - destruct (Ascii.eqb c ".") eqn:Ec; simpl.
    + apply Ascii.eqb_eq in Ec. subst c. split; [discriminate|].
      intros _. destruct (has_dot rest) eqn:Hd.
      * destruct (proj2 (IH rest) eq_refl) as [before Hb].
        exists (String "." before). simpl. f_equal. exact Hb.
      * exists EmptyString. simpl. f_equal.
        symmetry. apply (proj1 (IH rest) eq_refl).
    + split.
      * intros Hd. apply (proj1 (IH acc) Hd).
      * intros Hd. destruct (proj2 (IH acc) Hd) as [before Hb].
        exists (String c before). simpl. f_equal. exact Hb.
Qed.

Lemma last_segment_from_no_dot s :
  forall acc, has_dot acc = false \/ has_dot s = true ->
              has_dot (last_segment_from acc s) = false.
Proof.
  induction s as [|c rest IH]; intros acc H; simpl.
  - destruct H as [H|H]; [exact H|discriminate H].
  - destruct (Ascii.eqb c ".") eqn:Ec.
    + destruct (has_dot rest) eqn:Hd.
      * apply IH. right. reflexivity.
      * rewrite (proj1 (last_segment_from_spec rest rest) Hd). exact Hd.
    + apply IH. destruct H as [H|H]; [left; exact H|].
      simpl in H. rewrite Ec in H. right. exact H.
Qed.

(** X7.  The extension given to an uploaded file is what
    [name.split('.').at(-1)] yields: it never contains a dot; a name with a
    dot is some text, a dot, and the extension; a name without any dot is
    its own extension, so the ['png'] the handlers fall back on is never
    used. *)
Theorem extension_is_the_text_after_the_last_dot :
  forall name,
    has_dot (last_segment name) = false
    /\ (has_dot name = false -> last_segment name = name)
    /\ (has_dot name = true ->
        exists before,
          name = String.append before (String.append "." (last_segment name))).
Proof.
  intros name. unfold last_segment. split; [|split].
  - destruct (has_dot name) eqn:Hd.
    + apply last_segment_from_no_dot. right. exact Hd.
    + rewrite (proj1 (last_segment_from_spec name name) Hd). exact Hd.
  - apply last_segment_from_spec.
  - apply last_segment_from_spec.
Qed.

(** ** The response envelope *)

Ltac shape :=
  idtac;
  first
    [ exact I
    | left; split; [reflexivity|eexists; reflexivity]
    | right; left; split; reflexivity
    | right; right; left; split; [reflexivity|eexists; reflexivity]
    | right; right; right;
      split; [reflexivity|];
      split; [eexists; eexists; reflexivity|];
      first [left; reflexivity|right; reflexivity] ].

(** X8.  Every answer of the fifteen handlers has one of four shapes:
    status 200 with a [data] payload; status 401 with the error
    "Unauthorized."; status 500 with an error message; or, from
    POST /:workspaceId/join only, status 400 with "Already a member." or
    "Invalid invite code.".  In particular a payload never comes with an
    error status, and no handler answers 404 or 403. *)
Theorem responses_are_well_shaped :
  forall user r e s resp s',
    handle user r e s = (resp, s') -> well_shaped r resp.
Proof.
  intros user r e s resp s' Hrun.
  assert (Hrefl : forall st : Store, (fun _ _ : Store => True) st st)
    by (intros; exact I).
  assert (Htrans : forall a b c : Store,
             (fun _ _ : Store => True) a b -> (fun _ _ : Store => True) b c ->
             (fun _ _ : Store => True) a c) by (intros; exact I).
  assert (H : satisfies (fun _ _ => True) (well_shaped r) e (handle user r)).
  { unfold well_shaped.
    destruct r; unfold_handlers;
      sat_walk Hrefl Htrans ltac:(idtac; intros; exact I) shape. }
  exact (proj2 (H s resp s' Hrun)).
Qed.

Lemma responses_are_well_shaped_witness :
  well_shaped (PostJoin "w1" "ZZ99ZZ")
    (fst (handle "bob" (PostJoin "w1" "ZZ99ZZ") (Sample.env Sample.no_faults)
            (Sample.start Sample.store0))).
Proof.
  exact (responses_are_well_shaped "bob" (PostJoin "w1" "ZZ99ZZ")
           (Sample.env Sample.no_faults) (Sample.start Sample.store0) _ _
           (surjective_pairing _)).
Defined.

(** ** Listing *)

Lemma insert_desc_in {A} (key : A -> Z) x l y :
  In y (insert_desc key x l) <-> y = x \/ In y l.
Proof.
  induction l as [|z l IH]; simpl.
  - split; [intros [<-|[]]; now left|intros [->|[]]; now left].
  - destruct (key z <=? key x); simpl.
    + split; [intros [<-|H]; auto|intros [->|H]; auto].
    + rewrite IH. split.
      * intros [<-|[->|H]]; auto.
      * intros [->|[<-|H]]; auto.
Qed.

Lemma order_desc_in {A} (key : A -> Z) l y :
  In y (order_desc key l) <-> In y l.
Proof.
  induction l as [|x l IH]; simpl; [tauto|].
  rewrite insert_desc_in, IH. split; intros [H|H]; auto.
Qed.

Lemma insert_desc_length {A} (key : A -> Z) x l :
  List.length (insert_desc key x l) = S (List.length l).
Proof.
  induction l as [|z l IH]; simpl; [reflexivity|].
  destruct (key z <=? key x); simpl; [reflexivity|]. rewrite IH. reflexivity.
Qed.

Lemma order_desc_length {A} (key : A -> Z) l :
  List.length (order_desc key l) = List.length l.
Proof.
  induction l as [|x l IH]; simpl; [reflexivity|].
  rewrite insert_desc_length, IH. reflexivity.
Qed.

Lemma insert_desc_sorted {A} (key : A -> Z) x l :
  StronglySorted (fun a b => key b <= key a) l ->
  StronglySorted (fun a b => key b <= key a) (insert_desc key x l).
Proof.
  intros H. induction H as [|z l Hl IH Hz]; simpl.
  - constructor; [constructor|constructor].
  - destruct (key z <=? key x) eqn:E.
    + apply Z.leb_le in E. constructor.
      * constructor; assumption.
      * constructor; [exact E|].
        rewrite Forall_forall in *. intros y Hy. specialize (Hz y Hy). lia.
    + apply Z.leb_gt in E. constructor; [exact IH|].
      rewrite Forall_forall in *. intros y Hy.
      apply insert_desc_in in Hy as [->|Hy]; [lia|apply Hz, Hy].
Qed.

Lemma order_desc_sorted {A} (key : A -> Z) l :
  StronglySorted (fun a b => key b <= key a) (order_desc key l).
Proof.
  induction l as [|x l IH]; simpl; [constructor|].
  apply insert_desc_sorted, IH.
Qed.

Lemma outcome_fault_free {A} e k (act : Store -> PostgrestResponse A) st :
  fault_free e -> outcome e k act st = act st.
Proof. intros H. unfold outcome. rewrite H. reflexivity. Qed.

(** X9.  GET /workspaces, in a run without failing calls, answers 200 with
    exactly the workspaces the caller has a member row for: a workspace of
    the store is listed if and only if some member row joins it to the
    caller; each is listed as many times as it occurs in the table, newest
    first by created_at, with the public URL of its image when it has a
    non-empty image id. *)
Theorem workspaces_listed_are_the_callers :
  forall user e s,
    fault_free e ->
    exists documents total,
      fst (handle user GetWorkspaces e s)
        = json (JsonData (OfWorkspaces documents total))
      /\ (forall w, In w (map fst documents) <->
            In w (workspaces (store s))
            /\ exists m, In m (members (store s))
                         /\ Member.user_id m = user
                         /\ Member.workspace_id m = Workspace.id w)
      /\ (forall w url, In (w, url) documents ->
            url = image_url e (Workspace.image_id w))
      /\ StronglySorted
           (fun a b => Workspace.created_at b <= Workspace.created_at a)
           (map fst documents)
      /\ List.length documents
         = List.length
             (filter (fun w => existsb
                                 (fun m => String.eqb (Member.user_id m) user
                                           && String.eqb (Member.workspace_id m)
                                                         (Workspace.id w))
                                 (members (store s)))
                     (workspaces (store s))).
Proof.
  intros user e s Hff. simpl. unfold get_workspaces.
  erewrite bind_run by apply ask_run.
  erewrite bind_run by apply query_run.
  rewrite (outcome_fault_free _ _ _ _ Hff).
  remember (filter (fun m => String.eqb (Member.user_id m) user)
                   (members (store s))) as mine eqn:Emine.
  assert (Hmine : forall w,
             existsb (String.eqb (Workspace.id w)) (map Member.workspace_id mine)
             = existsb (fun m => String.eqb (Member.user_id m) user
                                 && String.eqb (Member.workspace_id m)
                                               (Workspace.id w))
                       (members (store s))).
  { intros w. subst mine. induction (members (store s)) as [|m l IH];
      [reflexivity|]. simpl.
    destruct (String.eqb (Member.user_id m) user); simpl.
    - rewrite IH. rewrite (String.eqb_sym (Workspace.id w)). reflexivity.
    - exact IH. }
  assert (Hjoin : forall w,
             existsb (fun m => String.eqb (Member.user_id m) user
                               && String.eqb (Member.workspace_id m)
                                             (Workspace.id w))
                     (members (store s)) = true
             <-> exists m, In m (members (store s))
                           /\ Member.user_id m = user
                           /\ Member.workspace_id m = Workspace.id w).
  { intros w. rewrite existsb_exists. split.
    - intros (m & Hm & H). apply andb_true_iff in H as [H1 H2].
      apply String.eqb_eq in H1, H2. exists m. auto.
    - intros (m & Hm & H1 & H2). exists m. split; [exact Hm|].
      rewrite H1, H2, !String.eqb_refl. reflexivity. }
  destruct mine as [|m0 rest].
  - (* no membership: the empty list *)
    exists [], 0. split; [reflexivity|]. split; [|split; [|split]].
    + intros w. split; [intros []|].
      intros (_ & Hex). apply Hjoin in Hex. rewrite <- Hmine in Hex.
      discriminate Hex.
    + intros w url [].
    + constructor.
    + simpl. symmetry. apply length_zero_iff_nil.
      destruct (filter _ (workspaces (store s))) as [|w l] eqn:Ef; [reflexivity|].
      exfalso.
      assert (Hw : In w (w :: l)) by (left; reflexivity).
      rewrite <- Ef in Hw. apply filter_In in Hw as [_ Hw].
      rewrite <- Hmine in Hw. discriminate Hw.
  - erewrite bind_run by apply query_run.
    rewrite (outcome_fault_free _ _ _ _ Hff).
    cbn [store after].
    eexists. eexists. split; [reflexivity|].
    rewrite map_map. cbn [fst]. rewrite map_id.
    split; [|split; [|split]].
    + intros w. rewrite order_desc_in, filter_In, Hmine, Hjoin. reflexivity.
    + intros w url Hin. apply in_map_iff in Hin as (w0 & Heq & _).
      injection Heq as <- <-. reflexivity.
    + apply order_desc_sorted.
    + rewrite length_map, order_desc_length.
      f_equal. apply filter_ext. exact Hmine.
Qed.

Lemma workspaces_listed_are_the_callers_witness :
  fault_free (Sample.env Sample.no_faults)
  /\ exists documents total,
       fst (handle "carol" GetWorkspaces (Sample.env Sample.no_faults)
              (Sample.start Sample.store0))
         = json (JsonData (OfWorkspaces documents total))
       /\ (forall w, In w (map fst documents) <->
             In w (workspaces Sample.store0)
             /\ exists m, In m (members Sample.store0)
                          /\ Member.user_id m = "carol"
                          /\ Member.workspace_id m = Workspace.id w).
Proof.
  split; [intros k; reflexivity|].
  destruct (workspaces_listed_are_the_callers "carol"
              (Sample.env Sample.no_faults) (Sample.start Sample.store0)
              (fun k => eq_refl))
    as (documents & total & H1 & H2 & _).
  exists documents, total. split; [exact H1|exact H2].
Defined.

(** X10.  GET /projects?workspaceId=, for a caller with a member row of
    any role and in a run without failing calls, answers 200 with exactly
    the projects of that workspace, each as many times as it occurs in the
    table, newest first by created_at, with the public URL of its image
    when it has a non-empty image id. *)
Theorem projects_listed_are_the_workspaces :
  forall user ws e s member,
    fault_free e ->
    member_rows ws user (store s) = [member] ->
    exists documents total,
      fst (handle user (GetProjects ws) e s)
        = json (JsonData (OfProjects documents total))
      /\ (forall p, In p (map fst documents) <->
            In p (projects (store s)) /\ Project.workspace_id p = ws)
      /\ (forall p url, In (p, url) documents ->
            url = image_url e (Project.image_id p))
      /\ StronglySorted
           (fun a b => Project.created_at b <= Project.created_at a)
           (map fst documents)
      /\ List.length documents
         = List.length
             (filter (fun p => String.eqb (Project.workspace_id p) ws)
                     (projects (store s))).
Proof.
  intros user ws e s member Hff Hm. simpl. unfold get_projects.
  erewrite bind_run by apply ask_run.
  erewrite bind_run by apply getMember_run.
  rewrite (lookup_one _ _ _ _ _ _ (Hff _) Hm).
  erewrite bind_run by apply query_run.
  rewrite (outcome_fault_free _ _ _ _ Hff).
  cbn [store after].
  eexists. eexists. split; [reflexivity|].
  rewrite map_map. cbn [fst]. rewrite map_id.
  split; [|split; [|split]].
  - intros p. rewrite order_desc_in, filter_In, String.eqb_eq. reflexivity.
  - intros p url Hin. apply in_map_iff in Hin as (p0 & Heq & _).
    injection Heq as <- <-. reflexivity.
  - apply order_desc_sorted.
  - rewrite length_map, order_desc_length. reflexivity.
Qed.

Lemma projects_listed_are_the_workspaces_witness :
  fault_free (Sample.env Sample.no_faults)
  /\ member_rows "w1" "carol" Sample.store0 = [Sample.carol]
  /\ exists documents total,
       fst (handle "carol" (GetProjects "w1") (Sample.env Sample.no_faults)
              (Sample.start Sample.store0))
         = json (JsonData (OfProjects documents total))
       /\ (forall p, In p (map fst documents) <->
             In p (projects Sample.store0) /\ Project.workspace_id p = "w1").
Proof.
  split; [intros k; reflexivity|]. split; [reflexivity|].
  destruct (projects_listed_are_the_workspaces "carol" "w1"
              (Sample.env Sample.no_faults) (Sample.start Sample.store0)
              Sample.carol (fun k => eq_refl) eq_refl)
    as (documents & total & H1 & H2 & _).
  exists documents, total. split; [exact H1|exact H2].
Defined.

(** X11.  The two list endpoints never report how many rows there are:
    their selects ask for no count, so [count] is null and the [total] of
    every list answer is 0, however many documents it carries.  GET
    /workspaces moreover answers a failed membership query with the empty
    list and status 200, not with an error. *)
Theorem list_totals_are_zero :
  forall user r e s resp s',
    handle user r e s = (resp, s') ->
    (forall documents total,
        body resp = JsonData (OfWorkspaces documents total) -> total = 0)
    /\ (forall documents total,
          body resp = JsonData (OfProjects documents total) -> total = 0)
    /\ (r = GetWorkspaces ->
        faults e (List.length (trace s)) <> None ->
        resp = json (JsonData (OfWorkspaces [] 0))).
Proof.
  intros user r e s resp s' Hrun.
  assert (Hrefl : forall st : Store, (fun _ _ : Store => True) st st)
    by (intros; exact I).
  assert (Htrans : forall a b c : Store,
             (fun _ _ : Store => True) a b -> (fun _ _ : Store => True) b c ->
             (fun _ _ : Store => True) a c) by (intros; exact I).
  assert (H : satisfies (fun _ _ => True)
                (fun resp =>
                   (forall documents total,
                       body resp = JsonData (OfWorkspaces documents total) ->
                       total = 0)
                   /\ (forall documents total,
                         body resp = JsonData (OfProjects documents total) ->
                         total = 0))
                e (handle user r)).
  { destruct r; unfold_handlers;
      sat_walk Hrefl Htrans ltac:(idtac; intros; exact I)
        ltac:(idtac;
              first [ exact I
                    | split; intros ? ? Hbody; simpl in Hbody;
                      first [ discriminate Hbody
                            | injection Hbody as _ <-; reflexivity ] ]). }
  destruct (proj2 (H s resp s' Hrun)) as [H1 H2].
  split; [exact H1|]. split; [exact H2|].
  intros -> Hfault. simpl in Hrun. unfold get_workspaces in Hrun.
  erewrite bind_run in Hrun by apply ask_run.
  erewrite bind_run in Hrun by apply query_run.
  unfold outcome in Hrun.
  destruct (faults e (List.length (trace s))); [|contradiction].
  injection Hrun as <- _. reflexivity.
Qed.

Lemma list_totals_are_zero_witness :
  status (fst (handle "carol" GetWorkspaces (Sample.env Sample.no_faults)
               (Sample.start Sample.store0))) = 200
  /\ (forall documents total,
         body (fst (handle "carol" GetWorkspaces (Sample.env Sample.no_faults)
                      (Sample.start Sample.store0)))
           = JsonData (OfWorkspaces documents total) ->
         total = 0).
Proof.
  split; [reflexivity|].
  exact (proj1 (list_totals_are_zero "carol" GetWorkspaces
                  (Sample.env Sample.no_faults) (Sample.start Sample.store0)
                  _ _ (surjective_pairing _))).
Defined.

(** ** Joining, in every run *)

(** X12.  The two outcomes of POST /:workspaceId/join, whatever the backend
    does.  Either the answer is [{ data: workspace }], and then the
    workspace is the one row with that id, the submitted code is its invite
    code, the caller had no member row for it, and the store differs from
    the one before by exactly one member row: caller, workspace, role
    MEMBER.  Or the answer has another status and the store is unchanged. *)
Theorem join_all_or_nothing :
  forall user ws code e s resp s',
    handle user (PostJoin ws code) e s = (resp, s') ->
    (exists w,
        resp = json (JsonData (OfWorkspace w))
        /\ workspace_by_id ws (store s) = [w]
        /\ Workspace.invite_code w = code
        /\ member_rows ws user (store s) = []
        /\ store s' = with_members (store s)
                        (members (store s) ++ [join_row e s user ws]))
    \/ (status resp <> 200 /\ store s' = store s).
Proof.
  intros user ws code e s resp s' Hrun.
  simpl in Hrun. rewrite post_join_run in Hrun.
  destruct (lookup e (List.length (trace s)) ws user (store s)).
  { injection Hrun as <- <-. right. split; [discriminate|reflexivity]. }
  destruct (outcome e (List.length (trace s) + 1)
              (fun st => single (workspace_by_id ws st)) (store s))
    as [message|w] eqn:Hw.
  { injection Hrun as <- <-. right. split; [discriminate|reflexivity]. }
  apply workspace_found in Hw as [_ Hw].
  destruct (String.eqb (Workspace.invite_code w) code) eqn:Hcode.
  - apply String.eqb_eq in Hcode.
    destruct (outcome e (List.length (trace s) + 2)
                (insert_member (join_row e s user ws)) (store s))
      as [message|[[] st]] eqn:Hins.
    + injection Hrun as <- <-. right. split; [discriminate|reflexivity].
    + injection Hrun as <- <-. left. exists w.
      apply outcome_data in Hins as [_ Hins].
      apply insert_member_data in Hins as (-> & Hrows & _).
      repeat split; assumption.
  - injection Hrun as <- <-. right. split; [discriminate|reflexivity].
Qed.

Lemma join_all_or_nothing_witness :
  (exists w,
      fst (handle "carol" (PostJoin "w1" "AB12CD")
             (Sample.env (Sample.fault_at 0 "timeout"))
             (Sample.start Sample.store0))
      = json (JsonData (OfWorkspace w))
      /\ workspace_by_id "w1" Sample.store0 = [w]
      /\ Workspace.invite_code w = "AB12CD"
      /\ member_rows "w1" "carol" Sample.store0 = []
      /\ store (snd (handle "carol" (PostJoin "w1" "AB12CD")
                       (Sample.env (Sample.fault_at 0 "timeout"))
                       (Sample.start Sample.store0)))
         = with_members Sample.store0
             (members Sample.store0
              ++ [join_row (Sample.env (Sample.fault_at 0 "timeout"))
                           (Sample.start Sample.store0) "carol" "w1"]))
  \/ (status (fst (handle "carol" (PostJoin "w1" "AB12CD")
                     (Sample.env (Sample.fault_at 0 "timeout"))
                     (Sample.start Sample.store0))) <> 200
      /\ store (snd (handle "carol" (PostJoin "w1" "AB12CD")
                       (Sample.env (Sample.fault_at 0 "timeout"))
                       (Sample.start Sample.store0)))
         = Sample.store0).
Proof.
  exact (join_all_or_nothing "carol" "w1" "AB12CD"
           (Sample.env (Sample.fault_at 0 "timeout"))
           (Sample.start Sample.store0) _ _ (surjective_pairing _)).
Defined.

(** ** Reset, then join *)

Lemma filter_map_same {A} (p : A -> bool) (f : A -> A) l :
  (forall x, p (f x) = p x) ->
  filter p (map f l) = map f (filter p l).
Proof.
  intros H. induction l as [|x l IH]; simpl; [reflexivity|].
  rewrite H. destruct (p x); simpl; rewrite IH; reflexivity.
Qed.

Lemma workspace_by_id_after_update id u now st old :
  workspace_by_id id st = [old] ->
  workspace_by_id id
    (with_workspaces st
       (map (fun x => if String.eqb (Workspace.id x) id
                      then apply_workspace_update u now x
                      else x)
            (workspaces st)))
  = [apply_workspace_update u now old].
Proof.
  intros Hold. unfold workspace_by_id in *. cbn [workspaces with_workspaces].
  rewrite filter_map_same.
  - rewrite Hold. simpl.
    assert (Hin : In old (filter (fun w => String.eqb (Workspace.id w) id)
                                 (workspaces st)))
      by (rewrite Hold; left; reflexivity).
    apply filter_In in Hin as [_ Hid]. rewrite Hid. reflexivity.
  - intros x. destruct (String.eqb (Workspace.id x) id) eqn:E; [|exact E].
    cbn. exact E.
Qed.

(** X13.  After a successful POST /:workspaceId/resetInviteCode the code in
    the answer is the only one that joins the workspace.  From the store
    the reset leaves, in a run without failing calls, a caller without a
    member row who submits any other code, the previous one included, is
    answered 400 "Invalid invite code." and nothing is written; with the
    code of the answer the join goes through (the generated member id being
    unused). *)
Theorem reset_replaces_the_invite_code :
  forall admin ws e s w' s1,
    handle admin (PostResetInviteCode ws) e s
      = (json (JsonData (OfWorkspace w')), s1) ->
    forall user code e2 s2,
      fault_free e2 ->
      store s2 = store s1 ->
      member_rows ws user (store s2) = [] ->
      (code <> Workspace.invite_code w' ->
       handle user (PostJoin ws code) e2 s2
         = (json_status (JsonError "Invalid invite code.") 400,
            after s2 [Select TABLES.MEMBERS; Select TABLES.WORKSPACES]))
      /\ (code = Workspace.invite_code w' ->
          (forall m, In m (members (store s2)) ->
                     Member.id m <> random e2 (drawn s2)) ->
          fst (handle user (PostJoin ws code) e2 s2)
            = json (JsonData (OfWorkspace w'))).
Proof.
  intros admin ws e s w' s1 Hreset user code e2 s2 Hff Hstore Hrows.
  assert (Hw : workspace_by_id ws (store s1) = [w']).
  { destruct (not_admin (lookup e (List.length (trace s)) ws admin (store s)))
      eqn:Hn.
    { rewrite (admin_denied e s admin (PostResetInviteCode ws) ws eq_refl Hn)
        in Hreset. discriminate Hreset. }
    apply not_admin_false in Hn as (member & Hm & Hrole).
    change (handle admin (PostResetInviteCode ws) e s)
      with (post_reset_invite_code admin ws e s) in Hreset.
    rewrite (post_reset_invite_code_run _ _ _ _ _ Hm Hrole) in Hreset.
    destruct (outcome e (List.length (trace s) + 1) _ (store s))
      as [message|[w st]] eqn:Hup; [discriminate Hreset|].
    injection Hreset as -> <-. cbn [store].
    apply outcome_data in Hup as [_ Hup].
    apply update_workspace_data in Hup as (old & Hold & -> & ->).
    apply workspace_by_id_after_update. exact Hold. }
  rewrite <- Hstore in Hw.
  split.
  - intros Hne. simpl. rewrite post_join_run.
    rewrite (lookup_no_row _ _ _ _ _ Hrows).
    rewrite (outcome_fault_free _ _ _ _ Hff), Hw. cbn [single].
    destruct (String.eqb (Workspace.invite_code w') code) eqn:E; [|reflexivity].
    apply String.eqb_eq in E. exfalso. apply Hne. symmetry. exact E.
  - intros -> Hfresh. simpl. rewrite post_join_run.
    rewrite (lookup_no_row _ _ _ _ _ Hrows).
    rewrite (outcome_fault_free _ _ _ _ Hff), Hw. cbn [single].
    rewrite String.eqb_refl.
    rewrite (outcome_fault_free _ _ _ _ Hff).
    rewrite insert_member_accepts.
    + reflexivity.
    + exact Hfresh.
    + exact Hrows.
    + cbn [join_row Member.workspace_id]. rewrite Hw. discriminate.
Qed.

Lemma reset_replaces_the_invite_code_witness :
  fault_free (Sample.env Sample.no_faults)
  /\ member_rows "w1" "bob"
       (store (snd (handle "alice" (PostResetInviteCode "w1")
                      (Sample.env Sample.no_faults)
                      (Sample.start Sample.store0)))) = []
  /\ ("AB12CD" <> "id-0" ->
      handle "bob" (PostJoin "w1" "AB12CD") (Sample.env Sample.no_faults)
        (snd (handle "alice" (PostResetInviteCode "w1")
                (Sample.env Sample.no_faults) (Sample.start Sample.store0)))
      = (json_status (JsonError "Invalid invite code.") 400,
         after (snd (handle "alice" (PostResetInviteCode "w1")
                       (Sample.env Sample.no_faults)
                       (Sample.start Sample.store0)))
               [Select TABLES.MEMBERS; Select TABLES.WORKSPACES])).
Proof.
  split; [intros k; reflexivity|]. split; [reflexivity|].
  exact (proj1 (reset_replaces_the_invite_code "alice" "w1"
                  (Sample.env Sample.no_faults) (Sample.start Sample.store0)
                  _ _ (surjective_pairing _)
                  "bob" "AB12CD" (Sample.env Sample.no_faults) _
                  (fun k => eq_refl) eq_refl eq_refl)).
Defined.

(** ** Creating a workspace, then reading it *)

Lemma workspace_by_id_none id st :
  (forall x, In x (workspaces st) -> Workspace.id x <> id) ->
  workspace_by_id id st = [].
Proof.
  intros H. unfold workspace_by_id.
  destruct (filter _ (workspaces st)) as [|x l] eqn:E; [reflexivity|].
  exfalso.
  assert (Hin : In x (x :: l)) by (left; reflexivity).
  rewrite <- E in Hin. apply filter_In in Hin as [Hin Hid].
  apply String.eqb_eq in Hid. exact (H x Hin Hid).
Qed.

Lemma member_rows_none ws user st :
  (forall m, In m (members st) -> Member.workspace_id m <> ws) ->
  member_rows ws user st = [].
Proof.
  intros H. unfold member_rows.
  destruct (filter _ (members st)) as [|m l] eqn:E; [reflexivity|].
  exfalso.
  assert (Hin : In m (m :: l)) by (left; reflexivity).
  rewrite <- E in Hin. apply filter_In in Hin as [Hin Hid].
  apply andb_true_iff in Hid as [Hid _].
  apply String.eqb_eq in Hid. exact (H m Hin Hid).
Qed.

(** X14.  POST /workspaces, then GET /workspaces/:workspaceId.  In a run
    without failing calls, with generated ids and invite code not yet in
    use (and member rows that point to existing workspaces), the handler
    answers [{ data: workspace }] where the workspace carries the submitted
    name, the caller as user_id and the uploaded image; the store gains
    that row and one member row making the caller ADMIN of it, and nothing
    else.  The caller is then the workspace's only member, and a GET of the
    returned id by the caller answers the same row with its image URL. *)
Theorem created_workspace_can_be_read_back :
  forall user name image e s uploadedImageId s1,
    fault_free e ->
    upload_form_image image e s = (PgData uploadedImageId, s1) ->
    (forall x, In x (workspaces (store s1)) ->
               Workspace.id x <> random e (S (drawn s1))
               /\ Workspace.invite_code x <> random e (drawn s1)) ->
    (forall m, In m (members (store s1)) ->
               Member.id m <> random e (S (S (drawn s1)))) ->
    members_reference_workspaces (store s1) ->
    exists w s2,
      w = new_workspace_row e s1 user name uploadedImageId
      /\ handle user (PostWorkspaces name image) e s
         = (json (JsonData (OfWorkspace w)), s2)
      /\ store s2
         = with_members
             (with_workspaces (store s1) (workspaces (store s1) ++ [w]))
             (members (store s1) ++ [owner_row e s1 user w])
      /\ (forall m, In m (members (store s2)) ->
                    Member.workspace_id m = Workspace.id w ->
                    m = owner_row e s1 user w)
      /\ Member.role (owner_row e s1 user w) = MemberRole.ADMIN
      /\ forall e3 s3,
           fault_free e3 ->
           store s3 = store s2 ->
           handle user (GetWorkspace (Workspace.id w)) e3 s3
           = (json (JsonData
                      (OfWorkspaceWithUrl w
                         (image_url e3 (Workspace.image_id w)))),
              after s3 [Select TABLES.MEMBERS; Select TABLES.WORKSPACES]).
Proof.
  intros user name image e s uploadedImageId s1 Hff Hup Hfresh Hmid Hfk.
  set (w := new_workspace_row e s1 user name uploadedImageId).
  set (st1 := with_workspaces (store s1) (workspaces (store s1) ++ [w])).
  assert (Hins : insert_workspace w (store s1) = PgData (w, st1)).
  { unfold insert_workspace.
    replace (existsb _ (workspaces (store s1))) with false; [reflexivity|].
    symmetry. apply existsb_false. intros x Hx.
    destruct (Hfresh x Hx) as [H1 H2].
    apply orb_false_iff. split; apply String.eqb_neq; assumption. }
  assert (Hold : forall m, In m (members (store s1)) ->
                           Member.workspace_id m <> Workspace.id w).
  { intros m Hm Heq. destruct (Hfk m Hm) as (x & Hx & Hid).
    apply (proj1 (Hfresh x Hx)). rewrite Hid. exact Heq. }
  assert (Hmem : insert_member (owner_row e s1 user w) st1
                 = PgData (tt, with_members st1
                                 (members st1 ++ [owner_row e s1 user w]))).
  { apply insert_member_accepts.
    - exact Hmid.
    - apply member_rows_none. exact Hold.
    - unfold workspace_by_id, st1. cbn [workspaces with_workspaces owner_row
                                         Member.workspace_id].
      rewrite filter_app. simpl. rewrite String.eqb_refl.
      intros H. apply app_eq_nil in H as [_ H]. discriminate H. }
  exists w. eexists. split; [reflexivity|]. split; [|split; [|split; [|split]]].
  - simpl. rewrite (post_workspaces_run _ _ _ _ _ _ _ Hup).
    rewrite (outcome_fault_free _ _ _ _ Hff).
    fold w. rewrite Hins. cbv beta iota.
    rewrite (outcome_fault_free _ _ _ _ Hff), Hmem. reflexivity.
  - reflexivity.
  - cbn [store members with_members st1 with_workspaces].
    intros m Hm Hid. apply in_app_or in Hm as [Hm|[<-|[]]]; [|reflexivity].
    exfalso. exact (Hold m Hm Hid).
  - reflexivity.
  - intros e3 s3 Hff3 Hstore. simpl. unfold get_workspace.
    erewrite bind_run by apply ask_run.
    erewrite bind_run by apply getMember_run.
    rewrite (lookup_one e3 _ _ _ _ (owner_row e s1 user w) (Hff3 _)).
    + erewrite bind_run by apply query_run.
      rewrite (outcome_fault_free _ _ _ _ Hff3).
      rewrite store_after, after_after, Hstore. cbn [store app].
      unfold workspace_by_id. cbn [workspaces with_members st1 with_workspaces].
      rewrite filter_app.
      change (filter _ (workspaces (store s1)))
        with (workspace_by_id (Workspace.id w) (store s1)).
      rewrite workspace_by_id_none
        by (intros x Hx; apply (proj1 (Hfresh x Hx))).
      simpl. rewrite String.eqb_refl. reflexivity.
    + rewrite Hstore. cbn [store].
      rewrite member_rows_snoc by reflexivity.
      rewrite (member_rows_none _ _ st1); [reflexivity|exact Hold].
Qed.

Lemma created_workspace_can_be_read_back_witness :
  fault_free (Sample.env Sample.no_faults)
  /\ upload_form_image None (Sample.env Sample.no_faults)
       (Sample.start Sample.store0)
     = (PgData None, Sample.start Sample.store0)
  /\ members_reference_workspaces Sample.store0
  /\ exists w s2,
       handle "dave" (PostWorkspaces "Lab" None) (Sample.env Sample.no_faults)
              (Sample.start Sample.store0)
         = (json (JsonData (OfWorkspace w)), s2)
       /\ Workspace.name w = "Lab"
       /\ Workspace.user_id w = "dave"
       /\ forall e3 s3,
            fault_free e3 ->
            store s3 = store s2 ->
            handle "dave" (GetWorkspace (Workspace.id w)) e3 s3
            = (json (JsonData
                       (OfWorkspaceWithUrl w
                          (image_url e3 (Workspace.image_id w)))),
               after s3 [Select TABLES.MEMBERS; Select TABLES.WORKSPACES]).
Proof.
  assert (Hfk : members_reference_workspaces Sample.store0).
  { intros m [<-|[<-|[]]]; exists Sample.acme; split;
      first [left; reflexivity|reflexivity]. }
  split; [intros k; reflexivity|]. split; [reflexivity|]. split; [exact Hfk|].
  destruct (created_workspace_can_be_read_back "dave" "Lab" None
              (Sample.env Sample.no_faults) (Sample.start Sample.store0)
              None (Sample.start Sample.store0) (fun k => eq_refl) eq_refl)
    as (w & s2 & -> & Hrun & _ & _ & _ & Hget).
  - simpl. intros x [<-|[]]. split; discriminate.
  - simpl. intros m [<-|[<-|[]]]; discriminate.
  - exact Hfk.
  - eexists. exists s2. split; [exact Hrun|]. split; [reflexivity|].
    split; [reflexivity|exact Hget].
Defined.

(** ** Deleting a workspace *)

Lemma remove_run paths e s :
  fault_free e ->
  bind (await (Remove paths) (storage_remove paths)) (fun _ => ret tt) e s
  = (tt, {| store := with_images (store s)
                       (filter (fun k => negb (existsb (String.eqb k) paths))
                               (images (store s)));
            trace := trace s ++ [Remove paths];
            drawn := drawn s |}).
Proof.
  intros Hff. rewrite bind_await, (outcome_fault_free _ _ _ _ Hff).
  reflexivity.
Qed.

Lemma filter_all {A} (l : list A) : filter (fun _ => true) l = l.
Proof. induction l as [|x l IH]; simpl; [reflexivity|]. rewrite IH. reflexivity. Qed.

Lemma delete_workspace_run admin ws e s member :
  fault_free e ->
  member_rows ws admin (store s) = [member] ->
  Member.role member = MemberRole.ADMIN ->
  exists s',
    delete_workspace admin ws e s = (json (JsonData (OfId ws)), s')
    /\ delete_workspace_row ws
         (with_images (store s)
            (filter (fun k => negb (existsb (String.eqb k)
                                            (workspace_blobs ws (store s))))
                    (images (store s))))
       = PgData (tt, store s').
Proof.
  intros Hff Hm Hrole. unfold delete_workspace.
  erewrite bind_run by apply getMember_run.
  rewrite (lookup_one _ _ _ _ _ _ (Hff _) Hm).
  cbn [not_admin]. rewrite Hrole. cbn [MemberRole.eqb negb].
  erewrite bind_run by apply query_run.
  erewrite bind_run by apply query_run.
  rewrite !(outcome_fault_free _ _ _ _ Hff).
  rewrite !store_after, !after_after. cbn [app].
  cbv zeta.
  change (flat_map _ _ ++ _) with (workspace_blobs ws (store s)).
  destruct (workspace_blobs ws (store s)) as [|k l].
  - erewrite bind_run by reflexivity.
    rewrite bind_await, (outcome_fault_free _ _ _ _ Hff).
    cbn [store after]. eexists. split; [reflexivity|].
    cbn [existsb negb store]. rewrite filter_all.
    destruct (store s). reflexivity.
  - erewrite bind_run by (apply remove_run; exact Hff).
    rewrite bind_await, (outcome_fault_free _ _ _ _ Hff).
    cbn [store after]. eexists. split; reflexivity.
Qed.

(** X15.  DELETE /workspaces/:workspaceId by an admin, in a run without
    failing calls, answers [{ data: { id } }] and leaves a store in which
    the workspace, its projects, its member rows and its tasks are gone and
    every other workspace, project and member row is as it was; the blobs
    named by the workspace row and by its projects are removed from the
    bucket and no other blob is.  From that store on nobody has a member
    row for the id, so a GET of it answers 401 to every caller, the former
    admin included. *)
Theorem deleted_workspace_is_gone :
  forall admin ws e s member,
    fault_free e ->
    member_rows ws admin (store s) = [member] ->
    Member.role member = MemberRole.ADMIN ->
    exists s',
      handle admin (DeleteWorkspace ws) e s = (json (JsonData (OfId ws)), s')
      /\ (forall w, In w (workspaces (store s')) <->
                    In w (workspaces (store s)) /\ Workspace.id w <> ws)
      /\ (forall p, In p (projects (store s')) <->
                    In p (projects (store s)) /\ Project.workspace_id p <> ws)
      /\ (forall m, In m (members (store s')) <->
                    In m (members (store s)) /\ Member.workspace_id m <> ws)
      /\ (forall t, In t (tasks (store s')) ->
                    In t (tasks (store s)) /\ Task.workspace_id t <> ws)
      /\ (forall k, In k (images (store s')) <->
                    In k (images (store s))
                    /\ ~ In k (workspace_blobs ws (store s)))
      /\ forall user e2 s2,
           store s2 = store s' ->
           handle user (GetWorkspace ws) e2 s2
           = (unauthorized, after s2 [Select TABLES.MEMBERS]).
Proof.
  intros admin ws e s member Hff Hm Hrole.
  destruct (delete_workspace_run admin ws e s member Hff Hm Hrole)
    as (s' & Hrun & Hdel).
  exists s'. split; [exact Hrun|].
  apply delete_workspace_row_data in Hdel as (Hw & Hp & Ht & Hmem & Hi).
  cbn [workspaces projects tasks members images with_images] in *.
  assert (Hneq : forall a b : string,
             negb (String.eqb a b) = true <-> a <> b).
  { intros a b. rewrite negb_true_iff. apply String.eqb_neq. }
  split; [|split; [|split; [|split; [|split]]]].
  - intros w. rewrite Hw, filter_In, Hneq. reflexivity.
  - intros p. rewrite Hp, filter_In, Hneq. reflexivity.
  - intros m. rewrite Hmem, filter_In, Hneq. reflexivity.
  - intros t. rewrite Ht, filter_In, andb_true_iff, Hneq. tauto.
  - intros k. rewrite Hi, filter_In, negb_true_iff. split.
    + intros [Hk Hex]. split; [exact Hk|].
      intros Hin. rewrite existsb_false in Hex. specialize (Hex k Hin).
      rewrite String.eqb_refl in Hex. discriminate Hex.
    + intros [Hk Hnot]. split; [exact Hk|].
      apply existsb_false. intros x Hx. apply String.eqb_neq.
      intros ->. exact (Hnot Hx).
  - intros user e2 s2 Hstore.
    apply (workspace_gate e2 s2 user (GetWorkspace ws) ws eq_refl eq_refl).
    apply lookup_no_row. apply member_rows_none.
    intros m Hin. rewrite Hstore, Hmem in Hin.
    apply filter_In in Hin as [_ Hin]. apply Hneq in Hin. exact Hin.
Qed.

Lemma deleted_workspace_is_gone_witness :
  fault_free (Sample.env Sample.no_faults)
  /\ member_rows "w1" "alice" Sample.store0 = [Sample.alice]
  /\ Member.role Sample.alice = MemberRole.ADMIN
  /\ exists s',
       handle "alice" (DeleteWorkspace "w1") (Sample.env Sample.no_faults)
              (Sample.start Sample.store0)
         = (json (JsonData (OfId "w1")), s')
       /\ (forall m, In m (members (store s')) <->
                     In m (members Sample.store0)
                     /\ Member.workspace_id m <> "w1")
       /\ forall user e2 s2,
            store s2 = store s' ->
            handle user (GetWorkspace "w1") e2 s2
            = (unauthorized, after s2 [Select TABLES.MEMBERS]).
Proof.
  split; [intros k; reflexivity|]. split; [reflexivity|].
  split; [reflexivity|].
  destruct (deleted_workspace_is_gone "alice" "w1"
              (Sample.env Sample.no_faults) (Sample.start Sample.store0)
              Sample.alice (fun k => eq_refl) eq_refl eq_refl)
    as (s' & Hrun & _ & _ & Hm & _ & _ & Hget).
  exists s'. split; [exact Hrun|]. split; [exact Hm|exact Hget].
Defined.

(** ** Handlers addressed by a project id *)

Lemma no_project_run user r pid e s :
  project_of r = Some pid ->
  project_by_id pid (store s) = [] ->
  exists message,
    handle user r e s
    = (json_status (JsonError message) 500, after s [Select TABLES.PROJECTS])
    /\ (faults e (List.length (trace s)) = None -> message = single_error).
Proof.
  intros Hp Hnone.
  assert (Ho : exists message,
             outcome e (List.length (trace s))
                     (fun st => single (project_by_id pid st)) (store s)
             = PgError message
             /\ (faults e (List.length (trace s)) = None
                 -> message = single_error)).
  { unfold outcome. destruct (faults e (List.length (trace s))) as [m|].
    - exists m. split; [reflexivity|discriminate].
    - exists single_error. rewrite Hnone. split; reflexivity. }
  destruct Ho as (message & Ho & Hmsg).
  exists message. split; [|exact Hmsg].
  destruct r; try discriminate Hp; injection Hp as ->; simpl;
    [ unfold get_project | unfold patch_project | unfold delete_project
    | unfold get_project_analytics ];
    enter_handler; rewrite Ho; reflexivity.
Qed.

(** X16.  The four handlers that take a project id read the project row
    before they look at membership.  When no project has the id, the answer
    is 500 with the backend's message (that of [.single()] when the call
    itself did not fail), for every caller, member of anything or not; the
    members table is never queried and the store is left as it was. *)
Theorem unknown_project_is_a_server_error :
  forall user r pid e s,
    project_of r = Some pid ->
    project_by_id pid (store s) = [] ->
    exists message,
      handle user r e s
      = (json_status (JsonError message) 500, after s [Select TABLES.PROJECTS])
      /\ (faults e (List.length (trace s)) = None -> message = single_error).
Proof.
  intros user r pid e s. apply no_project_run.
Qed.

Lemma unknown_project_is_a_server_error_witness :
  exists message,
    handle "alice" (DeleteProject "p9") (Sample.env Sample.no_faults)
           (Sample.start Sample.store0)
    = (json_status (JsonError message) 500,
       after (Sample.start Sample.store0) [Select TABLES.PROJECTS])
    /\ (faults (Sample.env Sample.no_faults)
               (List.length (trace (Sample.start Sample.store0))) = None
        -> message = single_error).
Proof.
  apply (unknown_project_is_a_server_error "alice" (DeleteProject "p9") "p9");
    reflexivity.
Defined.

Lemma project_by_id_none id st :
  (forall x, In x (projects st) -> Project.id x <> id) ->
  project_by_id id st = [].
Proof.
  intros H. unfold project_by_id.
  destruct (filter _ (projects st)) as [|x l] eqn:E; [reflexivity|].
  exfalso.
  assert (Hin : In x (x :: l)) by (left; reflexivity).
  rewrite <- E in Hin. apply filter_In in Hin as [Hin Hid].
  apply String.eqb_eq in Hid. exact (H x Hin Hid).
Qed.

Lemma delete_project_run user pid e s project member :
  fault_free e ->
  project_by_id pid (store s) = [project] ->
  member_rows (Project.workspace_id project) user (store s) = [member] ->
  exists s',
    delete_project user pid e s
    = (json (JsonData (OfProjectRef (Project.id project)
                                    (Project.workspace_id project))), s')
    /\ delete_project_row pid
         (with_images (store s)
            (filter (fun k => negb (existsb (String.eqb k)
                                            (blob_of (Project.image_id project))))
                    (images (store s))))
       = PgData (tt, store s').
Proof.
  intros Hff Hp Hm. unfold delete_project.
  erewrite bind_run by apply query_run.
  rewrite (outcome_fault_free _ _ _ _ Hff), Hp. cbn [single].
  erewrite bind_run by apply getMember_run.
  rewrite trace_after, store_after.
  rewrite (lookup_one _ _ _ _ _ _ (Hff _) Hm).
  unfold blob_of.
  destruct (truthy (Project.image_id project)) eqn:Ht.
  - erewrite bind_run by (apply remove_run; exact Hff).
    rewrite bind_await, (outcome_fault_free _ _ _ _ Hff).
    cbn [store after]. eexists. split; reflexivity.
  - erewrite bind_run by reflexivity.
    rewrite bind_await, (outcome_fault_free _ _ _ _ Hff).
    cbn [store after]. eexists. split; [reflexivity|].
    cbn [existsb negb store]. rewrite filter_all.
    destruct (store s). reflexivity.
Qed.

(** X17.  DELETE /projects/:projectId asks for membership of the project's
    workspace and for no role: in a run without failing calls any member,
    ADMIN or MEMBER, gets [{ data: { id, workspace_id } }].  Afterwards the
    project row and the tasks of the project are gone, every other project
    and task, and all workspaces and member rows, are as they were, and the
    bucket has lost the project's image and nothing else.  The id then
    names no project: every handler that takes it answers 500. *)
Theorem deleted_project_is_gone :
  forall user pid e s project member,
    fault_free e ->
    project_by_id pid (store s) = [project] ->
    member_rows (Project.workspace_id project) user (store s) = [member] ->
    exists s',
      handle user (DeleteProject pid) e s
      = (json (JsonData (OfProjectRef (Project.id project)
                                      (Project.workspace_id project))), s')
      /\ (forall p, In p (projects (store s')) <->
                    In p (projects (store s)) /\ Project.id p <> pid)
      /\ (forall t, In t (tasks (store s')) <->
                    In t (tasks (store s)) /\ Task.project_id t <> pid)
      /\ workspaces (store s') = workspaces (store s)
      /\ members (store s') = members (store s)
      /\ (forall k, In k (images (store s')) <->
                    In k (images (store s))
                    /\ ~ In k (blob_of (Project.image_id project)))
      /\ forall anyone r e2 s2,
           project_of r = Some pid ->
           store s2 = store s' ->
           status (fst (handle anyone r e2 s2)) = 500.
Proof.
  intros user pid e s project member Hff Hp Hm.
  destruct (delete_project_run user pid e s project member Hff Hp Hm)
    as (s' & Hrun & Hdel).
  exists s'. split; [exact Hrun|].
  apply delete_project_row_data in Hdel as (Hw & Hpr & Ht & Hmem & Hi).
  cbn [workspaces projects tasks members images with_images] in *.
  assert (Hneq : forall a b : string,
             negb (String.eqb a b) = true <-> a <> b).
  { intros a b. rewrite negb_true_iff. apply String.eqb_neq. }
  split; [|split; [|split; [|split; [|split]]]].
  - intros p. rewrite Hpr, filter_In, Hneq. reflexivity.
  - intros t. rewrite Ht, filter_In, Hneq. reflexivity.
  - exact Hw.
  - exact Hmem.
  - intros k. rewrite Hi, filter_In, negb_true_iff. split.
    + intros [Hk Hex]. split; [exact Hk|].
      intros Hin. rewrite existsb_false in Hex. specialize (Hex k Hin).
      rewrite String.eqb_refl in Hex. discriminate Hex.
    + intros [Hk Hnot]. split; [exact Hk|].
      apply existsb_false. intros x Hx. apply String.eqb_neq.
      intros ->. exact (Hnot Hx).
  - intros anyone r e2 s2 Hr Hstore.
    destruct (no_project_run anyone r pid e2 s2 Hr)
      as (message & -> & _); [|reflexivity].
    apply project_by_id_none. intros x Hx. rewrite Hstore, Hpr in Hx.
    apply filter_In in Hx as [_ Hx]. apply Hneq in Hx. exact Hx.
Qed.

Lemma deleted_project_is_gone_witness :
  fault_free (Sample.env Sample.no_faults)
  /\ project_by_id "p1" Sample.store0 = [Sample.roadmap]
  /\ member_rows (Project.workspace_id Sample.roadmap) "carol" Sample.store0
     = [Sample.carol]
  /\ Member.role Sample.carol = MemberRole.MEMBER
  /\ exists s',
       handle "carol" (DeleteProject "p1") (Sample.env Sample.no_faults)
              (Sample.start Sample.store0)
       = (json (JsonData (OfProjectRef "p1" "w1")), s')
       /\ (forall t, In t (tasks (store s')) <->
                     In t (tasks Sample.store0) /\ Task.project_id t <> "p1")
       /\ members (store s') = members Sample.store0.
Proof.
  split; [intros k; reflexivity|]. split; [reflexivity|].
  split; [reflexivity|]. split; [reflexivity|].
  destruct (deleted_project_is_gone "carol" "p1"
              (Sample.env Sample.no_faults) (Sample.start Sample.store0)
              Sample.roadmap Sample.carol (fun k => eq_refl) eq_refl eq_refl)
    as (s' & Hrun & _ & Ht & _ & Hm & _).
  exists s'. split; [exact Hrun|]. split; [exact Ht|exact Hm].
Defined.

(** ** Creating a project, then reading it *)

Lemma upload_form_image_tables image e s r s1 :
  upload_form_image image e s = (r, s1) ->
  workspaces (store s1) = workspaces (store s)
  /\ projects (store s1) = projects (store s)
  /\ tasks (store s1) = tasks (store s)
  /\ members (store s1) = members (store s).
Proof.
  unfold upload_form_image.
  destruct image as [[file|text]|].
  - erewrite bind_run by apply draw_run. rewrite bind_await.
    unfold outcome. cbn [trace store drawn].
    destruct (faults e _).
    + intros H. injection H as _ <-. repeat split.
    + destruct (storage_upload _ (store s)) as [m|[path st]] eqn:E.
      * intros H. injection H as _ <-. repeat split.
      * intros H. injection H as _ <-.
        apply storage_upload_data in E. cbn [store].
        destruct E as (_ & -> & _). repeat split.
  - intros H. injection H as _ <-. repeat split.
  - intros H. injection H as _ <-. repeat split.
Qed.

(** X18.  POST /projects, then GET /projects/:projectId.  In a run without
    failing calls, a member of the workspace (of either role) whose upload
    went through, with a generated id not yet in use, gets
    [{ data: project }] where the project carries the submitted name, the
    workspace id and the uploaded image; the store gains that row and no
    other table changes.  A GET of the returned id by the same caller then
    answers the same row with its image URL. *)
Theorem created_project_can_be_read_back :
  forall user name image ws e s member uploadedImageId s1,
    fault_free e ->
    member_rows ws user (store s) = [member] ->
    upload_form_image image e (after s [Select TABLES.MEMBERS])
    = (PgData uploadedImageId, s1) ->
    (forall x, In x (projects (store s)) ->
               Project.id x <> random e (drawn s1)) ->
    members_reference_workspaces (store s) ->
    exists p s2,
      handle user (PostProjects name image ws) e s
      = (json (JsonData (OfProject p)), s2)
      /\ Project.name p = name
      /\ Project.workspace_id p = ws
      /\ Project.image_id p = uploadedImageId
      /\ store s2 = with_projects (store s1) (projects (store s) ++ [p])
      /\ forall e3 s3,
           fault_free e3 ->
           store s3 = store s2 ->
           handle user (GetProject (Project.id p)) e3 s3
           = (json (JsonData
                      (OfProjectWithUrl p (image_url e3 (Project.image_id p)))),
              after s3 [Select TABLES.PROJECTS; Select TABLES.MEMBERS]).
Proof.
  intros user name image ws e s member uploadedImageId s1
         Hff Hm Hup Hfresh Hfk.
  destruct (upload_form_image_tables _ _ _ _ _ Hup) as (Hw & Hp & _ & Hmem).
  cbn [store after] in Hw, Hp, Hmem.
  set (p := {| Project.id := random e (drawn s1);
               Project.name := name;
               Project.description := None;
               Project.workspace_id := ws;
               Project.image_id := uploadedImageId;
               Project.created_at := clock e;
               Project.updated_at := clock e |}).
  assert (Hins : insert_project p (store s1)
                 = PgData (p, with_projects (store s1)
                                (projects (store s) ++ [p]))).
  { unfold insert_project. rewrite Hp.
    replace (existsb _ (projects (store s))) with false.
    - replace (existsb _ (workspaces (store s1))) with true; [reflexivity|].
      symmetry. apply existsb_exists.
      assert (Hin : In member (members (store s))).
      { assert (H : In member (member_rows ws user (store s)))
          by (rewrite Hm; left; reflexivity).
        apply filter_In in H. exact (proj1 H). }
      assert (Hws : Member.workspace_id member = ws).
      { assert (H : In member (member_rows ws user (store s)))
          by (rewrite Hm; left; reflexivity).
        apply filter_In in H as [_ H]. apply andb_true_iff in H as [H _].
        apply String.eqb_eq in H. exact H. }
      destruct (Hfk member Hin) as (w & Hwin & Hid).
      exists w. rewrite Hw. split; [exact Hwin|].
      apply String.eqb_eq. rewrite Hid. exact Hws.
    - symmetry. apply existsb_false. intros x Hx.
      apply String.eqb_neq. exact (Hfresh x Hx). }
  exists p. eexists. split; [|split; [|split; [|split; [|split]]]].
  - simpl. unfold post_projects.
    erewrite bind_run by apply ask_run.
    erewrite bind_run by apply getMember_run.
    rewrite (lookup_one _ _ _ _ _ _ (Hff _) Hm).
    erewrite bind_run by exact Hup.
    cbv beta iota zeta.
    erewrite bind_run by apply draw_run.
    rewrite bind_await, (outcome_fault_free _ _ _ _ Hff).
    cbn [store]. fold p. rewrite Hins. reflexivity.
  - reflexivity.
  - reflexivity.
  - reflexivity.
  - reflexivity.
  - intros e3 s3 Hff3 Hstore. simpl. unfold get_project.
    erewrite bind_run by apply ask_run.
    erewrite bind_run by apply query_run.
    rewrite (outcome_fault_free _ _ _ _ Hff3).
    rewrite Hstore. cbn [store].
    unfold project_by_id at 1. cbn [projects with_projects].
    rewrite filter_app.
    change (filter _ (projects (store s)))
      with (project_by_id (Project.id p) (store s)).
    rewrite project_by_id_none by exact Hfresh.
    cbn [filter]. rewrite String.eqb_refl. cbn [app single].
    erewrite bind_run by apply getMember_run.
    rewrite trace_after, store_after.
    rewrite (lookup_one e3 _ _ _ _ member (Hff3 _)).
    + rewrite after_after. reflexivity.
    + rewrite Hstore. cbn [store Project.workspace_id p].
      unfold member_rows. cbn [members with_projects].
      rewrite Hmem. exact Hm.
Qed.

Lemma created_project_can_be_read_back_witness :
  exists p s2,
    handle "carol" (PostProjects "Launch" (Some (ImageText "logo")) "w1")
           (Sample.env Sample.no_faults) (Sample.start Sample.store0)
    = (json (JsonData (OfProject p)), s2)
    /\ Project.name p = "Launch"
    /\ Project.workspace_id p = "w1"
    /\ Project.image_id p = Some "logo"
    /\ forall e3 s3,
         fault_free e3 ->
         store s3 = store s2 ->
         handle "carol" (GetProject (Project.id p)) e3 s3
         = (json (JsonData
                    (OfProjectWithUrl p (image_url e3 (Project.image_id p)))),
            after s3 [Select TABLES.PROJECTS; Select TABLES.MEMBERS]).
Proof.
  destruct (created_project_can_be_read_back
              "carol" "Launch" (Some (ImageText "logo")) "w1"
              (Sample.env Sample.no_faults) (Sample.start Sample.store0)
              Sample.carol (Some "logo")
              (after (Sample.start Sample.store0) [Select TABLES.MEMBERS]))
    as (p & s2 & Hrun & Hn & Hw & Hi & _ & Hget).
  - intros k. reflexivity.
  - reflexivity.
  - reflexivity.
  - intros x [<-|[]]. vm_compute. discriminate.
  - intros m [<-|[<-|[]]]; exists Sample.acme; split;
      try (left; reflexivity); reflexivity.
  - exists p, s2. repeat split; assumption.
Defined.

(** ** Requests that fail *)

Section FailsCleanly.
Variable T : Store -> Store -> Prop.
Hypothesis T_refl : forall st, T st st.
Hypothesis T_trans : forall a b c, T a b -> T b c -> T a c.
Variable e : Env.

Lemma fc_ret a : fails_cleanly T e (ret a).
Proof. intros s a' s' E _. injection E as _ <-. apply T_refl. Qed.

Lemma fc_keep {A} (c : M A) (k : A -> M Response) :
  satisfies T (fun _ => True) e c ->
  (forall a, fails_cleanly T e (k a)) ->
  fails_cleanly T e (bind c k).
Proof.
  intros Hc Hk s b s' E Hb. unfold bind in E.
  destruct (c e s) as [a s1] eqn:E1.
  destruct (Hc _ _ _ E1) as [H1 _].
  eapply T_trans; [exact H1|]. exact (Hk a _ _ _ E Hb).
Qed.

Lemma fc_ask (k : Env -> M Response) :
  fails_cleanly T e (k e) -> fails_cleanly T e (bind ask k).
Proof.
  intros Hk s b s' E. erewrite bind_run in E by apply ask_run.
  exact (Hk _ _ _ E).
Qed.

Lemma fc_write {A} c (act : Store -> PostgrestResponse (A * Store))
  (k : PostgrestResponse A -> M Response) :
  (forall message, fails_cleanly T e (k (PgError message))) ->
  (forall a, succeeds e (k (PgData a))) ->
  fails_cleanly T e (bind (await c act) k).
Proof.
  intros Herr Hok s b s' E Hb. rewrite bind_await in E.
  destruct (outcome e (List.length (trace s)) act (store s)) as [m|[a st]].
  - exact (Herr m _ _ _ E Hb).
  - exfalso. exact (Hb (Hok a _ _ _ E)).
Qed.

Lemma ok_ret a : status a = 200 -> succeeds e (ret a).
Proof. intros H s a' s' E. injection E as <- _. exact H. Qed.

End FailsCleanly.

Ltac keeps_rows :=
  idtac;
  let H := fresh "H" in
  intros ? ? ? H;
  first [ apply storage_upload_data in H as (_ & -> & _)
        | apply storage_remove_data in H as ->
        | apply insert_workspace_data in H as (_ & -> & _) ];
  unfold same_rows;
  split; [intros Hall; try discriminate Hall; reflexivity|];
  repeat split.

(** Walks a handler up to its table write: the calls before it keep the
    rows, its failure ends the run, its success is answered with 200. *)
Ltac fc_walk T_refl T_trans :=
  repeat first
    [ progress cbv beta iota zeta
    | match goal with
      | |- fails_cleanly _ _ (bind ask _) => apply fc_ask
      | |- fails_cleanly _ _ (bind (await _ _) _) =>
          first [ eapply (fc_keep _ T_trans);
                  [ apply (sat_await _ T_refl); solve [keeps_rows] | intros ? ]
                | apply fc_write; intros ? ]
      | |- fails_cleanly _ _ (bind _ _) =>
          eapply (fc_keep _ T_trans);
          [ solve [ sat_walk T_refl T_trans ltac:(idtac; keeps_rows)
                             ltac:(idtac; exact I) ]
          | intros ? ]
      | |- fails_cleanly _ _ (ret _) => apply (fc_ret _ T_refl)
      | |- fails_cleanly _ _ (if ?x then _ else _) => destruct x eqn:?
      | |- fails_cleanly _ _ (match ?x with _ => _ end) => destruct x
      | |- succeeds _ (ret _) => apply ok_ret; reflexivity
      end ].

Lemma same_rows_refl all st : same_rows all st st.
Proof. unfold same_rows. split; [intros _; reflexivity|]. repeat split. Qed.

Lemma same_rows_trans all a b c :
  same_rows all a b -> same_rows all b c -> same_rows all a c.
Proof.
  unfold same_rows. intros (H1 & H2 & H3 & H4) (G1 & G2 & G3 & G4).
  split; [intros Hall; rewrite (G1 Hall); exact (H1 Hall)|].
  repeat split; congruence.
Qed.

Lemma handle_fails_cleanly user r e :
  fails_cleanly
    (same_rows match r with PostWorkspaces _ _ => false | _ => true end)
    e (handle user r).
Proof.
  destruct r;
    match goal with
    | |- fails_cleanly (same_rows ?b) _ _ =>
        pose proof (same_rows_refl b) as Hrefl;
        pose proof (same_rows_trans b) as Htrans
    end;
    unfold_handlers; fc_walk Hrefl Htrans.
Qed.

(** X19.  A request that is answered with anything but 200 has changed no
    row of the projects, tasks and members tables, and no row of the
    workspaces table either unless it is POST /workspaces (which inserts
    the workspace before the member row, and keeps it when the second
    insert fails). *)
Theorem failed_requests_change_no_table :
  forall user r e s resp s',
    handle user r e s = (resp, s') ->
    status resp <> 200 ->
    projects (store s') = projects (store s)
    /\ tasks (store s') = tasks (store s)
    /\ members (store s') = members (store s)
    /\ ((forall name image, r <> PostWorkspaces name image) ->
        workspaces (store s') = workspaces (store s)).
Proof.
  intros user r e s resp s' Hrun Hstatus.
  destruct (handle_fails_cleanly user r e s resp s' Hrun Hstatus)
    as (Hw & Hp & Ht & Hm).
  split; [exact Hp|]. split; [exact Ht|]. split; [exact Hm|].
  intros Hr. apply Hw.
  destruct r; try reflexivity. exfalso. exact (Hr _ _ eq_refl).
Qed.

Lemma failed_requests_change_no_table_witness :
  let r := PatchWorkspace "w1" (Some "Acme Ltd") None in
  let run := handle "alice" r (Sample.env (Sample.fault_at 1 "timeout"))
                    (Sample.start Sample.store0) in
  fst run = json_status (JsonError "timeout") 500
  /\ status (fst run) <> 200
  /\ (forall name image, r <> PostWorkspaces name image)
  /\ workspaces (store (snd run)) = workspaces Sample.store0.
Proof.
  cbv zeta. split; [reflexivity|].
  assert (Hs : status (fst (handle "alice"
                              (PatchWorkspace "w1" (Some "Acme Ltd") None)
                              (Sample.env (Sample.fault_at 1 "timeout"))
                              (Sample.start Sample.store0))) <> 200)
    by (vm_compute; discriminate).
  split; [exact Hs|].
  assert (Hr : forall name image,
             PatchWorkspace "w1" (Some "Acme Ltd") None
             <> PostWorkspaces name image)
    by (intros name image; discriminate).
  split; [exact Hr|].
  exact (proj2 (proj2 (proj2
           (failed_requests_change_no_table "alice"
              (PatchWorkspace "w1" (Some "Acme Ltd") None)
              (Sample.env (Sample.fault_at 1 "timeout"))
              (Sample.start Sample.store0) _ _
              (surjective_pairing _) Hs))) Hr).
Defined.

(** ** Replacing an image *)

Lemma in_without_blobs k blobs l :
  In k (filter (fun k => negb (existsb (String.eqb k) blobs)) l)
  <-> In k l /\ ~ In k blobs.
Proof.
  rewrite filter_In, negb_true_iff. split.
  - intros [Hk Hex]. split; [exact Hk|].
    intros Hin. rewrite existsb_false in Hex. specialize (Hex k Hin).
    rewrite String.eqb_refl in Hex. discriminate Hex.
  - intros [Hk Hnot]. split; [exact Hk|].
    apply existsb_false. intros x Hx. apply String.eqb_neq.
    intros ->. exact (Hnot Hx).
Qed.

Lemma patch_workspace_file_run admin ws name file e s member old :
  fault_free e ->
  member_rows ws admin (store s) = [member] ->
  Member.role member = MemberRole.ADMIN ->
  workspace_by_id ws (store s) = [old] ->
  ~ In (stored_name (random e (drawn s)) file) (images (store s)) ->
  exists s',
    patch_workspace admin ws name (Some (ImageFile file)) e s
    = (json (JsonData
               (OfWorkspace
                  (apply_workspace_update
                     {| set_workspace_name := name;
                        set_workspace_image_id :=
                          Some (stored_name (random e (drawn s)) file);
                        set_workspace_invite_code := None |}
                     (clock e) old))), s')
    /\ store s'
       = with_workspaces
           (with_images (store s)
              (filter (fun k => negb (existsb (String.eqb k)
                                        (blob_of (Workspace.image_id old))))
                      (images (store s)
                       ++ [stored_name (random e (drawn s)) file])))
           (map (fun x => if String.eqb (Workspace.id x) ws
                          then apply_workspace_update
                                 {| set_workspace_name := name;
                                    set_workspace_image_id :=
                                      Some (stored_name (random e (drawn s)) file);
                                    set_workspace_invite_code := None |}
                                 (clock e) x
                          else x)
                (workspaces (store s))).
Proof.
  intros Hff Hm Hrole Hold Hnew. unfold patch_workspace.
  erewrite bind_run by apply ask_run.
  erewrite bind_run by apply getMember_run.
  rewrite (lookup_one _ _ _ _ _ _ (Hff _) Hm).
  cbn [not_admin]. rewrite Hrole. cbn [MemberRole.eqb negb].
  cbv zeta.
  erewrite bind_run by apply draw_run.
  fold (stored_name (random e (drawn (after s [Select TABLES.MEMBERS]))) file).
  cbn [drawn after].
  set (fileName := stored_name (random e (drawn s)) file) in *.
  rewrite bind_await, (outcome_fault_free _ _ _ _ Hff).
  cbn [store after trace drawn]. unfold storage_upload.
  replace (existsb (String.eqb fileName) (images (store s))) with false.
  2:{ symmetry. apply existsb_false. intros x Hx. apply String.eqb_neq.
      intros Heq. apply Hnew. rewrite Heq. exact Hx. }
  erewrite bind_run by apply query_run.
  rewrite (outcome_fault_free _ _ _ _ Hff).
  cbn [store]. unfold workspace_by_id at 1. cbn [workspaces with_images].
  change (filter _ (workspaces (store s))) with (workspace_by_id ws (store s)).
  rewrite Hold. cbn [single]. unfold blob_of.
  destruct (truthy (Workspace.image_id old)) eqn:Ht.
  - erewrite bind_run by (apply remove_run; exact Hff).
    rewrite bind_await, (outcome_fault_free _ _ _ _ Hff).
    cbn [store after with_images images]. unfold update_workspace.
    unfold workspace_by_id. cbn [workspaces with_images].
    change (filter _ (workspaces (store s))) with (workspace_by_id ws (store s)).
    rewrite Hold. eexists. split; reflexivity.
  - erewrite bind_run by reflexivity.
    rewrite bind_await, (outcome_fault_free _ _ _ _ Hff).
    cbn [store after with_images images]. unfold update_workspace.
    unfold workspace_by_id. cbn [workspaces with_images].
    change (filter _ (workspaces (store s))) with (workspace_by_id ws (store s)).
    rewrite Hold. eexists. split; [reflexivity|].
    cbn [store existsb negb]. rewrite filter_all. reflexivity.
Qed.

(** X20.  PATCH /workspaces/:workspaceId with a [File], by an admin, in a
    run without failing calls and with a generated file name not yet in the
    bucket.  The answer is the updated row: its image id is the stored
    name (uuid, dot, extension), its name the submitted one or, when none
    was submitted, the old one, its invite code the old one.  The row can
    be read back under the same id.  The bucket afterwards holds the old
    blobs and the new one, minus the image the row named before; projects,
    tasks and members are untouched. *)
Theorem workspace_image_is_replaced :
  forall admin ws name file e s member old,
    fault_free e ->
    member_rows ws admin (store s) = [member] ->
    Member.role member = MemberRole.ADMIN ->
    workspace_by_id ws (store s) = [old] ->
    ~ In (stored_name (random e (drawn s)) file) (images (store s)) ->
    exists w s',
      handle admin (PatchWorkspace ws name (Some (ImageFile file))) e s
      = (json (JsonData (OfWorkspace w)), s')
      /\ Workspace.image_id w = Some (stored_name (random e (drawn s)) file)
      /\ Workspace.name w = or_keep name (Workspace.name old)
      /\ Workspace.invite_code w = Workspace.invite_code old
      /\ Workspace.updated_at w = clock e
      /\ workspace_by_id ws (store s') = [w]
      /\ (forall k, In k (images (store s')) <->
                    (In k (images (store s))
                     \/ k = stored_name (random e (drawn s)) file)
                    /\ ~ In k (blob_of (Workspace.image_id old)))
      /\ projects (store s') = projects (store s)
      /\ tasks (store s') = tasks (store s)
      /\ members (store s') = members (store s).
Proof.
  intros admin ws name file e s member old Hff Hm Hrole Hold Hnew.
  destruct (patch_workspace_file_run admin ws name file e s member old
              Hff Hm Hrole Hold Hnew) as (s' & Hrun & Hstore).
  eexists. exists s'. split; [exact Hrun|].
  rewrite Hstore.
  split; [reflexivity|]. split; [reflexivity|]. split; [reflexivity|].
  split; [reflexivity|]. split; [|split; [|repeat split]].
  - apply (workspace_by_id_after_update ws _ (clock e)
             (with_images (store s) _) old).
    exact Hold.
  - intros k. cbn [images with_workspaces with_images].
    rewrite in_without_blobs, in_app_iff. cbn [In].
    split; intros [[H|H] H']; split; auto.
    destruct H as [H|[]]. right. symmetry. exact H.
Qed.

Lemma workspace_image_is_replaced_witness :
  exists w s',
    handle "alice"
           (PatchWorkspace "w1" None
              (Some (ImageFile {| file_name := "logo.v2.png";
                                  file_type := "image/png" |})))
           (Sample.env Sample.no_faults) (Sample.start Sample.store0)
    = (json (JsonData (OfWorkspace w)), s')
    /\ Workspace.image_id w = Some "id-0.png"
    /\ Workspace.name w = "Acme"
    /\ images (store s') = ["id-0.png"].
Proof.
  destruct (workspace_image_is_replaced "alice" "w1" None
              {| file_name := "logo.v2.png"; file_type := "image/png" |}
              (Sample.env Sample.no_faults) (Sample.start Sample.store0)
              Sample.alice Sample.acme)
    as (w & s' & Hrun & Hi & Hn & _).
  - intros k. reflexivity.
  - reflexivity.
  - reflexivity.
  - reflexivity.
  - intros [].
  - exists w, s'. split; [exact Hrun|]. split; [exact Hi|].
    split; [exact Hn|].
    vm_compute in Hrun. injection Hrun as _ <-. reflexivity.
Defined.

(** ** Updating a project *)





(** ** The figures of an analytics response *)

Lemma count_rows_split {A} (fs fs1 fs2 : list (A -> bool)) rows :
  (forall r, forallb (fun f => f r) fs
             = xorb (forallb (fun f => f r) fs1) (forallb (fun f => f r) fs2)) ->
  (forall r, forallb (fun f => f r) fs1 = true ->
             forallb (fun f => f r) fs2 = false) ->
  count_rows fs1 rows + count_rows fs2 rows = count_rows fs rows.
Proof.
  intros Hsplit Hdisj. unfold count_rows, matching.
  rewrite <- Nat2Z.inj_add. f_equal.
  induction rows as [|r rows IH]; simpl; [reflexivity|].
  rewrite (Hsplit r).
  destruct (forallb (fun f => f r) fs1) eqn:E1.
  - rewrite (Hdisj r E1). simpl. rewrite <- IH. reflexivity.
  - destruct (forallb (fun f => f r) fs2); simpl; rewrite <- IH;
      [rewrite Nat.add_succ_r|]; reflexivity.
Qed.

Lemma done_or_not scope memberId e month rows :
  count_rows (metric_query e scope memberId Completed month) rows
  + count_rows (metric_query e scope memberId Incomplete month) rows
  = count_rows (metric_query e scope memberId Total month) rows.
Proof.
  apply count_rows_split; intros r; unfold metric_query; cbn;
    unfold TaskFilter.eq_status, TaskFilter.neq_status;
    destruct (scope r), (TaskStatus.eqb (Task.status r) TaskStatus.DONE),
      (forallb (fun f => f r) month); cbn; try reflexivity; discriminate.
Qed.

(** X22.  When none of the count queries fails, the figures of an
    analytics response add up: for the current month the completed and the
    incomplete tasks together are all the tasks, the same holds for the
    differences to the previous month, and the tasks assigned to the caller
    are between none and all. *)
Theorem analytics_figures_add_up :
  forall e s user r scope first resp s' a,
    analytics_scope r = Some (scope, first) ->
    handle user r e s = (resp, s') ->
    body resp = JsonData (OfAnalytics a) ->
    fault_free e ->
    completedTaskCount a + incompleteTaskCount a = taskCount a
    /\ completedTaskDifference a + incompleteTaskDifference a = taskDifference a
    /\ 0 <= assignedTaskCount a <= taskCount a.
Proof.
  intros e s user r scope first resp s' a Hscope Hrun Hbody Hff.
  destruct (analytics_inversion _ _ _ _ _ _ _ _ _ Hscope Hrun Hbody)
    as (member & _ & _ & -> & _).
  unfold analytics_of.
  cbn [completedTaskCount incompleteTaskCount taskCount assignedTaskCount
       completedTaskDifference incompleteTaskDifference taskDifference].
  rewrite !(count_of_fault_free _ _ _ _ Hff). cbn [or_zero].
  pose proof (done_or_not scope (Member.id member) e (this_month e)
                (tasks (store s))) as Hthis.
  pose proof (done_or_not scope (Member.id member) e (last_month e)
                (tasks (store s))) as Hlast.
  split; [exact Hthis|]. split; [lia|]. split.
  - apply count_rows_nonneg.
  - apply count_rows_le. intros t. unfold metric_query. cbn.
    destruct (scope t); [|discriminate]. cbn.
    destruct (TaskFilter.eq_assignee_id (Member.id member) t);
      [|discriminate]. cbn. intros H. exact H.
Qed.

Lemma analytics_figures_add_up_witness :
  fault_free (Sample.env Sample.no_faults)
  /\ completedTaskCount Sample.march + incompleteTaskCount Sample.march
     = taskCount Sample.march
  /\ completedTaskDifference Sample.march
     + incompleteTaskDifference Sample.march
     = taskDifference Sample.march
  /\ 0 <= assignedTaskCount Sample.march <= taskCount Sample.march.
Proof.
  split; [intros k; reflexivity|].
  exact (analytics_figures_add_up (Sample.env Sample.no_faults)
           (Sample.start Sample.store0) "carol" (GetWorkspaceAnalytics "w1")
           (TaskFilter.eq_workspace_id "w1") 1%nat _ _ Sample.march
           eq_refl sample_analytics_run eq_refl (fun k => eq_refl)).
Defined.

(** X23.  The analytics handlers read only the [count] of each count
    query, never its error.  So in every analytics response, whatever the
    ten queries did: no count is negative; a failed current-month query
    shows as a count of 0 and a difference that is not positive; a failed
    previous-month query leaves the difference equal to the count. *)
Theorem analytics_report_failed_counts_as_zero :
  forall e s user r scope first resp s' a,
    analytics_scope r = Some (scope, first) ->
    handle user r e s = (resp, s') ->
    body resp = JsonData (OfAnalytics a) ->
    forall m,
      let k := (List.length (trace s) + first + metric_position m)%nat in
      0 <= count_field m a
      /\ (faults e k <> None ->
          count_field m a = 0 /\ difference_field m a <= 0)
      /\ (faults e (S k) <> None ->
          difference_field m a = count_field m a).
Proof.
  intros e s user r scope first resp s' a Hscope Hrun Hbody m. cbv zeta.
  destruct (analytics_inversion _ _ _ _ _ _ _ _ _ Hscope Hrun Hbody)
    as (member & _ & _ & -> & _).
  destruct (analytics_of_fields e (List.length (trace s) + first) scope
              (Member.id member) (store s) m) as [Hc Hd].
  rewrite Hd, Hc. rewrite <- Nat.add_succ_r.
  unfold count_of.
  destruct (faults e (List.length (trace s) + first + metric_position m));
    destruct (faults e (List.length (trace s) + first + S (metric_position m)));
    cbn [or_zero];
    pose proof (count_rows_nonneg
                  (metric_query e scope (Member.id member) m (this_month e))
                  (tasks (store s)));
    pose proof (count_rows_nonneg
                  (metric_query e scope (Member.id member) m (last_month e))
                  (tasks (store s)));
    (split; [lia|]);
    split; intros Hf; try (exfalso; apply Hf; reflexivity);
    try lia; split; lia.
Qed.

Lemma analytics_report_failed_counts_as_zero_witness :
  exists a,
    body (fst (handle "carol" (GetWorkspaceAnalytics "w1")
                 (Sample.env (Sample.fault_at 1 "timeout"))
                 (Sample.start Sample.store0)))
    = JsonData (OfAnalytics a)
    /\ faults (Sample.env (Sample.fault_at 1 "timeout")) 1 <> None
    /\ count_field Total a = 0
    /\ difference_field Total a <= 0.
Proof.
  eexists. split; [vm_compute; reflexivity|].
  assert (Hf : faults (Sample.env (Sample.fault_at 1 "timeout")) 1 <> None)
    by discriminate.
  split; [exact Hf|].
  exact (proj1 (proj2
           (analytics_report_failed_counts_as_zero
              (Sample.env (Sample.fault_at 1 "timeout"))
              (Sample.start Sample.store0) "carol" (GetWorkspaceAnalytics "w1")
              (TaskFilter.eq_workspace_id "w1") 1%nat _ _ _
              eq_refl (surjective_pairing _) eq_refl Total)) Hf).
Defined.

(** ** Consistency of the store *)













Lemma sample_consistent : consistent Sample.store0.
Proof.
  split; [|split; [|split]].
  - intros m [<-|[<-|[]]]; exists Sample.acme; split;
      try (left; reflexivity); reflexivity.
  - intros p [<-|[]]. exists Sample.acme. split; [left|]; reflexivity.
  - intros t [<-|[<-|[<-|[<-|[]]]]]; split;
      try (exists Sample.acme; split; [left|]; reflexivity);
      exists Sample.roadmap; split; try (left; reflexivity); reflexivity.
  - intros ws user. unfold member_rows. cbn [members Sample.store0 filter].
    destruct (String.eqb (Member.workspace_id Sample.alice) ws) eqn:Ea;
      destruct (String.eqb (Member.user_id Sample.alice) user) eqn:Eb;
      destruct (String.eqb (Member.workspace_id Sample.carol) ws) eqn:Ec;
      destruct (String.eqb (Member.user_id Sample.carol) user) eqn:Ed;
      cbn; try lia.
    apply String.eqb_eq in Eb, Ed. rewrite <- Ed in Eb. discriminate Eb.
Qed.


(** ** The membership lookup over a consistent store *)

(** X25.  [getMember] asks for a single row.  Over a store that satisfies
    UNIQUE(user_id, workspace_id), and when the query itself does not fail,
    it returns a row exactly when that row is the member row of the user in
    the workspace, and null exactly when the user has none: the lookup
    never misses a member. *)
Theorem getMember_finds_the_member_row :
  forall ws user e s,
    consistent (store s) ->
    faults e (List.length (trace s)) = None ->
    (forall m, fst (getMember ws user e s) = Some m <->
               In m (members (store s))
               /\ Member.workspace_id m = ws /\ Member.user_id m = user)
    /\ (fst (getMember ws user e s) = None <->
        forall m, In m (members (store s)) ->
                  Member.workspace_id m = ws -> Member.user_id m <> user).
Proof.
  intros ws user e s (_ & _ & _ & Hu) Hf.
  rewrite getMember_run. cbn [fst]. unfold lookup, outcome. rewrite Hf.
  specialize (Hu ws user).
  pose proof (member_rows_in ws user (store s)) as Hin.
  destruct (member_rows ws user (store s)) as [|x [|y l]]; cbn [single].
  - split.
    + intros m. split; [discriminate|].
      intros H. apply Hin in H. destruct H.
    + split; [|reflexivity]. intros _ m Hm Hws Huser.
      apply (proj2 (Hin m)). repeat split; assumption.
  - split.
    + intros m. rewrite <- Hin. cbn [In]. split.
      * intros H. injection H as ->. left. reflexivity.
      * intros [->|[]]. reflexivity.
    + split; [discriminate|]. intros H. exfalso.
      destruct (proj1 (Hin x) (or_introl eq_refl)) as (H1 & H2 & H3).
      exact (H x H1 H2 H3).
  - cbn [List.length] in Hu. lia.
Qed.

Lemma getMember_finds_the_member_row_witness :
  consistent Sample.store0
  /\ (fst (getMember "w1" "carol" (Sample.env Sample.no_faults)
                     (Sample.start Sample.store0)) = Some Sample.carol
      <-> In Sample.carol (members Sample.store0)
          /\ Member.workspace_id Sample.carol = "w1"
          /\ Member.user_id Sample.carol = "carol").
Proof.
  split; [exact sample_consistent|].
  exact (proj1 (getMember_finds_the_member_row "w1" "carol"
                  (Sample.env Sample.no_faults) (Sample.start Sample.store0)
                  sample_consistent eq_refl) Sample.carol).
Defined.
